(** * Savu: slicing, batching, distribution and padding of [Hdf5TransportData]

    A shallow embedding of [savu/data/transport_data/hdf5_transport_data.py]
    and the properties of its index arithmetic, with the check of the
    plugin list in [savu/core/plugin_runner.py].

    Conventions of the embedding:
    - a Python exception is a value of [pyerr]; a method that may raise
      returns [result A], and statements are sequenced with the bind of
      that monad;
    - dimension numbers, list positions and extents are [nat] (the code only
      ever builds them from [range], [len] and array shapes); slice bounds,
      pad widths and frame counts are [Z], since the code subtracts them
      below zero;
    - integers are unbounded, as Python's are; the [int64] products of
      [np.prod] are taken without wrap-around. *)

From stdpp Require Import base option list strings gmap.
From Stdlib Require Import ZArith Lia.

Local Open Scope Z_scope.

(** ** Python exceptions and the error monad *)

Inductive pyerr : Set :=
| IndexError
| ZeroDivisionError
| UnboundLocalError
| ValueError.

Inductive result (A : Type) : Type :=
| Ok (a : A)
| Err (e : pyerr).
Arguments Ok {A} a.
Arguments Err {A} e.

#[global] Instance result_ret : MRet result := @Ok.
#[global] Instance result_bind : MBind result :=
  λ A B f m, match m with Ok a => f a | Err e => Err e end.


(** [for x in l: acc = body(acc, x)] *)
Fixpoint for_each {A B} (body : B → A → result B) (acc : B) (l : list A)
  : result B :=
  match l with
  | [] => Ok acc
  | x :: l' => acc' ← body acc x; for_each body acc' l'
  end.

(** [[f(x) for x in l]], left to right, stopping at the first exception. *)
Fixpoint collect {A B} (f : A → result B) (l : list A) : result (list B) :=
  match l with
  | [] => Ok []
  | x :: l' => y ← f x; ys ← collect f l'; Ok (y :: ys)
  end.

(** ** Python sequences *)

(** [l[i]] for [i >= 0]: [IndexError] out of range. *)
Definition py_getitem {A} (l : list A) (i : nat) : result A :=
  match l !! i with
  | Some x => Ok x
  | None => Err IndexError
  end.

(** [l[i] = x] for [i >= 0]: [IndexError] out of range. *)
Definition py_setitem {A} (l : list A) (i : nat) (x : A) : result (list A) :=
  if decide (i < length l)%nat then Ok (<[i:=x]> l) else Err IndexError.

(** [l[a:b]] for [0 <= a]: both ends are clipped to the list. *)
Definition py_slice {A} (l : list A) (a b : nat) : list A :=
  take (b - a) (drop a l).

(** [range(start, stop, step)] of Python 2; the caller excludes [step = 0]. *)
Definition py_range (start stop step : Z) : list Z :=
  let n :=
    if 0 <? step then
      (if start <? stop then (stop - start - 1) `div` step + 1 else 0)
    else
      (if stop <? start then (start - stop - 1) `div` (- step) + 1 else 0) in
  (λ k : nat, start + Z.of_nat k * step) <$> seq 0 (Z.to_nat n).

(** [int(np.prod(l))]; the empty product is 1. *)
Definition np_prod (l : list nat) : nat := foldr Nat.mul 1%nat l.

(** ** Slices and index tuples *)

(** [slice(start, stop, step)]; [None] is an absent field. *)
Record pyslice : Set := Slice {
  start : option Z;
  stop : option Z;
  step : option Z
}.

(** An entry of an index tuple: an integer or a slice. *)
Inductive item : Set :=
| Int (i : Z)
| Sl (s : pyslice).

#[global] Instance pyslice_eq_dec : EqDecision pyslice.
Proof. solve_decision. Defined.
#[global] Instance item_eq_dec : EqDecision item.
Proof. solve_decision. Defined.

(** [slice(None)] *)
Definition whole : item := Sl (Slice None None None).
(** [slice(v, v + 1, 1)] *)
Definition unit_slice (v : Z) : item := Sl (Slice (Some v) (Some (v + 1)) (Some 1)).
(** [slice(a, b, 1)] *)
Definition range_slice (a b : Z) : item := Sl (Slice (Some a) (Some b) (Some 1)).

(** ** N-dimensional arrays

    A numpy array is its shape and its element at every index tuple. *)
Record ndarray (A : Type) : Type := NdArray {
  shape : list nat;
  at_ : list nat → A
}.
Arguments NdArray {A} shape at_.
Arguments shape {A} _.
Arguments at_ {A} _ _.

(** ** The object

    The fields and accessors of [self] that the methods below read.
    [padding_directions] is [None] when [self.padding is None], and
    otherwise the dictionary that [get_padding_dict] returns (direction to
    pad amount); the [Padding] class that fills it is outside this file. *)
Record Hdf5TransportData (A : Type) : Type := {
  get_shape : list nat;
  get_slice_directions : list nat;
  get_fixed_directions : list nat * list Z;
  get_nFrames : option Z;
  padding_directions : option (gmap nat Z);
  data : ndarray A
}.
Arguments get_shape {A} _.
Arguments get_slice_directions {A} _.
Arguments get_fixed_directions {A} _.
Arguments get_nFrames {A} _.
Arguments padding_directions {A} _.
Arguments data {A} _.

(** ** Slice enumeration *)

(** [chunk_length_repeat]: the three lists appended to in the loop over
    [range(len(slice_dirs))]. *)
Definition chunk_length_repeat (slice_dirs : list nat) (shape : list nat)
  : result (list nat * list nat * list nat) :=
  sshape ← collect (py_getitem shape) slice_dirs;
  let dims := seq 0 (length slice_dirs) in
  let chunk := (λ dim, np_prod (take dim shape)) <$> dims in
  length ← collect (py_getitem sshape) dims;
  let repeat := (λ dim, np_prod (drop (S dim) sshape)) <$> dims in
  Ok (chunk, length, repeat).

(** [np.ravel(np.kron(np.arange(l), np.ones((r, c))))]: the Kronecker product
    of a vector of length [l] with an [r] by [c] block of ones has [r] rows,
    each listing every value of [arange(l)] [c] times. *)
Definition kron_ravel (l r c : nat) : list nat :=
  concat (replicate r (flat_map (replicate c) (seq 0 l))).

Definition get_slice_dirs_index (slice_dirs : list nat) (shape : list nat)
  : result (list (list nat)) :=
  '(chunk, length, repeat) ← chunk_length_repeat slice_dirs shape;
  collect (λ dim,
    c ← py_getitem chunk dim;
    l ← py_getitem length dim;
    r ← py_getitem repeat dim;
    Ok (kron_ravel l r c)) (seq 0 (List.length slice_dirs)).

(** [np.array(idx_list).shape[1]]: the rows form a 2-d array only when
    there is at least one and all have one length; otherwise the array is
    1-d (an array of row objects, or empty) and its shape has no second
    entry. Later versions of numpy refuse rows of different lengths in
    [np.array] itself; the method raises either way. *)
Definition np_shape1 (rows : list (list nat)) : result nat :=
  match rows with
  | [] => Err IndexError
  | row :: rows' =>
      if forallb (λ row', Nat.eqb (length row') (length row)) rows'
      then Ok (length row) else Err IndexError
  end.

(** ** Frame batching: arithmetic *)

(** [int(a / float(b))]: the quotient truncated towards zero (the float
    quotient of two integers below [2^53] truncates to the same integer). *)
Definition int_float_div (a b : Z) : result Z :=
  if decide (b = 0) then Err ZeroDivisionError else Ok (a `quot` b).

(** [a % b]: the remainder has the sign of the divisor. *)
Definition py_mod (a b : Z) : result Z :=
  if decide (b = 0) then Err ZeroDivisionError else Ok (a `mod` b).

(** Reading a local variable that may not have been assigned yet. *)
Definition py_local {A} (x : option A) : result A :=
  match x with
  | Some v => Ok v
  | None => Err UnboundLocalError
  end.

(** ** Process distribution: [np.array_split] *)

Fixpoint cumsum_from (acc : nat) (l : list nat) : list nat :=
  match l with
  | [] => []
  | x :: l' => (acc + x)%nat :: cumsum_from (acc + x) l'
  end.

(** [np.array(l).cumsum()] *)
Definition cumsum (l : list nat) : list nat := cumsum_from 0 l.

(** [np.array_split(ary, Nsections)] for a 1-d array. *)
Definition np_array_split {A} (ary : list A) (Nsections : nat)
  : result (list (list A)) :=
  if decide (Nsections = 0)%nat then Err ValueError else
  let Ntotal := length ary in
  let Neach_section := (Ntotal `div` Nsections)%nat in
  let extras := (Ntotal `mod` Nsections)%nat in
  let section_sizes :=
    [0%nat] ++ replicate extras (Neach_section + 1)%nat
            ++ replicate (Nsections - extras) Neach_section in
  let div_points := cumsum section_sizes in
  collect (λ i,
    st ← py_getitem div_points i;
    end_ ← py_getitem div_points (i + 1);
    Ok (py_slice ary st end_)) (seq 0 Nsections).

(** ** Numpy indexing and padding *)

(** [slice.indices(len)]: the bounds and step a slice selects on an axis
    of extent [len]. *)
Definition slice_indices (s : pyslice) (len : Z) : result (Z * Z * Z) :=
  let st := default 1 (step s) in
  if decide (st = 0) then Err ValueError else
  let lower := if st <? 0 then -1 else 0 in
  let upper := if st <? 0 then len - 1 else len in
  let adjust v := if v <? 0 then Z.max (v + len) lower else Z.min v upper in
  let b := match start s with
           | None => if st <? 0 then upper else lower
           | Some v => adjust v
           end in
  let e := match stop s with
           | None => if st <? 0 then lower else upper
           | Some v => adjust v
           end in
  Ok (b, e, st).

(** The number of indices in the adjusted range. *)
Definition slice_length (b e st : Z) : Z :=
  if st <? 0 then (if e <? b then (b - e - 1) `div` (- st) + 1 else 0)
  else (if b <? e then (e - b - 1) `div` st + 1 else 0).

(** What one entry of an index tuple selects on its axis. *)
Inductive sel : Set :=
| SelInt (k : nat)
| SelRange (b st : Z) (len : nat).

Definition resolve_item (it : item) (n : nat) : result sel :=
  match it with
  | Int i =>
      if decide (i < - Z.of_nat n ∨ Z.of_nat n ≤ i) then Err IndexError
      else Ok (SelInt (Z.to_nat (if i <? 0 then i + Z.of_nat n else i)))
  | Sl s =>
      '(b, e, st) ← slice_indices s (Z.of_nat n);
      Ok (SelRange b st (Z.to_nat (slice_length b e st)))
  end.

(** Axes beyond the index tuple are taken whole; an index tuple longer than
    the shape is an [IndexError]. *)
Fixpoint resolve (idx : list item) (shape : list nat) : result (list sel) :=
  match idx, shape with
  | [], _ => Ok ((λ n, SelRange 0 1 n) <$> shape)
  | _ :: _, [] => Err IndexError
  | it :: idx', n :: shape' =>
      s ← resolve_item it n; ss ← resolve idx' shape'; Ok (s :: ss)
  end.

(** An integer entry removes its axis from the result. *)
Fixpoint sel_shape (ss : list sel) : list nat :=
  match ss with
  | [] => []
  | SelInt _ :: ss' => sel_shape ss'
  | SelRange _ _ len :: ss' => len :: sel_shape ss'
  end.

(** The index in the source array of the element at [i] in the result. *)
Fixpoint sel_index (ss : list sel) (i : list nat) : list nat :=
  match ss with
  | [] => []
  | SelInt k :: ss' => k :: sel_index ss' i
  | SelRange b st _ :: ss' =>
      Z.to_nat (b + Z.of_nat (hd 0%nat i) * st) :: sel_index ss' (tl i)
  end.

(** [a[tuple(idx)]] *)
Definition np_getitem {A} (a : ndarray A) (idx : list item)
  : result (ndarray A) :=
  ss ← resolve idx (shape a);
  Ok (NdArray (sel_shape ss) (λ i, at_ a (sel_index ss i))).

(** The source position of position [j] of an axis of extent [n] padded with
    [lo] copies of its first element in front (and copies of its last
    element behind). *)
Definition edge_index (n : nat) (lo : Z) (j : nat) : nat :=
  Z.to_nat (Z.min (Z.of_nat n - 1) (Z.max 0 (Z.of_nat j - lo))).

Fixpoint pad_index (shape : list nat) (pad_width : list (Z * Z))
    (i : list nat) : list nat :=
  match shape, pad_width with
  | n :: shape', (lo, _) :: pad_width' =>
      edge_index n lo (hd 0%nat i) :: pad_index shape' pad_width' (tl i)
  | _, _ => []
  end.

(** The shape after padding: each extent grows by its two pad amounts. *)
Definition padded_shape (shape : list nat) (pad_width : list (Z * Z))
  : list nat :=
  zip_with (λ n p, Z.to_nat (Z.of_nat n + p.1 + p.2)) shape pad_width.

(** [np.pad(a, pad_width, mode='edge')] with one [(before, after)] pair per
    axis; any other [pad_width], a negative amount, or padding an empty
    axis is a [ValueError]. *)
Definition np_pad_edge {A} (a : ndarray A) (pad_width : list (Z * Z))
  : result (ndarray A) :=
  if decide (length pad_width = length (shape a) ∧ shape a ≠ []) then
    if forallb (λ p, (0 <=? p.1) && (0 <=? p.2)) pad_width then
      if forallb (λ np, negb (Nat.eqb np.1 0 && ((0 <? np.2.1) || (0 <? np.2.2))))
           (zip (shape a) pad_width)
      then Ok (NdArray (padded_shape (shape a) pad_width)
                 (λ i, at_ a (pad_index (shape a) pad_width i)))
      else Err ValueError
    else Err ValueError
  else Err ValueError.

(** ** Boundary padding: the window arithmetic *)

(** [calculate_slice_padding]. With [maxval = None] the comparison
    [maxval > data_stop] is false (Python 2 orders [None] below every
    number). *)
Definition calculate_slice_padding (in_slice : item) (pad_ammount : Z)
    (data_stop : Z) : pyslice * (Z * Z) :=
  let sl := match in_slice with
            | Sl s => s
            | Int v => Slice (Some v) (Some (v + 1)) (Some 1)
            end in
  let minval := (λ s, s - pad_ammount) <$> start sl in
  let maxval := (λ s, s + pad_ammount) <$> stop sl in
  let minpad := 0 in
  let maxpad := 0 in
  let '(minpad, minval) :=
    match minval with
    | None => (pad_ammount, minval)
    | Some m => if m <? 0 then (0 - m, Some 0) else (minpad, minval)
    end in
  let maxpad := match maxval with None => pad_ammount | Some _ => maxpad end in
  let '(maxpad, maxval) :=
    match maxval with
    | Some m =>
        if data_stop <? m then (m - data_stop, Some (data_stop + 1))
        else (maxpad, maxval)
    | None => (maxpad, maxval)
    end in
  (Slice minval maxval (step sl), (minpad, maxpad)).

(** ** Closing the backing file

    The file object and the logger are outside this module: [file_filename]
    reads the attribute, [file_close] closes, both may raise and act on the
    state [World] of the outside. *)
Section SaveData.
Context {File World : Type}.
Variable file_filename : File → World → result Datatypes.unit.
Variable logging_debug : World → World.
Variable file_close : File → World → result Datatypes.unit * World.

(** The body of the [try]: the exception, if any, the value of
    [self.backing_file] and the outside state when the body ends. *)
Definition save_data_try (f : File) (w : World)
  : result Datatypes.unit * option File * World :=
  match file_filename f w with
  | Err e => (Err e, Some f, w)
  | Ok _ =>
      let w := logging_debug w in
      match file_close f w with
      | (Err e, w) => (Err e, Some f, w)
      | (Ok _, w) => (Ok (), None, w)
      end
  end.

(** [save_data]: [except: pass] replaces whatever the body raised by a
    normal return. *)
Definition save_data (backing_file : option File) (w : World)
  : result Datatypes.unit * option File * World :=
  match backing_file with
  | None => (Ok (), None, w)
  | Some f =>
      let '(r, backing_file, w) := save_data_try f w in
      match r with
      | Ok _ => (Ok (), backing_file, w)
      | Err _ => (Ok (), backing_file, w)
      end
  end.

End SaveData.

(** ** The methods of [Hdf5TransportData]

    The bodies of their loops come first, each under its own name. *)

(** The body of the inner loop of [grouped_slice_list], for the start [i]
    of one full batch: the batch range is written into [working_slice],
    which is one list updated in place for the whole bank, and a copy of it
    is appended to [grouped]. The state also carries the value the loop
    variable is left with. *)
Definition full_frame (slice_dir : list nat) (max_frames : Z)
    (state : list (list item) * list item * option Z) (i : Z)
  : result (list (list item) * list item * option Z) :=
  let '(grouped, working_slice, _) := state in
  let new_slice := range_slice i (i + max_frames) in
  d ← py_getitem slice_dir 0;
  working_slice ← py_setitem working_slice d new_slice;
  Ok (grouped ++ [working_slice], working_slice, Some i).

(** The body of the loop of [grouped_slice_list] over the banks. The loop
    variable [i] of the inner [for] is a local of the whole method: it is
    unbound until the inner loop has run once, and keeps its last value
    from one bank to the next. The counter [count] is never read and is
    left out. *)
Definition bank_frames (length : nat) (slice_dir : list nat) (max_frames : Z)
    (state : list (list item) * option Z) (group : list (list item))
  : result (list (list item) * option Z) :=
  let '(grouped, i) := state in
  full_frames ← int_float_div (Z.of_nat length) max_frames;
  m ← py_mod (Z.of_nat length) max_frames;
  let rem := if decide (m = 0) then 0 else 1 in
  working_slice ← py_getitem group 0;
  '(grouped, working_slice, i) ←
    for_each (full_frame slice_dir max_frames) (grouped, working_slice, i)
      (py_range 0 (full_frames * max_frames) max_frames);
  if decide (rem = 0) then Ok (grouped, i) else
    i' ← py_local i;
    let new_slice :=
      range_slice (i' + max_frames) (Z.of_nat (List.length group)) in
    d ← py_getitem slice_dir 0;
    working_slice ← py_setitem working_slice d new_slice;
    Ok (grouped ++ [working_slice], i).

(** The body of the loop of [get_pad_data] over the entries of the index
    tuple: a slice is kept with its pads; an integer is kept as it is and
    its pads dropped when its first pad is 0 (the test reads the first pad
    twice), and becomes a unit slice otherwise. *)
Definition pad_data_entry (slice_tup : list item) (pad_tup : list (Z * Z))
    (lists : list item * list (Z * Z)) (i : nat)
  : result (list item * list (Z * Z)) :=
  let '(slice_list, pad_list) := lists in
  it ← py_getitem slice_tup i;
  match it with
  | Sl _ =>
      p ← py_getitem pad_tup i;
      Ok (slice_list ++ [it], pad_list ++ [p])
  | Int v =>
      p ← py_getitem pad_tup i;
      if decide (p.1 = 0 ∧ p.1 = 0) then Ok (slice_list ++ [it], pad_list)
      else Ok (slice_list ++ [range_slice v (v + 1)], pad_list ++ [p])
  end.

(** [expand_list[direction] = padding_dict[direction]] *)
Definition set_expand (expand_list : list Z) (entry : nat * Z)
  : result (list Z) :=
  let '(direction, pad_ammount) := entry in
  py_setitem expand_list direction pad_ammount.

(** The body of the loop that builds [slice_list_2] in
    [get_unpadded_slice_data]. *)
Definition strip_entry (expand_list : list Z) (i : nat) : result item :=
  e ← py_getitem expand_list i;
  if decide (0 < e) then Ok (Sl (Slice (Some e) (Some (- e)) None))
  else Ok (Sl (Slice None None None)).

(** The body of the loop over the fixed directions in [single_slice_list]:
    [getitem[fix_dirs[f]] = slice(value[f], value[f] + 1, 1)]. *)
Definition set_fix_dirs (fix_dirs : list nat) (value : list Z)
    (getitem : list item) (f : nat) : result (list item) :=
  v ← py_getitem value f;
  d ← py_getitem fix_dirs f;
  py_setitem getitem d (range_slice v (v + 1)).

(** The body of the loop over the slice directions in [single_slice_list],
    for descriptor number [i]: [getitem[slice_dirs[sdir]] = slice(index[sdir, i],
    index[sdir, i] + 1, 1)]. *)
Definition set_slice_dirs (index : list (list nat)) (slice_dirs : list nat)
    (i : nat) (getitem : list item) (sdir : nat) : result (list item) :=
  row ← py_getitem index sdir;
  v ← py_getitem row i;
  d ← py_getitem slice_dirs sdir;
  py_setitem getitem d (unit_slice (Z.of_nat v)).

Section Methods.
Context {A : Type}.
Implicit Types self : Hdf5TransportData A.

Definition single_slice_list self : result (list (list item)) :=
  let slice_dirs := get_slice_directions self in
  let '(fix_dirs, value) := get_fixed_directions self in
  let shape := get_shape self in
  index ← get_slice_dirs_index slice_dirs shape;
  nSlices ← np_shape1 index;
  let nDims := length shape in
  collect (λ i,
    let getitem := replicate nDims whole in
    getitem ← for_each (set_fix_dirs fix_dirs value)
      getitem (seq 0 (length fix_dirs));
    for_each (set_slice_dirs index slice_dirs i)
      getitem (seq 0 (length slice_dirs)))
    (seq 0 nSlices).

Definition banked_list self (slice_list : list (list item))
  : result (list (list (list item)) * nat * list nat) :=
  let shape := get_shape self in
  let slice_dirs := get_slice_directions self in
  '(chunk, length, repeat) ← chunk_length_repeat slice_dirs shape;
  repeat0 ← py_getitem repeat 0;
  banked ← collect (λ rep,
      length0 ← py_getitem length 0;
      let start := (rep * length0)%nat in
      let end_ := (start + length0)%nat in
      Ok (py_slice slice_list start end_)) (seq 0 repeat0);
  length0 ← py_getitem length 0;
  Ok (banked, length0, slice_dirs).

(** [grouped_slice_list]: the banks are processed in order by
    [bank_frames], starting with no batch and with [i] unbound. *)
Definition grouped_slice_list self (slice_list : list (list item))
    (max_frames : Z) : result (list (list item)) :=
  '(banked, length, slice_dir) ← banked_list self slice_list;
  '(grouped, _) ←
    for_each (bank_frames length slice_dir max_frames) ([], None) banked;
  Ok grouped.

(** [get_grouped_slice_list]. [single_slice_list] returns a list whenever it
    returns, so the [sl is None] branch is never taken. *)
Definition get_grouped_slice_list self : result (list (list item)) :=
  let max_frames := get_nFrames self in
  let max_frames := match max_frames with None => 1 | Some m => m end in
  sl ← single_slice_list self;
  grouped_slice_list self sl max_frames.

(** [get_slice_list_per_process]: [processes] is
    [len(expInfo.get_meta_data("processes"))], [process] the rank of this
    process; the second component is [frame_index] when [frameList] is
    set. *)
Definition get_slice_list_per_process self (processes process : nat)
    (frameList : bool) : result (list (list item) * option (list nat)) :=
  slice_list ← get_grouped_slice_list self;
  let frame_index := seq 0 (length slice_list) in
  split ← np_array_split frame_index processes;
  frames ← py_getitem split process;
  first ← py_getitem frames 0;
  last_ ← py_getitem frames (length frames - 1);
  let mine := py_slice slice_list first (last_ + 1) in
  Ok (mine, if frameList then Some frame_index else None).

Definition get_pad_data self (slice_tup : list item) (pad_tup : list (Z * Z))
  : result (ndarray A) :=
  '(slice_list, pad_list) ←
    for_each (pad_data_entry slice_tup pad_tup) ([], [])
      (seq 0 (length slice_tup));
  data_slice ← np_getitem (data self) slice_list;
  np_pad_edge data_slice pad_list.

(** The body of the loop over [padding_dict.keys()] shared by the two
    methods below: the padded direction gets its clipped slice and its pad
    pair, computed against [extent]. *)
Definition pad_direction (extent : nat → result nat)
    (lists : list item * list (Z * Z)) (entry : nat * Z)
  : result (list item * list (Z * Z)) :=
  let '(slice_list, pad_list) := lists in
  let '(direction, pad_ammount) := entry in
  in_slice ← py_getitem slice_list direction;
  data_stop ← extent direction;
  let '(out_slice, pads) :=
    calculate_slice_padding in_slice pad_ammount (Z.of_nat data_stop) in
  slice_list ← py_setitem slice_list direction (Sl out_slice);
  pad_list ← py_setitem pad_list direction pads;
  Ok (slice_list, pad_list).

(** The loop itself. A dictionary holds each direction once, and an
    iteration writes only at its own direction, so the order in which the
    keys come does not matter. *)
Definition pad_directions (padding_dict : gmap nat Z)
    (extent : nat → result nat) (slice_list : list item)
    (pad_list : list (Z * Z)) : result (list item * list (Z * Z)) :=
  for_each (pad_direction extent) (slice_list, pad_list)
    (map_to_list padding_dict).

Definition get_padded_slice_data self (input_slice_list : list item)
  : result (ndarray A) :=
  let slice_list := input_slice_list in
  match padding_directions self with
  | None => np_getitem (data self) slice_list
  | Some padding_dict =>
      let pad_list := replicate (length slice_list) (0, 0) in
      '(slice_list, pad_list) ←
        pad_directions padding_dict (py_getitem (get_shape self))
          slice_list pad_list;
      get_pad_data self slice_list pad_list
  end.

Definition get_unpadded_slice_data self (input_slice_list : list item)
    (padded_dataset : ndarray A) : result (ndarray A) :=
  match padding_directions self with
  | None => np_getitem (data self) input_slice_list
  | Some padding_dict =>
      let slice_list := input_slice_list in
      let pad_list := replicate (length slice_list) (0, 0) in
      let expand_list := replicate (length slice_list) 0 in
      _ ← pad_directions padding_dict (py_getitem (shape padded_dataset))
            slice_list pad_list;
      expand_list ← for_each set_expand expand_list
                      (map_to_list padding_dict);
      slice_list_2 ← collect (strip_entry expand_list)
                       (seq 0 (length (shape padded_dataset)));
      np_getitem padded_dataset slice_list_2
  end.

End Methods.

(** ** Orthogonal projection *)

(** [l.remove(x)]: the first occurrence goes; [ValueError] when there is
    none. *)
Fixpoint py_remove (x : Z) (l : list Z) : result (list Z) :=
  match l with
  | [] => Err ValueError
  | y :: l' =>
      if decide (y = x) then Ok l'
      else l'' ← py_remove x l'; Ok (y :: l'')
  end.

(** [l[i]] for any integer [i]: a negative index counts from the end. *)
Definition py_getitem_int {A} (l : list A) (i : Z) : result A :=
  if decide (0 ≤ i) then py_getitem l (Z.to_nat i)
  else if decide (0 ≤ Z.of_nat (length l) + i)
       then py_getitem l (Z.to_nat (Z.of_nat (length l) + i))
       else Err IndexError.

(** [get_orthogonal_slice]; it reads nothing of [self]. *)
Definition get_orthogonal_slice {A} (full_slice : list A)
    (core_direction : list Z) : result (list A) :=
  let dirs := py_range 0 (Z.of_nat (length full_slice)) 1 in
  dirs ← for_each (λ dirs direction, py_remove direction dirs)
           dirs core_direction;
  for_each (λ result direction,
              x ← py_getitem_int full_slice direction; Ok (result ++ [x]))
    [] dirs.

(** ** The plugin runner: loaders and savers

    What ends [__check_loaders_and_savers] other than a return: an
    exception of the list accesses, a [KeyError] of a plugin entry without
    the key, or [sys.exit] with its message. *)
Inductive stop_reason : Type :=
| Exception (e : pyerr)
| KeyError (key : string)
| SystemExit (message : string).

(** [d[key]] on a dictionary. *)
Definition dict_getitem {V} (d : gmap string V) (key : string)
  : stop_reason + V :=
  match d !! key with
  | Some v => inr v
  | None => inl (KeyError key)
  end.

(** Loading a plugin and the two [isinstance] tests are outside this
    module: [load_plugin] gives the plugin of an id, [is_loader] and
    [is_saver] say whether it inherits from [BaseLoader], [BaseSaver]. *)
Section PluginRunner.
Context {Id Plugin : Type}.
Variable load_plugin : Id → Plugin.
Variable is_loader is_saver : Plugin → bool.

Definition check_loaders_and_savers (plugin_list : list (gmap string Id))
  : stop_reason + unit :=
  match py_getitem_int plugin_list 0 with
  | Err e => inl (Exception e)
  | Ok first_plugin =>
  match py_getitem_int plugin_list (-1) with
  | Err e => inl (Exception e)
  | Ok end_plugin =>
  match dict_getitem first_plugin "id" with
  | inl r => inl r
  | inr first_id =>
  let plugin := load_plugin first_id in
  if negb (is_loader plugin) then
    inl (SystemExit
           "The first plugin in the process must inherit from BaseLoader")
  else
  match dict_getitem end_plugin "id" with
  | inl r => inl r
  | inr end_id =>
  let plugin := load_plugin end_id in
  if negb (is_saver plugin) then
    inl (SystemExit
           "The final plugin in the process must inherit from BaseSaver")
  else inr tt
  end end end end.

End PluginRunner.

(** ** Notions used in the statements *)

(** Two arrays are equal when they have one shape and the same element at
    every index within it. *)
Definition array_eq {A} (a b : ndarray A) : Prop :=
  shape a = shape b ∧
  ∀ i, Forall2 lt i (shape a) → at_ a i = at_ b i.

(** An entry of a window on an axis of extent [n]: a slice of unit step
    whose range, with absent bounds standing for the ends of the axis, lies
    within [0, n]. *)
Definition in_bounds (n : nat) (it : item) : Prop :=
  match it with
  | Int _ => False
  | Sl s =>
      (step s = None ∨ step s = Some 1) ∧
      0 ≤ default 0 (start s) ∧
      default 0 (start s) ≤ default (Z.of_nat n) (stop s) ∧
      default (Z.of_nat n) (stop s) ≤ Z.of_nat n
  end.

(** The two ends of the range an entry asks for. *)
Definition lo_of (it : item) : Z :=
  match it with Sl s => default 0 (start s) | Int i => i end.
Definition hi_of (n : nat) (it : item) : Z :=
  match it with Sl s => default (Z.of_nat n) (stop s) | Int i => i + 1 end.

(** A bound of a slice adjusted to an axis of extent [n], as
    [slice_indices] does for a positive step. *)
Definition adjust (n v : Z) : Z :=
  if v <? 0 then Z.max (v + n) 0 else Z.min v n.

(** What the padding methods do along one direction, given its entry [p] of
    the padding dictionary, if any: the slice that is read, the pads of the
    read, and the slice that strips the pads again. *)
Definition read_item (p : option Z) (n : nat) (it : item) : item :=
  match p with
  | Some p => Sl (calculate_slice_padding it p (Z.of_nat n)).1
  | None => it
  end.

Definition read_pads (p : option Z) (n : nat) (it : item) : Z * Z :=
  match p with
  | Some p => (calculate_slice_padding it p (Z.of_nat n)).2
  | None => (0, 0)
  end.

Definition strip_item (p : option Z) : item :=
  if decide (0 < default 0 p)
  then Sl (Slice (Some (default 0 p)) (Some (- default 0 p)) None)
  else Sl (Slice None None None).

(** The same along every direction; [l] pairs each extent with the entry of
    the window on that axis, [pf] is the lookup in the padding dictionary. *)
Definition read_slices (pf : nat → option Z) (l : list (nat * item))
  : list item :=
  imap (λ d x, read_item (pf d) x.1 x.2) l.
Definition read_pad_list (pf : nat → option Z) (l : list (nat * item))
  : list (Z * Z) :=
  imap (λ d x, read_pads (pf d) x.1 x.2) l.
Definition strip_slices (pf : nat → option Z) (l : list (nat * item))
  : list item :=
  imap (λ d _, strip_item (pf d)) l.

(** The first batch of rank [r] when [n] batches are split over [P]
    processes: every rank before it has [n / P] batches, and the first
    [n mod P] of them one more. *)
Definition share_start (n P r : nat) : nat :=
  (r * (n `div` P) + (r `min` (n `mod` P)))%nat.

(** The batch ranges the specification asks for on a bank of length [L]:
    [floor(L / max_frames)] ranges of exactly [max_frames] positions, and
    one trailing range for the remainder when [L mod max_frames] is not
    0. *)
Definition spec_batches (L max_frames : Z) : list (Z * Z) :=
  ((λ k : nat, (Z.of_nat k * max_frames, Z.of_nat k * max_frames + max_frames))
     <$> seq 0 (Z.to_nat (L `div` max_frames)))
  ++ (if decide (L `mod` max_frames = 0) then []
      else [(L `div` max_frames * max_frames, L)]).

(** The ranges of a list follow one another from [a] to [b], each of them
    non-empty. *)
Fixpoint contiguous (a : Z) (ranges : list (Z * Z)) (b : Z) : Prop :=
  match ranges with
  | [] => a = b
  | (x, y) :: ranges' => x = a ∧ x < y ∧ contiguous y ranges' b
  end.

(** The batches of one bank: the first descriptor of the bank with the
    batch range written along direction [d]. *)
Definition bank_batches (d : nat) (L max_frames : Z) (group : list (list item))
  : list (list item) :=
  match group with
  | [] => []
  | working_slice :: _ =>
      (λ r, <[d:=range_slice r.1 r.2]> working_slice)
        <$> spec_batches L max_frames
  end.

(** A descriptor lies at the coordinates [c] of the slice subspace: along
    the slice direction at each position [k] of the list it has the unit
    range at [c[k]]. *)
Definition at_coordinates {A} (self : Hdf5TransportData A)
    (desc : list item) (c : list nat) : Prop :=
  ∀ k d ck, get_slice_directions self !! k = Some d → c !! k = Some ck →
    desc !! d = Some (unit_slice (Z.of_nat ck)).

(** The padded read, described from outside: along each direction the
    window grows by the pad width on both sides, and a position outside the
    array reads the nearest element of the array. *)
Definition extended_shape (pf : nat → option Z) (l : list (nat * item))
  : list nat :=
  imap (λ d x, Z.to_nat (hi_of x.1 x.2 - lo_of x.2 + 2 * default 0 (pf d))) l.

Fixpoint extended_index (pf : nat → option Z) (l : list (nat * item))
    (i : list nat) : list nat :=
  match l with
  | [] => []
  | x :: l' =>
      Z.to_nat (Z.min (Z.of_nat x.1 - 1)
                  (Z.max 0 (lo_of x.2 - default 0 (pf 0%nat)
                            + Z.of_nat (hd 0%nat i))))
      :: extended_index (pf ∘ S) l' (tl i)
  end.

(** Stripping, described from outside: along each padded direction the pad
    width is taken off both ends. *)
Definition stripped_shape (pf : nat → option Z) (shape : list nat) : list nat :=
  imap (λ d m, Z.to_nat (Z.of_nat m - 2 * default 0 (pf d))) shape.

Fixpoint stripped_index (pf : nat → option Z) (shape : list nat)
    (i : list nat) : list nat :=
  match shape with
  | [] => []
  | _ :: shape' =>
      Z.to_nat (default 0 (pf 0%nat) + Z.of_nat (hd 0%nat i))
      :: stripped_index (pf ∘ S) shape' (tl i)
  end.

(** The directions of [n] axes outside [core], in increasing order. *)
Definition orthogonal_dirs (n : nat) (core : list Z) : list nat :=
  filter (λ d, Z.of_nat d ∉ core) (seq 0 n).

(** ** Datasets of the examples *)

(** A dataset of the given shape with no data behind it, for the methods
    that only read the metadata. *)
Definition dataset (shape slice_dirs fix_dirs : list nat) (value : list Z)
    (nFrames : option Z) : Hdf5TransportData unit :=
  {| get_shape := shape;
     get_slice_directions := slice_dirs;
     get_fixed_directions := (fix_dirs, value);
     get_nFrames := nFrames;
     padding_directions := None;
     data := NdArray shape (λ _, tt) |}.

(** A line of ten elements, each holding its own position, padded by 2
    along its only direction. *)
Definition ten_padded_by_2 : Hdf5TransportData nat :=
  {| get_shape := [10%nat];
     get_slice_directions := [0%nat];
     get_fixed_directions := ([], []);
     get_nFrames := None;
     padding_directions := Some {[0%nat := 2]};
     data := NdArray [10%nat] (hd 0%nat) |}.

(** A 2 by 3 by 4 volume sliced along direction 0, with direction 1 fixed
    at 2. *)
Definition volume_fixed : Hdf5TransportData unit :=
  dataset [2; 3; 4]%nat [0%nat] [1%nat] [2] None.

(** The same volume sliced along its two leading directions, with
    direction 2 fixed at 1. *)
Definition volume_leading : Hdf5TransportData unit :=
  dataset [2; 3; 4]%nat [0; 1]%nat [2%nat] [1] None.

(** A 2 by 3 grid sliced along both directions, and its six descriptors. *)
Definition grid_2_3 : Hdf5TransportData unit :=
  dataset [2; 3]%nat [0; 1]%nat [] [] None.

Definition grid_2_3_slices : list (list item) :=
  [[unit_slice 0; unit_slice 0]; [unit_slice 1; unit_slice 0];
   [unit_slice 0; unit_slice 1]; [unit_slice 1; unit_slice 1];
   [unit_slice 0; unit_slice 2]; [unit_slice 1; unit_slice 2]].



(** A line of seventeen frames. *)
Definition line_17 : Hdf5TransportData unit :=
  dataset [17%nat] [0%nat] [] [] None.

(** A line of ten elements, each holding its own position, without
    padding. *)
Definition ten_unpadded : Hdf5TransportData nat :=
  {| get_shape := [10%nat];
     get_slice_directions := [0%nat];
     get_fixed_directions := ([], []);
     get_nFrames := None;
     padding_directions := None;
     data := NdArray [10%nat] (hd 0%nat) |}.

(** * Properties *)

(** ** The error monad and the loops *)

Lemma bind_Ok {A B} (m : result A) (f : A → result B) b :
  m ≫= f = Ok b ↔ ∃ a, m = Ok a ∧ f a = Ok b.
Proof.
  destruct m as [a|e]; simpl; split.
  - eauto.
  - by intros (a' & [= <-] & ?).
  - done.
  - by intros (a' & ? & _).
Qed.

Lemma py_getitem_Ok {A} (l : list A) i x :
  py_getitem l i = Ok x ↔ l !! i = Some x.
Proof. unfold py_getitem. destruct (l !! i); naive_solver. Qed.

Lemma py_setitem_Ok {A} (l : list A) i x l' :
  py_setitem l i x = Ok l' ↔ (i < length l)%nat ∧ l' = <[i:=x]> l.
Proof.
  unfold py_setitem. case_decide.
  - split; [by intros [= <-] | by intros [_ ->]].
  - split; [done | by intros [? _]].
Qed.

Lemma collect_Ok {A B} (f : A → result B) l ys :
  collect f l = Ok ys ↔ Forall2 (λ x y, f x = Ok y) l ys.
Proof.
  revert ys. induction l as [|x l IH]; intros ys; simpl.
  - split; [intros [= <-]; constructor | by inversion 1].
  - rewrite bind_Ok. split.
    + intros (y & Hy & H). apply bind_Ok in H as (ys' & Hys & [= <-]).
      constructor; [done | by apply IH].
    + inversion 1 as [|? y ? ys' Hy Hys]; subst. exists y. split; [done|].
      apply bind_Ok. exists ys'. split; [by apply IH | done].
Qed.

Lemma collect_getitem_seq {A} (l : list A) :
  collect (py_getitem l) (seq 0 (length l)) = Ok l.
Proof.
  apply collect_Ok, Forall2_same_length_lookup. split.
  - by rewrite length_seq.
  - intros i x y Hx Hy. apply lookup_seq in Hx as [-> _].
    by apply py_getitem_Ok.
Qed.

Lemma for_each_app {A B} (body : B → A → result B) acc l1 l2 :
  for_each body acc (l1 ++ l2) =
  acc' ← for_each body acc l1; for_each body acc' l2.
Proof.
  revert acc. induction l1 as [|x l1 IH]; intros acc; simpl; [done|].
  destruct (body acc x); simpl; [apply IH | done].
Qed.

(** ** Slice enumeration *)

(** *** The index rows of [get_slice_dirs_index] *)

Lemma np_prod_cons x l : np_prod (x :: l) = (x * np_prod l)%nat.
Proof. done. Qed.

Lemma np_prod_app l1 l2 : np_prod (l1 ++ l2) = (np_prod l1 * np_prod l2)%nat.
Proof. induction l1; simpl; lia. Qed.

Lemma np_prod_take_drop k l :
  np_prod l = (np_prod (take k l) * np_prod (drop k l))%nat.
Proof. by rewrite <- np_prod_app, take_drop. Qed.

Lemma np_prod_drop_S k l x :
  l !! k = Some x → np_prod (drop k l) = (x * np_prod (drop (S k) l))%nat.
Proof. intros H. by rewrite (drop_S _ _ _ H). Qed.

Lemma length_flat_replicate c s l :
  length (flat_map (replicate c) (seq s l)) = (l * c)%nat.
Proof.
  revert s. induction l as [|l IH]; intros s; simpl; [done|].
  rewrite length_app, length_replicate, IH. lia.
Qed.

Lemma lookup_flat_replicate c s l j :
  (j < l * c)%nat →
  flat_map (replicate c) (seq s l) !! j = Some (s + j `div` c)%nat.
Proof.
  revert s j. induction l as [|l IH]; intros s j Hj; simpl; [lia|].
  assert (0 < c)%nat by lia.
  destruct (decide (j < c)%nat) as [Hlt|Hge].
  - rewrite lookup_app_l by (by rewrite length_replicate).
    rewrite Nat.div_small by done. rewrite Nat.add_0_r.
    by apply lookup_replicate_2.
  - rewrite lookup_app_r by (rewrite length_replicate; lia).
    rewrite length_replicate, IH by lia. f_equal.
    replace j with ((j - c) + 1 * c)%nat at 2 by lia.
    rewrite Nat.div_add by lia. lia.
Qed.

Lemma length_concat_replicate {A} r (xs : list A) :
  length (concat (replicate r xs)) = (r * length xs)%nat.
Proof. induction r; simpl; [done|]. rewrite length_app. lia. Qed.

Lemma lookup_concat_replicate {A} r (xs : list A) i :
  (i < r * length xs)%nat →
  concat (replicate r xs) !! i = xs !! (i `mod` length xs)%nat.
Proof.
  revert i. induction r as [|r IH]; intros i Hi; simpl; [lia|].
  assert (0 < length xs)%nat by lia.
  destruct (decide (i < length xs)%nat).
  - rewrite lookup_app_l by done. by rewrite Nat.mod_small.
  - rewrite lookup_app_r by lia. rewrite IH by lia. f_equal.
    replace i with ((i - length xs) + 1 * length xs)%nat at 2 by lia.
    by rewrite Nat.Div0.mod_add.
Qed.

Lemma length_kron_ravel l r c :
  length (kron_ravel l r c) = (r * (l * c))%nat.
Proof.
  unfold kron_ravel. by rewrite length_concat_replicate, length_flat_replicate.
Qed.

(** Position [i] of a row holds digit [(i / c) mod l]. *)
Lemma lookup_kron_ravel l r c i :
  (i < r * (l * c))%nat →
  kron_ravel l r c !! i = Some ((i `div` c) `mod` l)%nat.
Proof.
  intros Hi. unfold kron_ravel.
  rewrite lookup_concat_replicate by (by rewrite length_flat_replicate).
  rewrite length_flat_replicate.
  assert (0 < l * c)%nat by lia. assert (0 < c)%nat by lia.
  rewrite lookup_flat_replicate by (apply Nat.mod_upper_bound; lia).
  f_equal. simpl. rewrite (Nat.mul_comm l c).
  rewrite Nat.Div0.mod_mul_r.
  rewrite (Nat.mul_comm c), Nat.div_add by lia.
  rewrite (Nat.div_small (i `mod` c)) by (apply Nat.mod_upper_bound; lia).
  done.
Qed.

Lemma chunk_length_repeat_Ok slice_dirs shape chunk length repeat :
  chunk_length_repeat slice_dirs shape = Ok (chunk, length, repeat) →
  Forall2 (λ d l, shape !! d = Some l) slice_dirs length ∧
  chunk = (λ dim, np_prod (take dim shape)) <$> seq 0 (List.length slice_dirs) ∧
  repeat = (λ dim, np_prod (drop (S dim) length)) <$> seq 0 (List.length slice_dirs).
Proof.
  unfold chunk_length_repeat. intros H.
  apply bind_Ok in H as (sshape & Hs & H).
  apply collect_Ok in Hs.
  assert (List.length slice_dirs = List.length sshape) as Hlen
    by eapply Forall2_length, Hs.
  rewrite Hlen, collect_getitem_seq in H. simpl in H.
  injection H as <- <- <-. rewrite Hlen. split_and!; [|done..].
  eapply Forall2_impl; [exact Hs|]. intros d l. by rewrite py_getitem_Ok.
Qed.

(** C7 (code defect): for the shape (4, 2, 2) sliced along directions
    (1, 2) the chunk factor at position 1 is 4, the extent of direction 0 of
    the whole shape, whereas the product of the earlier slice lengths is
    2. *)
Theorem chunk_from_whole_shape :
  ∃ chunk length repeat,
    chunk_length_repeat [1; 2]%nat [4; 2; 2]%nat = Ok (chunk, length, repeat) ∧
    chunk !! 1%nat = Some 4%nat ∧
    np_prod (take 1 length) = 2%nat.
Proof. by eexists _, _, _. Qed.

Lemma get_slice_dirs_index_Ok slice_dirs shape index :
  get_slice_dirs_index slice_dirs shape = Ok index →
  ∃ chunk length repeat,
    chunk_length_repeat slice_dirs shape = Ok (chunk, length, repeat) ∧
    List.length index = List.length slice_dirs ∧
    ∀ k l, length !! k = Some l →
      index !! k = Some (kron_ravel l (np_prod (drop (S k) length))
                           (np_prod (take k shape))).
Proof.
  unfold get_slice_dirs_index. intros H.
  apply bind_Ok in H as ([[chunk length] repeat] & Hclr & H).
  exists chunk, length, repeat. split; [done|].
  apply chunk_length_repeat_Ok in Hclr as (Hl & -> & ->).
  apply collect_Ok in H.
  pose proof (Forall2_length _ _ _ H) as Hlen. rewrite length_seq in Hlen.
  pose proof (Forall2_length _ _ _ Hl) as Hlen'.
  split; [done|]. intros k l Hk.
  assert (k < List.length slice_dirs)%nat as Hlt
    by (rewrite Hlen'; eapply lookup_lt_Some, Hk).
  destruct (lookup_lt_is_Some_2 index k) as [row Hrow]; [lia|].
  eapply Forall2_lookup_lr in H; [|by apply lookup_seq_lt|exact Hrow].
  simpl in H.
  apply bind_Ok in H as (c & Hc & H). apply bind_Ok in H as (l' & Hl' & H).
  apply bind_Ok in H as (r & Hr & [= <-]).
  apply py_getitem_Ok in Hc, Hl', Hr.
  rewrite list_lookup_fmap, lookup_seq_lt in Hc, Hr by done.
  simpl in Hc, Hr. injection Hc as <-. injection Hr as <-.
  rewrite Hrow. congruence.
Qed.

Lemma np_shape1_Ok rows n :
  np_shape1 rows = Ok n →
  rows ≠ [] ∧ ∀ k row, rows !! k = Some row → List.length row = n.
Proof.
  destruct rows as [|row rows]; simpl; [done|].
  destruct (forallb _ _) eqn:Hall; [|done]. intros [= <-]. split; [done|].
  intros [|k] row'; simpl; [by intros [= <-]|]. intros Hk.
  rewrite forallb_forall in Hall.
  apply Nat.eqb_eq, Hall, list_elem_of_In. by eapply list_elem_of_lookup_2.
Qed.

(** When the rows of the index form a 2-d array with at least one column,
    the chunk factor computed from the whole shape coincides with the
    product of the earlier slice lengths. *)
Lemma rectangular_chunk slice_dirs shape index chunk length repeat n k :
  get_slice_dirs_index slice_dirs shape = Ok index →
  chunk_length_repeat slice_dirs shape = Ok (chunk, length, repeat) →
  np_shape1 index = Ok n → (0 < n)%nat → (k < List.length length)%nat →
  n = np_prod length ∧ np_prod (take k shape) = np_prod (take k length).
Proof.
  intros Hidx Hclr Hshape Hn Hk.
  apply get_slice_dirs_index_Ok in Hidx as (c' & l' & r' & Hclr' & Hlen & Hrows).
  rewrite Hclr in Hclr'. injection Hclr' as <- <- <-.
  apply np_shape1_Ok in Hshape as [_ Hall].
  destruct (lookup_lt_is_Some_2 length 0) as [l0 Hl0]; [lia|].
  destruct (lookup_lt_is_Some_2 length k) as [lk Hlk]; [done|].
  pose proof (Hall _ _ (Hrows _ _ Hl0)) as H0.
  pose proof (Hall _ _ (Hrows _ _ Hlk)) as H1.
  rewrite length_kron_ravel in H0, H1. simpl in H0.
  assert (n = np_prod length) as Hprod.
  { rewrite <- H0. rewrite (np_prod_take_drop 0 length). simpl.
    rewrite drop_0. destruct length; simplify_eq/=. rewrite drop_0. lia. }
  split; [done|].
  rewrite (np_prod_take_drop k length), (np_prod_drop_S _ _ _ Hlk) in Hprod.
  nia.
Qed.

(** *** The descriptors of [single_slice_list] *)

Lemma set_slice_dirs_lookup index slice_dirs i n getitem getitem' :
  NoDup slice_dirs →
  for_each (set_slice_dirs index slice_dirs i) getitem (seq 0 n) = Ok getitem' →
  ∀ k d, (k < n)%nat → slice_dirs !! k = Some d →
    ∃ row v, index !! k = Some row ∧ row !! i = Some v ∧
      getitem' !! d = Some (unit_slice (Z.of_nat v)).
Proof.
  intros Hnd. revert getitem'.
  induction n as [|n IH]; intros g' Hloop k d Hk Hd; [lia|].
  rewrite seq_S, for_each_app in Hloop. simpl in Hloop.
  apply bind_Ok in Hloop as (g1 & Hg1 & Hstep).
  apply bind_Ok in Hstep as (g2 & Hstep & [= <-]).
  unfold set_slice_dirs in Hstep.
  apply bind_Ok in Hstep as (row & Hrow & Hstep).
  apply bind_Ok in Hstep as (v & Hv & Hstep).
  apply bind_Ok in Hstep as (dn & Hdn & Hset).
  apply py_getitem_Ok in Hrow, Hv, Hdn.
  apply py_setitem_Ok in Hset as [Hlt ->].
  destruct (decide (k = n)) as [->|Hne].
  - assert (dn = d) as -> by congruence. exists row, v.
    split_and!; [done..|]. by apply list_lookup_insert_eq.
  - destruct (IH g1 Hg1 k d) as (row' & v' & ? & ? & Hg); [lia|done|].
    exists row', v'. split_and!; [done..|].
    rewrite list_lookup_insert_ne; [done|].
    intros ->. apply Hne. symmetry. by eapply NoDup_lookup.
Qed.

(** The general form of the order of enumeration: in descriptor number [i],
    the slice direction at position [k] of the list has the digit of [i] of
    weight [product(length[0:k])], so the first slice direction is the least
    significant digit. *)
Lemma single_slice_list_digits {A} (self : Hdf5TransportData A) sl :
  NoDup (get_slice_directions self) →
  single_slice_list self = Ok sl →
  ∃ chunk length repeat,
    chunk_length_repeat (get_slice_directions self) (get_shape self)
      = Ok (chunk, length, repeat) ∧
    List.length sl = np_prod length ∧
    ∀ i k d desc,
      sl !! i = Some desc → get_slice_directions self !! k = Some d →
      ∃ l, length !! k = Some l ∧
        desc !! d = Some (unit_slice
          (Z.of_nat ((i `div` np_prod (take k length)) `mod` l))).
Proof.
  intros Hnd Hsl. unfold single_slice_list in Hsl.
  destruct (get_fixed_directions self) as [fix_dirs value].
  apply bind_Ok in Hsl as (index & Hidx & Hsl).
  apply bind_Ok in Hsl as (n & Hn & Hsl).
  destruct (get_slice_dirs_index_Ok _ _ _ Hidx)
    as (chunk & length & repeat & Hclr & Hlen & Hrows).
  exists chunk, length, repeat. split; [done|].
  apply collect_Ok in Hsl.
  pose proof (Forall2_length _ _ _ Hsl) as Hlsl. rewrite length_seq in Hlsl.
  destruct (chunk_length_repeat_Ok _ _ _ _ _ Hclr) as (Hl & _ & _).
  pose proof (Forall2_length _ _ _ Hl) as Hll.
  split.
  - destruct (decide (n = 0)%nat) as [->|Hpos].
    + apply np_shape1_Ok in Hn as [Hne Hall].
      destruct index as [|row index]; [done|]. simpl in Hlen.
      destruct length as [|l0 length]; [simpl in Hll; lia|].
      specialize (Hall 0%nat _ (Hrows 0%nat l0 eq_refl)).
      rewrite length_kron_ravel in Hall. simpl in *.
      rewrite drop_0 in Hall. lia.
    + rewrite <- Hlsl.
      assert (0 < List.length length)%nat.
      { apply np_shape1_Ok in Hn as [Hne _]. destruct index; [done|].
        simpl in Hlen. lia. }
      by eapply (rectangular_chunk _ _ _ _ _ _ n 0%nat); [| | |lia|].
  - intros i k d desc Hi Hk.
    assert (i < n)%nat as Hin by (rewrite Hlsl; eapply lookup_lt_Some, Hi).
    eapply Forall2_lookup_lr in Hsl; [|by apply lookup_seq_lt|exact Hi].
    simpl in Hsl. apply bind_Ok in Hsl as (g1 & _ & Hloop).
    destruct (set_slice_dirs_lookup _ _ _ _ _ _ Hnd Hloop k d)
      as (row & v & Hrow & Hv & Hdesc); [by eapply lookup_lt_Some|done|].
    destruct (Forall2_lookup_l _ _ _ _ _ Hl Hk) as (l & Hlk & _).
    exists l. split; [done|]. rewrite Hdesc. do 3 f_equal.
    rewrite (Hrows _ _ Hlk) in Hrow. injection Hrow as <-.
    pose proof Hn as Hn'. apply np_shape1_Ok in Hn' as [_ Hall].
    pose proof (Hall _ _ (Hrows _ _ Hlk)) as Hrl.
    rewrite lookup_kron_ravel in Hv by (rewrite <- length_kron_ravel; lia).
    injection Hv as <-.
    destruct (rectangular_chunk _ _ _ _ _ _ n k Hidx Hclr Hn) as [_ ->];
      [lia|by eapply lookup_lt_Some|done].
Qed.

(** C6 (as amended): the descriptors are enumerated as a nested loop over
    the slice directions in which earlier entries of the list vary faster
    and later entries vary slower. Whenever [single_slice_list] returns,
    descriptor number [i] has, along the slice direction at position [k] of
    the list, the unit range at coordinate
    [(i / product(length[0:k])) mod length[k]]; the first slice direction
    of the list is the one that changes from each descriptor to the next. *)
Theorem single_slice_list_first_fastest {A} (self : Hdf5TransportData A)
    sl chunk length repeat i k d desc :
  NoDup (get_slice_directions self) →
  single_slice_list self = Ok sl →
  chunk_length_repeat (get_slice_directions self) (get_shape self)
    = Ok (chunk, length, repeat) →
  sl !! i = Some desc →
  get_slice_directions self !! k = Some d →
  ∃ l, length !! k = Some l ∧
    desc !! d = Some (unit_slice
      (Z.of_nat ((i `div` np_prod (take k length)) `mod` l))).
Proof.
  intros Hnd Hsl Hclr Hi Hk.
  destruct (single_slice_list_digits self sl Hnd Hsl)
    as (chunk' & length' & repeat' & Hclr' & _ & Hdigits).
  rewrite Hclr in Hclr'. injection Hclr' as <- <- <-. by eapply Hdigits.
Qed.

Lemma single_slice_list_first_fastest_witness :
  ∃ l, [2; 3]%nat !! 1%nat = Some l ∧
    [unit_slice 1; unit_slice 2] !! 1%nat = Some (unit_slice
      (Z.of_nat ((5 `div` np_prod (take 1 [2; 3]%nat)) `mod` l))).
Proof.
  apply (single_slice_list_first_fastest
           (dataset [2; 3]%nat [0; 1]%nat [] [] None)
           [[unit_slice 0; unit_slice 0]; [unit_slice 1; unit_slice 0];
            [unit_slice 0; unit_slice 1]; [unit_slice 1; unit_slice 1];
            [unit_slice 0; unit_slice 2]; [unit_slice 1; unit_slice 2]]
           [1; 2]%nat [2; 3]%nat [3; 1]%nat 5%nat 1%nat 1%nat).
  - by apply (bool_decide_unpack _).
  - reflexivity.
  - reflexivity.
  - reflexivity.
  - reflexivity.
Defined.

(** C6 (as stated, refuted): on a 2 by 3 array sliced along directions
    [0; 1], a nested loop with the last slice direction fastest would give
    descriptor [i] the coordinate [(i / product(length[k+1:])) mod length[k]]
    along the direction at position [k]; descriptor 1 has coordinate 1, not
    0, along direction 0. *)
Lemma single_slice_list_not_last_fastest :
  ¬ (∀ sl i k d desc l,
       single_slice_list (dataset [2; 3]%nat [0; 1]%nat [] [] None) = Ok sl →
       sl !! i = Some desc →
       [0; 1]%nat !! k = Some d →
       [2; 3]%nat !! k = Some l →
       desc !! d = Some (unit_slice
         (Z.of_nat ((i `div` np_prod (drop (S k) [2; 3]%nat)) `mod` l)))).
Proof.
  intros H.
  specialize (H _ 1%nat 0%nat 0%nat _ 2%nat eq_refl eq_refl eq_refl eq_refl).
  discriminate H.
Qed.

(** Mixed-radix numbers: every tuple of digits below the radices
    [lengths], least significant first, is the digit tuple of exactly one
    number below their product. *)
Lemma mixed_radix_unique lengths c :
  Forall2 lt c lengths →
  ∃ i, (i < np_prod lengths)%nat ∧
    (∀ k ck lk, c !! k = Some ck → lengths !! k = Some lk →
       ((i `div` np_prod (take k lengths)) `mod` lk)%nat = ck) ∧
    ∀ i', (i' < np_prod lengths)%nat →
      (∀ k ck lk, c !! k = Some ck → lengths !! k = Some lk →
         ((i' `div` np_prod (take k lengths)) `mod` lk)%nat = ck) →
      i' = i.
Proof.
  induction 1 as [|c0 l0 c ls Hc0 _ (j & Hj & Hdig & Huniq)].
  - exists 0%nat. simpl. split_and!; [lia|done|lia].
  - exists (c0 + l0 * j)%nat. split_and!.
    + rewrite np_prod_cons.
      assert (l0 * S j ≤ l0 * np_prod ls)%nat by (apply Nat.mul_le_mono_l; lia).
      lia.
    + intros [|k] ck lk Hck Hlk; simpl in Hck, Hlk; simplify_eq;
        cbn [take]; rewrite ?np_prod_cons.
      * change (np_prod []) with 1%nat.
        rewrite Nat.div_1_r, (Nat.mul_comm lk j), Nat.Div0.mod_add.
        by apply Nat.mod_small.
      * rewrite <- Nat.Div0.div_div.
        rewrite (Nat.add_comm c0), (Nat.mul_comm l0), Nat.div_add_l by lia.
        rewrite (Nat.div_small c0) by done. rewrite Nat.add_0_r.
        by eapply Hdig.
    + intros i' Hi' Hdig'.
      assert (i' `mod` l0 = c0)%nat as H0.
      { specialize (Hdig' 0%nat c0 l0 eq_refl eq_refl).
        change (np_prod (take 0 (l0 :: ls))) with 1%nat in Hdig'.
        by rewrite Nat.div_1_r in Hdig'. }
      assert (i' `div` l0 = j)%nat as H1.
      { apply Huniq.
        - apply Nat.Div0.div_lt_upper_bound. by rewrite np_prod_cons in Hi'.
        - intros k ck lk Hck Hlk. rewrite Nat.Div0.div_div.
          by apply (Hdig' (S k)). }
      rewrite (Nat.div_mod_eq i' l0). lia.
Qed.

(** Whenever [single_slice_list] returns, it returns [product(length)]
    descriptors, and every coordinate tuple of the slice subspace is that
    of exactly one of them. *)
Lemma single_slice_list_partition {A} (self : Hdf5TransportData A)
    sl chunk length repeat :
  NoDup (get_slice_directions self) →
  single_slice_list self = Ok sl →
  chunk_length_repeat (get_slice_directions self) (get_shape self)
    = Ok (chunk, length, repeat) →
  List.length sl = np_prod length ∧
  ∀ c, Forall2 lt c length →
    ∃ i desc, sl !! i = Some desc ∧ at_coordinates self desc c ∧
      ∀ i' desc', sl !! i' = Some desc' → at_coordinates self desc' c → i' = i.
Proof.
  intros Hnd Hsl Hclr.
  destruct (single_slice_list_digits self sl Hnd Hsl)
    as (chunk' & length' & repeat' & Hclr' & Hlen & Hdigits).
  rewrite Hclr in Hclr'. injection Hclr' as <- <- <-.
  split; [done|]. intros c Hc.
  destruct (chunk_length_repeat_Ok _ _ _ _ _ Hclr) as (Hdirs & _ & _).
  destruct (mixed_radix_unique length c Hc) as (i & Hi & Hdig & Huniq).
  destruct (lookup_lt_is_Some_2 sl i) as [desc Hdesc]; [lia|].
  exists i, desc. split_and!; [done| |].
  - intros k d ck Hk Hck.
    destruct (Hdigits i k d desc Hdesc Hk) as (l & Hl & ->).
    by rewrite (Hdig k ck l).
  - intros i' desc' Hdesc' Hat. apply Huniq.
    + rewrite <- Hlen. by eapply lookup_lt_Some.
    + intros k ck lk Hck Hlk.
      destruct (Forall2_lookup_r _ _ _ _ _ Hdirs Hlk) as (d & Hk & _).
      destruct (Hdigits i' k d desc' Hdesc' Hk) as (l & Hl & Hd).
      rewrite (Hat k d ck Hk Hck) in Hd. injection Hd as Hd _.
      simplify_eq. lia.
Qed.

(** C1 (code defect): for the shape (4, 2, 2) sliced along directions
    (1, 2), with direction 0 kept whole, the two index rows have 4 and 8
    entries, so they do not form a 2-d array and [single_slice_list] raises
    instead of producing the 2 * 2 = 4 descriptors. *)
Theorem single_slice_list_ragged_index :
  get_slice_dirs_index [1; 2]%nat [4; 2; 2]%nat
    = Ok [[0; 1; 0; 1]; [0; 0; 0; 0; 1; 1; 1; 1]]%nat ∧
  single_slice_list (dataset [4; 2; 2]%nat [1; 2]%nat [] [] None)
    = Err IndexError.
Proof. split; reflexivity. Qed.

(** ** Frame batching *)

Lemma py_range_pos_step k step :
  0 < step → 0 ≤ k →
  py_range 0 (k * step) step
  = (λ j : nat, Z.of_nat j * step) <$> seq 0 (Z.to_nat k).
Proof.
  intros Hs Hk. unfold py_range.
  destruct (Z.ltb_spec 0 step); [|lia].
  destruct (Z.ltb_spec 0 (k * step)).
  - replace (k * step - 0 - 1) with (step - 1 + (k - 1) * step) by lia.
    rewrite Z.div_add, Z.div_small by lia.
    replace (0 + (k - 1) + 1) with k by lia. by apply list_fmap_ext.
  - assert (k = 0) as -> by nia. done.
Qed.


Lemma contiguous_app a l1 m l2 b :
  contiguous a l1 m → contiguous m l2 b → contiguous a (l1 ++ l2) b.
Proof.
  revert a. induction l1 as [|[x y] l1 IH]; intros a; simpl.
  - by intros ->.
  - intros (-> & Hxy & H1) H2. split_and!; [done..|]. by apply IH.
Qed.

Lemma contiguous_full_batches max_frames s k :
  0 < max_frames →
  contiguous (Z.of_nat s * max_frames)
    ((λ k : nat, (Z.of_nat k * max_frames, Z.of_nat k * max_frames + max_frames))
       <$> seq s k)
    (Z.of_nat (s + k) * max_frames).
Proof.
  intros Hmax. revert s. induction k as [|k IH]; intros s; simpl.
  - f_equal. lia.
  - split_and!; [done|lia|].
    replace (Z.of_nat s * max_frames + max_frames)
      with (Z.of_nat (S s) * max_frames) by lia.
    replace (s + S k)%nat with (S s + k)%nat by lia. apply IH.
Qed.

(** The batches of the specification tile the bank: they follow one another
    from 0 to [L]. *)
Lemma spec_batches_contiguous L max_frames :
  0 < max_frames → 0 ≤ L → contiguous 0 (spec_batches L max_frames) L.
Proof.
  intros Hmax HL. unfold spec_batches.
  pose proof (Z.div_mod L max_frames) as Hdm.
  pose proof (Z.mod_pos_bound L max_frames Hmax) as Hmod.
  assert (0 ≤ L `div` max_frames) by (apply Z.div_pos; lia).
  eapply contiguous_app.
  - apply (contiguous_full_batches max_frames 0). done.
  - rewrite Nat.add_0_l, Z2Nat.id by done. case_decide; simpl; lia.
Qed.

Lemma full_frame_loop slice_dir max_frames d working_slice grouped i m :
  slice_dir !! 0%nat = Some d → (d < length working_slice)%nat →
  for_each (full_frame slice_dir max_frames) (grouped, working_slice, i)
    ((λ j : nat, Z.of_nat j * max_frames) <$> seq 0 m)
  = Ok (grouped ++
          ((λ j : nat, <[d:=range_slice (Z.of_nat j * max_frames)
                              (Z.of_nat j * max_frames + max_frames)]>
                         working_slice) <$> seq 0 m),
        match m with
        | O => working_slice
        | S m' => <[d:=range_slice (Z.of_nat m' * max_frames)
                         (Z.of_nat m' * max_frames + max_frames)]> working_slice
        end,
        match m with O => i | S m' => Some (Z.of_nat m' * max_frames) end).
Proof.
  intros Hd Hlt. induction m as [|m IH].
  - simpl. by rewrite app_nil_r.
  - rewrite seq_S, fmap_app, for_each_app, IH. cbn [mbind result_bind].
    rewrite fmap_app, app_assoc. cbn [fmap list_fmap for_each full_frame].
    rewrite (proj2 (py_getitem_Ok _ _ _) Hd). cbn [mbind result_bind].
    unfold py_setitem. rewrite decide_True
      by (destruct m; rewrite ?length_insert; done).
    cbn [mbind result_bind].
    assert (∀ x, <[d:=x]> match m with
                         | O => working_slice
                         | S m' => <[d:=range_slice (Z.of_nat m' * max_frames)
                               (Z.of_nat m' * max_frames + max_frames)]>
                               working_slice
                         end = <[d:=x]> working_slice) as ->.
    { intros x. destruct m; [done|]. apply list_insert_insert_eq. }
    done.
Qed.

Lemma bank_frames_Ok length slice_dir max_frames d group grouped i :
  0 < max_frames → max_frames ≤ Z.of_nat length →
  slice_dir !! 0%nat = Some d →
  List.length group = length →
  (∃ working_slice, group !! 0%nat = Some working_slice ∧
                    (d < List.length working_slice)%nat) →
  bank_frames length slice_dir max_frames (grouped, i) group
  = Ok (grouped ++ bank_batches d (Z.of_nat length) max_frames group,
        Some ((Z.of_nat length `div` max_frames - 1) * max_frames)).
Proof.
  intros Hmax HL Hd Hlen (working_slice & Hws & Hlt).
  destruct group as [|ws group]; [done|]. injection Hws as ->.
  unfold bank_frames, int_float_div, py_mod. rewrite !decide_False by lia.
  cbn [mbind result_bind py_getitem lookup list_lookup].
  rewrite Z.quot_div_nonneg by lia.
  set (L := Z.of_nat length) in *. set (full := L `div` max_frames).
  assert (1 ≤ full) by (apply Z.div_le_lower_bound; lia).
  rewrite py_range_pos_step by lia.
  rewrite (full_frame_loop _ _ d) by done. cbn [mbind result_bind].
  destruct (Z.to_nat full) as [|m] eqn:Hm; [lia|].
  assert (Z.of_nat m = full - 1) as Hm' by lia.
  unfold bank_batches, spec_batches. fold full. rewrite Hm, fmap_app.
  rewrite <- list_fmap_compose. rewrite Hm'.
  destruct (decide (L `mod` max_frames = 0)) as [Hz|Hnz].
  - rewrite !decide_True by done. by rewrite app_nil_r.
  - rewrite (decide_False (P := 1 = 0)) by done.
    cbn [py_local mbind result_bind].
    rewrite (proj2 (py_getitem_Ok _ _ _) Hd). cbn [mbind result_bind].
    unfold py_setitem. rewrite decide_True by (by rewrite length_insert).
    cbn [mbind result_bind]. rewrite list_insert_insert_eq, Hlen.
    rewrite <- app_assoc. do 3 f_equal. f_equal. simpl. do 3 f_equal. lia.
Qed.

(** When no bank is shorter than the maximum, the batcher emits, bank after
    bank, the batches of the specification along the first slice
    direction. *)
Lemma grouped_slice_list_batches {A} (self : Hdf5TransportData A) slice_list max_frames banked length
    slice_dir d :
  banked_list self slice_list = Ok (banked, length, slice_dir) →
  0 < max_frames → max_frames ≤ Z.of_nat length →
  slice_dir !! 0%nat = Some d →
  Forall (λ group, List.length group = length ∧
            ∃ working_slice, group !! 0%nat = Some working_slice ∧
                             (d < List.length working_slice)%nat) banked →
  grouped_slice_list self slice_list max_frames
  = Ok (banked ≫= bank_batches d (Z.of_nat length) max_frames).
Proof.
  intros Hbanked Hmax HL Hd Hgroups. unfold grouped_slice_list.
  rewrite Hbanked. cbn [mbind result_bind].
  assert (∀ grouped i, ∃ i',
    for_each (bank_frames length slice_dir max_frames) (grouped, i) banked
    = Ok (grouped ++ (banked ≫= bank_batches d (Z.of_nat length) max_frames),
          i')) as Hloop.
  { clear Hbanked. induction Hgroups as [|group banked' [Hlen Hws] _ IH];
      intros grouped i.
    - exists i. simpl. by rewrite app_nil_r.
    - cbn [for_each]. rewrite (bank_frames_Ok _ _ _ d) by done.
      cbn [mbind result_bind]. edestruct IH as [i' ->]. exists i'.
      by rewrite <- app_assoc. }
  destruct (Hloop [] None) as [i' ->]. done.
Qed.

(** Two banks of length 5 batched by 2: each bank gives the ranges [0, 2),
    [2, 4) and the remainder [4, 5) along the first slice direction. *)
Example grouped_slice_list_5_by_2 :
  get_grouped_slice_list (dataset [5; 2]%nat [0; 1]%nat [] [] (Some 2))
  = Ok [[range_slice 0 2; unit_slice 0]; [range_slice 2 4; unit_slice 0];
        [range_slice 4 5; unit_slice 0];
        [range_slice 0 2; unit_slice 1]; [range_slice 2 4; unit_slice 1];
        [range_slice 4 5; unit_slice 1]].
Proof. reflexivity. Qed.

(** C4 (code defect): a single bank of length 3 with a maximum of 5 frames
    has no full batch, so the inner loop never binds [i] and building the
    trailing batch raises instead of emitting the one batch [0, 3). *)
Theorem grouped_slice_list_short_bank :
  ∃ sl, single_slice_list (dataset [3]%nat [0]%nat [] [] None) = Ok sl ∧
    grouped_slice_list (dataset [3]%nat [0]%nat [] [] None) sl 5
      = Err UnboundLocalError.
Proof. by eexists. Qed.




(** ** Process distribution *)

Lemma cumsum_from_lookup acc l i :
  (i < length l)%nat →
  cumsum_from acc l !! i = Some (acc + sum_list (take (S i) l))%nat.
Proof.
  revert acc i. induction l as [|x l IH]; intros acc i Hi; simpl in *; [lia|].
  destruct i as [|i]; simpl.
  - f_equal. lia.
  - rewrite IH by lia. f_equal. simpl. lia.
Qed.

Lemma div_points_lookup n P i :
  (0 < P)%nat → (i ≤ P)%nat →
  cumsum ([0%nat] ++ replicate (n `mod` P)%nat (n `div` P + 1)%nat
            ++ replicate (P - n `mod` P)%nat (n `div` P)%nat) !! i
  = Some (share_start n P i).
Proof.
  intros HP Hi. unfold cumsum.
  pose proof (Nat.mod_upper_bound n P) as He.
  rewrite cumsum_from_lookup
    by (simpl; rewrite length_app, !length_replicate; lia).
  f_equal. simpl. rewrite take_app, take_replicate, length_replicate.
  rewrite take_replicate, sum_list_with_app, !sum_list_replicate.
  unfold share_start. nia.
Qed.

Lemma share_start_0 n P : share_start n P 0 = 0%nat.
Proof. unfold share_start. lia. Qed.

Lemma share_start_end n P : (0 < P)%nat → share_start n P P = n.
Proof.
  intros HP. unfold share_start.
  pose proof (Nat.mod_upper_bound n P). pose proof (Nat.div_mod_eq n P). nia.
Qed.

(** The size of the share of rank [r]. *)
Lemma share_size n P r :
  share_start n P (S r) =
  (share_start n P r + n `div` P
   + (if decide (r < n `mod` P) then 1 else 0))%nat.
Proof. unfold share_start. case_decide; nia. Qed.

Lemma share_start_le n P r : (0 < P)%nat → (r ≤ P)%nat → (share_start n P r ≤ n)%nat.
Proof.
  intros HP Hr. unfold share_start.
  pose proof (Nat.mod_upper_bound n P). pose proof (Nat.div_mod_eq n P). nia.
Qed.

Lemma share_start_mono n P r :
  (share_start n P r ≤ share_start n P (S r))%nat.
Proof. rewrite share_size. lia. Qed.

Lemma np_array_split_lookup {A} (ary : list A) P r :
  (0 < P)%nat → (r < P)%nat →
  ∃ parts,
    np_array_split ary P = Ok parts ∧ length parts = P ∧
    parts !! r = Some (py_slice ary (share_start (length ary) P r)
                         (share_start (length ary) P (S r))).
Proof.
  intros HP Hr. unfold np_array_split. rewrite decide_False by lia.
  set (div_points := cumsum _).
  set (parts := (λ i, py_slice ary (share_start (length ary) P i)
                        (share_start (length ary) P (S i))) <$> seq 0 P).
  exists parts. split_and!.
  - apply collect_Ok, Forall2_same_length_lookup. split.
    + unfold parts. by rewrite length_fmap.
    + intros k i part Hi Hpart. apply lookup_seq in Hi as [-> Hk].
      unfold parts in Hpart. rewrite list_lookup_fmap, lookup_seq_lt in Hpart by done.
      injection Hpart as <-. simpl. unfold div_points.
      unfold py_getitem. rewrite !div_points_lookup by lia.
      cbn [mbind result_bind]. by rewrite Nat.add_1_r.
  - unfold parts. by rewrite length_fmap, length_seq.
  - unfold parts. by rewrite list_lookup_fmap, lookup_seq_lt.
Qed.

Lemma py_slice_seq n a b :
  (a ≤ b)%nat → (b ≤ n)%nat → py_slice (seq 0 n) a b = seq a (b - a).
Proof.
  intros Hab Hb. unfold py_slice. rewrite drop_seq, take_seq. f_equal. lia.
Qed.

(** Every rank whose share is not empty receives its share: the batches
    from [share_start n P r] up to [share_start n P (r + 1)]. *)
Lemma get_slice_list_per_process_share {A} (self : Hdf5TransportData A) slice_list P r frameList :
  get_grouped_slice_list self = Ok slice_list →
  (r < P)%nat →
  (share_start (length slice_list) P r
   < share_start (length slice_list) P (S r))%nat →
  get_slice_list_per_process self P r frameList =
  Ok (py_slice slice_list (share_start (length slice_list) P r)
        (share_start (length slice_list) P (S r)),
      if frameList then Some (seq 0 (length slice_list)) else None).
Proof.
  intros Hsl Hr Hne. unfold get_slice_list_per_process.
  rewrite Hsl. cbn [mbind result_bind].
  destruct (np_array_split_lookup (seq 0 (length slice_list)) P r)
    as (parts & -> & _ & Hpart); [lia|done|].
  cbn [mbind result_bind]. rewrite (proj2 (py_getitem_Ok _ _ _) Hpart).
  cbn [mbind result_bind]. rewrite length_seq.
  set (n := length slice_list) in *.
  set (a := share_start n P r) in *. set (b := share_start n P (S r)) in *.
  assert (b ≤ n)%nat by (apply share_start_le; lia).
  rewrite py_slice_seq by lia. rewrite length_seq.
  unfold py_getitem. rewrite !lookup_seq_lt by lia.
  cbn [mbind result_bind]. do 3 f_equal; lia.
Qed.

(** The shares of all ranks, in order of rank, make up the whole list: no
    batch is left out and none is given twice. *)
Lemma shares_concat {A} (l : list A) P :
  (0 < P)%nat →
  concat ((λ r, py_slice l (share_start (length l) P r)
                  (share_start (length l) P (S r))) <$> seq 0 P) = l.
Proof.
  intros HP.
  assert (∀ k, concat ((λ r, py_slice l (share_start (length l) P r)
                               (share_start (length l) P (S r))) <$> seq 0 k)
               = take (share_start (length l) P k) l) as Hk.
  { induction k as [|k IH].
    - by rewrite share_start_0.
    - rewrite seq_S, fmap_app, concat_app, IH. simpl. rewrite app_nil_r.
      unfold py_slice. rewrite take_take_drop. f_equal.
      pose proof (share_start_mono (length l) P k). lia. }
  rewrite Hk, share_start_end by done. apply firstn_all.
Qed.

(** The balanced-distribution example of the specification: 17 batches
    over 5 processes give ranks 0 and 1 four batches each and ranks 2, 3
    and 4 three each, and the five shares in order are the 17 batches. *)
Example balanced_distribution_17_5 :
  ∃ slice_list shares,
    get_grouped_slice_list (dataset [17%nat] [0%nat] [] [] None)
      = Ok slice_list ∧
    length slice_list = 17%nat ∧
    collect (λ r, share ← get_slice_list_per_process
                            (dataset [17%nat] [0%nat] [] [] None) 5 r false;
                  Ok share.1)
      (seq 0 5) = Ok shares ∧
    length <$> shares = [4; 4; 3; 3; 3]%nat ∧
    concat shares = slice_list.
Proof. eexists _, _. split_and!; [reflexivity| |reflexivity| |]; done. Qed.

(** C5 (code defect): with 2 batches and 3 processes, rank 2 is due the
    empty range [2, 2); reading the first frame of its empty share
    raises. *)
Theorem get_slice_list_per_process_two_of_three :
  (∃ sl, get_grouped_slice_list (dataset [2]%nat [0]%nat [] [] None) = Ok sl ∧
     List.length sl = 2%nat ∧
     np_array_split (seq 0 (List.length sl)) 3 = Ok [[0]; [1]; []]%nat) ∧
  get_slice_list_per_process (dataset [2]%nat [0]%nat [] [] None) 3 2 false
    = Err IndexError.
Proof. split; [by eexists|reflexivity]. Qed.

(** C8 (code defect): with a single batch and 2 processes, rank 1 has no
    batch assigned and the call raises [IndexError] instead of returning an
    empty list. *)
Theorem get_slice_list_per_process_empty_rank :
  (∃ sl, get_grouped_slice_list (dataset [1]%nat [0]%nat [] [] None) = Ok sl ∧
     (List.length sl < 2)%nat) ∧
  get_slice_list_per_process (dataset [1]%nat [0]%nat [] [] None) 2 1 false
    = Err IndexError.
Proof. split; [eexists; split; [reflexivity|simpl; lia]|reflexivity]. Qed.

(** ** Boundary padding *)

(** *** The window arithmetic *)

(** The slice and the pads of [calculate_slice_padding], in closed form. *)
Lemma calculate_slice_padding_slice sa so st p n :
  calculate_slice_padding (Sl (Slice sa so st)) p n =
  (Slice ((λ a, Z.max (a - p) 0) <$> sa)
         ((λ b, if n <? b + p then n + 1 else b + p) <$> so) st,
   (from_option (λ a, Z.max 0 (p - a)) p sa,
    from_option (λ b, Z.max 0 (b + p - n)) p so)).
Proof.
  unfold calculate_slice_padding. 
  destruct sa as [a|], so as [b|]; simpl;
    repeat case_match; simplify_eq/=; repeat f_equal; lia.
Qed.

(** C3 (code defect): for extent 10, requested window [7, 10) and pad 2
    the returned slice stops at 11, one past the extent, where the clipped
    window stops at min(12, 10) = 10; the pads are 0 and 2. *)
Theorem calculate_slice_padding_stop_past_extent :
  calculate_slice_padding (range_slice 7 10) 2 10
    = (Slice (Some 5) (Some 11) (Some 1), (0, 2)) ∧
  Z.min (10 + 2) 10 = 10.
Proof. split; reflexivity. Qed.

(** A slice of step 1 selects the range between its adjusted bounds. *)
Lemma resolve_item_step_1 sa so st n :
  st = None ∨ st = Some 1 →
  resolve_item (Sl (Slice sa so st)) n =
  Ok (SelRange (from_option (adjust (Z.of_nat n)) 0 sa) 1
        (Z.to_nat (from_option (adjust (Z.of_nat n)) (Z.of_nat n) so
                   - from_option (adjust (Z.of_nat n)) 0 sa))).
Proof.
  intros Hstep. unfold resolve_item, slice_indices, slice_length, adjust.
  cbn [step start stop].
  assert (default 1 st = 1) as -> by (by destruct Hstep as [-> | ->]).
  simpl. destruct sa, so; simpl; do 2 f_equal;
    repeat case_match; rewrite ?Z.div_1_r; lia.
Qed.

Lemma adjust_nonneg n v : 0 ≤ v → adjust n v = Z.min v n.
Proof. unfold adjust. case_match; lia. Qed.

Lemma adjust_neg n v : v < 0 → adjust n v = Z.max (v + n) 0.
Proof. unfold adjust. case_match; lia. Qed.

Lemma resolve_item_in_bounds n it :
  in_bounds n it →
  resolve_item it n =
  Ok (SelRange (lo_of it) 1 (Z.to_nat (hi_of n it - lo_of it))).
Proof.
  destruct it as [|[sa so st]]; [done|]. intros (Hstep & H0 & H1 & H2).
  cbn [start stop step lo_of hi_of] in *.
  rewrite resolve_item_step_1 by done. do 2 f_equal.
  - destruct sa as [a|]; simpl in *; [|done].
    rewrite adjust_nonneg; lia.
  - f_equal. f_equal.
    + destruct so as [b|]; simpl in *; [|done]. rewrite adjust_nonneg; lia.
    + destruct sa as [a|]; simpl in *; [|done]. rewrite adjust_nonneg; lia.
Qed.

Lemma calculate_slice_padding_in_bounds n it p :
  in_bounds n it → 0 ≤ p →
  resolve_item (Sl (calculate_slice_padding it p (Z.of_nat n)).1) n =
    Ok (SelRange (Z.max (lo_of it - p) 0) 1
          (Z.to_nat (Z.min (hi_of n it + p) (Z.of_nat n)
                     - Z.max (lo_of it - p) 0))) ∧
  (calculate_slice_padding it p (Z.of_nat n)).2 =
    (Z.max 0 (p - lo_of it), Z.max 0 (hi_of n it + p - Z.of_nat n)).
Proof.
  destruct it as [|[sa so st]]; [done|].
  intros (Hstep & H0 & H1 & H2) Hp.
  cbn [start stop step lo_of hi_of] in *.
  rewrite calculate_slice_padding_slice. cbn [fst snd]. split.
  - rewrite resolve_item_step_1 by done.
    assert (from_option (adjust (Z.of_nat n)) 0
              ((λ a, Z.max (a - p) 0) <$> sa)
            = Z.max (default 0 sa - p) 0) as ->.
    { destruct sa as [a|]; simpl in *; [|lia]. rewrite adjust_nonneg; lia. }
    assert (from_option (adjust (Z.of_nat n)) (Z.of_nat n)
              ((λ b, if Z.of_nat n <? b + p then Z.of_nat n + 1 else b + p)
                 <$> so)
            = Z.min (default (Z.of_nat n) so + p) (Z.of_nat n)) as ->.
    { destruct so as [b|]; simpl in *; [|lia].
      case_match; rewrite adjust_nonneg; lia. }
    done.
  - f_equal.
    + destruct sa; simpl in *; lia.
    + destruct so; simpl in *; lia.
Qed.

Lemma resolve_item_strip p m :
  0 < p →
  resolve_item (Sl (Slice (Some p) (Some (- p)) None)) m =
  Ok (SelRange (Z.min p (Z.of_nat m)) 1
        (Z.to_nat (Z.max (Z.of_nat m - p) 0 - Z.min p (Z.of_nat m)))).
Proof.
  intros Hp. rewrite resolve_item_step_1 by (by left). simpl.
  rewrite adjust_nonneg, adjust_neg by lia. do 4 f_equal. lia.
Qed.

Lemma dim_round_trip p n it :
  in_bounds n it → (0 < n)%nat → (∀ q, p = Some q → 0 ≤ q) →
  ∃ b_r len_r b_s b_w len_w,
    resolve_item (read_item p n it) n = Ok (SelRange b_r 1 len_r) ∧
    0 ≤ (read_pads p n it).1 ∧ 0 ≤ (read_pads p n it).2 ∧
    (len_r = 0%nat → read_pads p n it = (0, 0)) ∧
    resolve_item (strip_item p)
      (Z.to_nat (Z.of_nat len_r + (read_pads p n it).1 + (read_pads p n it).2))
      = Ok (SelRange b_s 1 len_w) ∧
    resolve_item it n = Ok (SelRange b_w 1 len_w) ∧
    (p = None → len_r = len_w) ∧
    ∀ j, (j < len_w)%nat →
      Z.to_nat (b_r + Z.of_nat (edge_index len_r (read_pads p n it).1
                                  (Z.to_nat (b_s + Z.of_nat j * 1))) * 1)
      = Z.to_nat (b_w + Z.of_nat j * 1).
Proof.
  intros Hin Hn Hp.
  assert (0 ≤ lo_of it ∧ lo_of it ≤ hi_of n it ∧ hi_of n it ≤ Z.of_nat n)
    as (H0 & H1 & H2).
  { destruct it as [|[sa so st]]; [done|]. by destruct Hin as (_ & ? & ? & ?). }
  unfold read_item, read_pads, strip_item.
  destruct p as [p|]; cbn [default].
  - specialize (Hp p eq_refl).
    destruct (calculate_slice_padding_in_bounds n it p Hin Hp) as [-> ->].
    cbn [fst snd]. rewrite resolve_item_in_bounds by done.
    generalize dependent (lo_of it). generalize dependent (hi_of n it).
    intros hi ? lo ? ?.
    exists (Z.max (lo - p) 0),
      (Z.to_nat (Z.min (hi + p) (Z.of_nat n) - Z.max (lo - p) 0)),
      p, lo, (Z.to_nat (hi - lo)). split; [done|].
    split; [lia|]. split; [lia|].
    split. { intros ?. f_equal; lia. }
    split.
    { unfold id. case_decide.
      - rewrite resolve_item_strip by done. do 2 f_equal; lia.
      - assert (p = 0) as -> by lia.
        rewrite resolve_item_step_1 by (by left). simpl. do 3 f_equal. lia. }
    split; [done|]. split; [done|].
    intros j Hj. unfold edge_index. lia.
  - rewrite resolve_item_in_bounds by done.
    exists (lo_of it), (Z.to_nat (hi_of n it - lo_of it)), 0, (lo_of it),
      (Z.to_nat (hi_of n it - lo_of it)). split; [done|].
    split; [done|]. split; [done|]. split; [done|]. cbn [fst snd].
    split.
    { rewrite decide_False by (simpl; lia).
      rewrite resolve_item_step_1 by (by left). simpl. do 3 f_equal. lia. }
    split; [done|]. split; [done|].
    intros j Hj. unfold edge_index. lia.
Qed.

Lemma round_trip_dims pf l :
  Forall (λ x, in_bounds x.1 x.2 ∧ (0 < x.1)%nat) l →
  (∀ d q, pf d = Some q → 0 ≤ q) →
  ∃ ss_r ss_s ss_w,
    resolve (read_slices pf l) l.*1 = Ok ss_r ∧
    length (read_pad_list pf l) = length (sel_shape ss_r) ∧
    forallb (λ p, (0 <=? p.1) && (0 <=? p.2)) (read_pad_list pf l) = true ∧
    forallb (λ np, negb (Nat.eqb np.1 0 && ((0 <? np.2.1) || (0 <? np.2.2))))
      (zip (sel_shape ss_r) (read_pad_list pf l)) = true ∧
    resolve (strip_slices pf l)
      (padded_shape (sel_shape ss_r) (read_pad_list pf l)) = Ok ss_s ∧
    resolve l.*2 l.*1 = Ok ss_w ∧
    sel_shape ss_s = sel_shape ss_w ∧
    (∀ d, pf d = None →
       padded_shape (sel_shape ss_r) (read_pad_list pf l) !! d
       = sel_shape ss_w !! d) ∧
    ∀ i, Forall2 lt i (sel_shape ss_w) →
      sel_index ss_r
        (pad_index (sel_shape ss_r) (read_pad_list pf l) (sel_index ss_s i))
      = sel_index ss_w i.
Proof.
  intros Hl. revert pf.
  induction Hl as [|[n it] l [Hin Hn] _ IH]; intros pf Hpf.
  - exists [], [], []. split_and!; done.
  - destruct (IH (pf ∘ S)) as (ss_r & ss_s & ss_w & Hr & Hlen & Hnn & Hne & Hs
      & Hw & Hshape & Hpass & Hidx); [intros d q; apply Hpf|].
    destruct (dim_round_trip (pf 0%nat) n it Hin Hn (Hpf 0%nat))
      as (b_r & len_r & b_s & b_w & len_w & Hr0 & Hlo & Hhi & Hempty & Hs0
          & Hw0 & Hpass0 & Hidx0).
    exists (SelRange b_r 1 len_r :: ss_r), (SelRange b_s 1 len_w :: ss_s),
      (SelRange b_w 1 len_w :: ss_w).
    unfold read_slices, read_pad_list, strip_slices, padded_shape in *.
    cbn [imap fmap list_fmap resolve fst snd sel_shape zip_with zip forallb
         length].
    simpl in Hr0, Hs0, Hw0.
    rewrite Hr0, Hs0, Hw0. cbn [mbind result_bind].
    fold (@fmap list _ _ _ (@fst nat item) l) (@fmap list _ _ _ (@snd nat item) l).
    unfold compose in *. cbv beta in *.
    rewrite Hr, Hw. cbn [mbind result_bind sel_shape zip_with].
    rewrite Hs. cbn [mbind result_bind sel_shape].
    split_and!; try done.
    + by rewrite Hlen.
    + rewrite Hnn, andb_true_r. apply andb_true_intro.
      split; by apply Z.leb_le.
    + rewrite Hne, andb_true_r. apply negb_true_iff, andb_false_iff.
      destruct (decide (len_r = 0%nat)) as [->|Hpos].
      * right. rewrite Hempty by done. done.
      * left. by apply Nat.eqb_neq.
    + by rewrite Hshape.
    + intros [|d] Hd; simpl.
      * rewrite <- (Hpass0 Hd). rewrite Hd. simpl. f_equal. lia.
      * by apply Hpass.
    + intros i Hi. apply Forall2_cons_inv_r in Hi as (j & i' & Hj & Hi' & ->).
      cbn [sel_index pad_index hd tl].
      destruct (read_pads (pf 0%nat) n it) as [lo hi] eqn:Hpads.
      cbn [fst snd hd tl sel_index pad_index] in *. rewrite Hidx0 by done. f_equal. by apply Hidx.
Qed.

(** *** The loops of the padding methods *)

Lemma pad_direction_Ok exts sl pl d p it n :
  sl !! d = Some it → exts !! d = Some n → (d < length pl)%nat →
  pad_direction (py_getitem exts) (sl, pl) (d, p) =
  Ok (<[d:=Sl (calculate_slice_padding it p (Z.of_nat n)).1]> sl,
      <[d:=(calculate_slice_padding it p (Z.of_nat n)).2]> pl).
Proof.
  intros Hit Hn Hd. unfold pad_direction.
  rewrite (proj2 (py_getitem_Ok _ _ _) Hit). cbn [mbind result_bind].
  rewrite (proj2 (py_getitem_Ok _ _ _) Hn). cbn [mbind result_bind].
  destruct (calculate_slice_padding it p (Z.of_nat n)) as [out pads].
  unfold py_setitem. apply lookup_lt_Some in Hit.
  by rewrite !decide_True by lia.
Qed.

Lemma pad_direction_loop exts kvs sl pl :
  NoDup kvs.*1 → length exts = length sl → length pl = length sl →
  (∀ d p, (d, p) ∈ kvs → (d < length sl)%nat) →
  ∃ sl' pl',
    for_each (pad_direction (py_getitem exts)) (sl, pl) kvs = Ok (sl', pl') ∧
    length sl' = length sl ∧ length pl' = length sl ∧
    ∀ d n it q, exts !! d = Some n → sl !! d = Some it → pl !! d = Some q →
      sl' !! d = Some (read_item ((list_to_map kvs : gmap nat Z) !! d) n it) ∧
      pl' !! d = Some (from_option
                         (λ p, (calculate_slice_padding it p (Z.of_nat n)).2) q
                         ((list_to_map kvs : gmap nat Z) !! d)).
Proof.
  revert sl pl. induction kvs as [|[d0 p0] kvs IH]; intros sl pl Hnd He Hp Hk.
  - exists sl, pl. split_and!; done.
  - apply NoDup_cons in Hnd as [Hd0 Hnd].
    assert (d0 < length sl)%nat as Hlt by (eapply Hk; left).
    destruct (lookup_lt_is_Some_2 sl d0) as [it0 Hit0]; [done|].
    destruct (lookup_lt_is_Some_2 exts d0) as [n0 Hn0]; [lia|].
    destruct (IH (<[d0:=Sl (calculate_slice_padding it0 p0 (Z.of_nat n0)).1]> sl)
                 (<[d0:=(calculate_slice_padding it0 p0 (Z.of_nat n0)).2]> pl))
      as (sl' & pl' & Hloop & Hls & Hlp & Hlook); [done|..].
    { by rewrite length_insert. }
    { by rewrite !length_insert. }
    { intros d p Hin. rewrite length_insert. eapply Hk. by right. }
    exists sl', pl'. rewrite length_insert in Hls, Hlp. split_and!; [|done..|].
    + cbn [for_each].
      rewrite (pad_direction_Ok _ _ _ _ _ _ _ Hit0 Hn0) by lia.
      exact Hloop.
    + intros d n it q Hn Hit Hq. cbn [list_to_map foldr uncurry].
      destruct (decide (d = d0)) as [->|Hne].
      * rewrite lookup_insert_eq. simplify_eq. cbn [read_item from_option].
        destruct (Hlook d0 n0 (Sl (calculate_slice_padding it0 p0 (Z.of_nat n0)).1)
                    (calculate_slice_padding it0 p0 (Z.of_nat n0)).2)
          as [-> ->]; [done|..].
        { apply list_lookup_insert_eq. lia. }
        { apply list_lookup_insert_eq. lia. }
        rewrite not_elem_of_list_to_map_1 by done. done.
      * rewrite lookup_insert_ne by done.
        apply Hlook; [done|by rewrite list_lookup_insert_ne..].
Qed.

Lemma pad_directions_Ok (pd : gmap nat Z) exts sl :
  length exts = length sl →
  (∀ d p, pd !! d = Some p → (d < length sl)%nat) →
  pad_directions pd (py_getitem exts) sl (replicate (length sl) (0, 0))
  = Ok (read_slices (pd !!.) (zip exts sl), read_pad_list (pd !!.) (zip exts sl)).
Proof.
  intros He Hk. unfold pad_directions.
  destruct (pad_direction_loop exts (map_to_list pd) sl
              (replicate (length sl) (0, 0)))
    as (sl' & pl' & -> & Hls & Hlp & Hlook).
  - apply NoDup_fst_map_to_list.
  - done.
  - by rewrite length_replicate.
  - intros d p Hin. apply elem_of_map_to_list in Hin. by eapply Hk.
  - rewrite list_to_map_to_list in Hlook. f_equal. f_equal.
    + apply list_eq. intros d. unfold read_slices.
      rewrite list_lookup_imap.
      destruct (decide (d < length sl)%nat) as [Hd|Hd].
      * destruct (lookup_lt_is_Some_2 sl d) as [it Hit]; [done|].
        destruct (lookup_lt_is_Some_2 exts d) as [n Hn]; [lia|].
        destruct (Hlook d n it (0, 0)) as [-> _]; [done..| |].
        { by apply lookup_replicate_2. }
        rewrite (proj2 (lookup_zip_Some _ _ _ _ _) (conj Hn Hit)). done.
      * rewrite !lookup_ge_None_2; [done|rewrite length_zip; lia|lia].
    + apply list_eq. intros d. unfold read_pad_list.
      rewrite list_lookup_imap.
      destruct (decide (d < length sl)%nat) as [Hd|Hd].
      * destruct (lookup_lt_is_Some_2 sl d) as [it Hit]; [done|].
        destruct (lookup_lt_is_Some_2 exts d) as [n Hn]; [lia|].
        destruct (Hlook d n it (0, 0)) as [_ ->]; [done..| |].
        { by apply lookup_replicate_2. }
        rewrite (proj2 (lookup_zip_Some _ _ _ _ _) (conj Hn Hit)). simpl.
        unfold read_pads. by destruct (pd !! d).
      * rewrite !lookup_ge_None_2; [done|rewrite length_zip; lia|lia].
Qed.

Lemma pad_data_entry_loop slice_tup pad_tup n :
  Forall (λ it, ∃ s, it = Sl s) slice_tup →
  (n ≤ length slice_tup)%nat → length pad_tup = length slice_tup →
  for_each (pad_data_entry slice_tup pad_tup) ([], []) (seq 0 n)
  = Ok (take n slice_tup, take n pad_tup).
Proof.
  intros Hsl Hn Hlen. induction n as [|n IH]; [done|].
  rewrite seq_S, for_each_app, IH by lia. cbn [mbind result_bind for_each].
  destruct (lookup_lt_is_Some_2 slice_tup n) as [it Hit]; [lia|].
  destruct (lookup_lt_is_Some_2 pad_tup n) as [p Hp]; [lia|].
  destruct (proj1 (Forall_lookup _ _) Hsl _ _ Hit) as [s ->].
  unfold pad_data_entry. simpl.
  rewrite (proj2 (py_getitem_Ok _ _ _) Hit). cbn [mbind result_bind].
  rewrite (proj2 (py_getitem_Ok _ _ _) Hp). cbn [mbind result_bind].
  by rewrite (take_S_r _ _ _ Hit), (take_S_r _ _ _ Hp).
Qed.

Lemma get_pad_data_slices {A} (self : Hdf5TransportData A) slice_tup pad_tup :
  Forall (λ it, ∃ s, it = Sl s) slice_tup →
  length pad_tup = length slice_tup →
  get_pad_data self slice_tup pad_tup =
  data_slice ← np_getitem (data self) slice_tup;
  np_pad_edge data_slice pad_tup.
Proof.
  intros Hsl Hlen. unfold get_pad_data.
  rewrite pad_data_entry_loop by done. cbn [mbind result_bind].
  by rewrite firstn_all, <- Hlen, firstn_all.
Qed.

Lemma set_expand_loop kvs el :
  NoDup kvs.*1 → (∀ d p, (d, p) ∈ kvs → (d < length el)%nat) →
  ∃ el', for_each set_expand el kvs = Ok el' ∧ length el' = length el ∧
    ∀ d e, el !! d = Some e →
      el' !! d = Some (default e ((list_to_map kvs : gmap nat Z) !! d)).
Proof.
  revert el. induction kvs as [|[d0 p0] kvs IH]; intros el Hnd Hk.
  - exists el. split_and!; done.
  - apply NoDup_cons in Hnd as [Hd0 Hnd].
    assert (d0 < length el)%nat as Hlt by (eapply Hk; left).
    destruct (IH (<[d0:=p0]> el)) as (el' & Hloop & Hlen & Hlook); [done|..].
    { intros d p Hin. rewrite length_insert. eapply Hk. by right. }
    exists el'. rewrite length_insert in Hlen. split_and!; [|done|].
    + cbn [for_each set_expand]. unfold py_setitem.
      by rewrite decide_True by done.
    + intros d e He. cbn [list_to_map foldr uncurry].
      destruct (decide (d = d0)) as [->|Hne].
      * rewrite lookup_insert_eq. simpl.
        rewrite (Hlook d0 p0) by (apply list_lookup_insert_eq; lia).
        by rewrite not_elem_of_list_to_map_1.
      * rewrite lookup_insert_ne by done. apply Hlook.
        by rewrite list_lookup_insert_ne.
Qed.

Lemma strip_slices_Ok {B} (pd : gmap nat Z) (l : list B) :
  (∀ d p, pd !! d = Some p → (d < length l)%nat) →
  ∃ expand_list,
    for_each set_expand (replicate (length l) 0) (map_to_list pd)
      = Ok expand_list ∧
    collect (strip_entry expand_list) (seq 0 (length l))
      = Ok (imap (λ d _, strip_item (pd !! d)) l).
Proof.
  intros Hk.
  destruct (set_expand_loop (map_to_list pd) (replicate (length l) 0))
    as (el & Hloop & Hlen & Hlook).
  - apply NoDup_fst_map_to_list.
  - intros d p Hin. apply elem_of_map_to_list in Hin.
    rewrite length_replicate. by eapply Hk.
  - exists el. split; [done|]. rewrite list_to_map_to_list in Hlook.
    rewrite length_replicate in Hlen.
    apply collect_Ok, Forall2_same_length_lookup. split.
    + by rewrite length_seq, length_imap.
    + intros d i it Hi Hit. apply lookup_seq in Hi as [-> Hd]. simpl.
      rewrite list_lookup_imap in Hit.
      destruct (l !! d) as [x|] eqn:Hx; [|done]. injection Hit as <-.
      unfold strip_entry.
      rewrite (proj2 (py_getitem_Ok _ _ _)
                 (Hlook d 0 (lookup_replicate_2 _ _ _ Hd))).
      cbn [mbind result_bind]. unfold strip_item.
      by case_decide.
Qed.

Lemma read_slices_Sl pf l :
  Forall (λ x, in_bounds x.1 x.2) l →
  Forall (λ it, ∃ s, it = Sl s) (read_slices pf l).
Proof.
  intros Hl. apply Forall_lookup. intros d it Hit. unfold read_slices in Hit.
  apply list_lookup_imap_Some in Hit as ([n it'] & Hx & ->).
  eapply Forall_lookup in Hl; [|done]. simpl in *. unfold read_item.
  destruct (pf d); [by eexists|]. destruct it'; [done|by eexists].
Qed.

(** *** The round trip *)

(** C2: for a dataset of positive extents, a window of unit-step ranges
    within its shape and non-negative pad widths on directions of the array,
    the padded read succeeds, stripping its padding succeeds and yields the
    unpadded read of the same window (also when no padding is set), and
    along every direction without a padding entry the padded read has the
    extent of the unpadded read. *)
Theorem padding_round_trip {A} (self : Hdf5TransportData A)
    (window : list item) :
  shape (data self) = get_shape self →
  get_shape self ≠ [] →
  Forall (λ n, 0 < n)%nat (get_shape self) →
  Forall2 in_bounds (get_shape self) window →
  (∀ pd d p, padding_directions self = Some pd → pd !! d = Some p →
     0 ≤ p ∧ (d < length (get_shape self))%nat) →
  ∃ padded out raw,
    get_padded_slice_data self window = Ok padded ∧
    get_unpadded_slice_data self window padded = Ok out ∧
    np_getitem (data self) window = Ok raw ∧
    array_eq out raw ∧
    ∀ d, (∀ pd, padding_directions self = Some pd → pd !! d = None) →
      shape padded !! d = shape raw !! d.
Proof.
  intros Hdata Hne Hpos Hwin Hpad.
  pose proof (Forall2_length _ _ _ Hwin) as Hlen.
  set (l := zip (get_shape self) window).
  assert (l.*1 = get_shape self) as Hl1 by (apply fst_zip; lia).
  assert (l.*2 = window) as Hl2 by (apply snd_zip; lia).
  assert (length l = length window) as Hll
    by (unfold l; rewrite length_zip; lia).
  assert (Forall (λ x, in_bounds x.1 x.2 ∧ (0 < x.1)%nat) l) as Hl.
  { apply Forall_lookup. intros d [n it] Hx.
    apply lookup_zip_Some in Hx as [Hn Hit]. split.
    - by eapply Forall2_lookup_lr.
    - by eapply (proj1 (Forall_lookup _ _) Hpos). }
  unfold get_padded_slice_data, get_unpadded_slice_data.
  destruct (padding_directions self) as [pd|] eqn:Hpd.
  - destruct (round_trip_dims (pd !!.) l Hl)
      as (ss_r & ss_s & ss_w & Hr & Hlpl & Hnn & Hnz & Hs & Hw & Hshape
          & Hpass & Hidx).
    { intros d q Hq. by eapply Hpad. }
    assert (∀ d p, pd !! d = Some p → (d < length window)%nat) as Hkeys.
    { intros d p Hp. rewrite <- Hlen. by eapply Hpad. }
    rewrite Hl1, Hl2 in *.
    rewrite pad_directions_Ok by done. fold l. cbn [mbind result_bind].
    rewrite get_pad_data_slices; last first.
    { unfold read_slices, read_pad_list. by rewrite !length_imap. }
    { apply read_slices_Sl. eapply Forall_impl; [exact Hl|]. by intros ? [? _]. }
    unfold np_getitem at 1. rewrite Hdata, Hr. cbn [mbind result_bind].
    assert (length (read_pad_list (pd !!.) l) = length window) as Hlpl'.
    { unfold read_pad_list. by rewrite length_imap. }
    unfold np_pad_edge. cbn [shape at_].
    rewrite decide_True; last first.
    { split; [done|]. intros Hnil. rewrite Hnil in Hlpl. simpl in Hlpl.
      destruct (get_shape self); [done|]. simpl in Hlen. lia. }
    rewrite Hnn, Hnz.
    eexists _, _, _. split; [reflexivity|]. cbn [shape at_].
    rewrite pad_directions_Ok; [|
      unfold padded_shape; rewrite length_zip_with; lia | done].
    cbn [mbind result_bind].
    assert (length (padded_shape (sel_shape ss_r) (read_pad_list (pd !!.) l))
            = length l) as Hlps.
    { unfold padded_shape. rewrite length_zip_with. lia. }
    rewrite Hlps, <- Hll.
    destruct (strip_slices_Ok pd l) as (el & Hel & Hcol).
    { intros d p Hp. rewrite Hll. by eapply Hkeys. }
    rewrite Hel. cbn [mbind result_bind]. rewrite Hcol.
    cbn [mbind result_bind]. unfold np_getitem. cbn [shape at_].
    fold (strip_slices (pd !!.) l). rewrite Hs, Hdata, Hw.
    cbn [mbind result_bind].
    split; [reflexivity|]. split; [reflexivity|]. split.
    + split; cbn [shape at_]; [done|]. intros i Hi. f_equal.
      apply Hidx. by rewrite <- Hshape.
    + intros d Hd. cbn [shape]. apply Hpass. by apply Hd.
  - destruct (round_trip_dims (λ _, None) l Hl)
      as (ss_r & ss_s & ss_w & _ & _ & _ & _ & _ & Hw & _); [done|].
    rewrite Hl1, Hl2 in Hw. unfold np_getitem. rewrite Hdata, Hw.
    cbn [mbind result_bind]. eexists _, _, _.
    split; [reflexivity|]. split; [reflexivity|]. split; [reflexivity|].
    split; [by split|done].
Qed.

Lemma padding_round_trip_witness :
  ∃ padded out raw,
    get_padded_slice_data ten_padded_by_2 [range_slice 7 10] = Ok padded ∧
    get_unpadded_slice_data ten_padded_by_2 [range_slice 7 10] padded = Ok out ∧
    np_getitem (data ten_padded_by_2) [range_slice 7 10] = Ok raw ∧
    array_eq out raw ∧
    ∀ d, (∀ pd, padding_directions ten_padded_by_2 = Some pd → pd !! d = None) →
      shape padded !! d = shape raw !! d.
Proof.
  apply (padding_round_trip ten_padded_by_2 [range_slice 7 10]).
  - reflexivity.
  - discriminate.
  - repeat constructor.
  - repeat constructor; simpl; lia.
  - intros pd d p [= <-] Hp. apply lookup_singleton_Some in Hp as [<- <-].
    simpl. lia.
Defined.

(** The edge-clipping example of the specification: on extent 10, the window [0, 3) padded
    by 2 is read from [0, 5) with pads 2 and 0; the padded read has 7
    elements, of which the first three are element 0 of the data. *)
Example edge_clipping_example :
  calculate_slice_padding (range_slice 0 3) 2 10
    = (Slice (Some 0) (Some 5) (Some 1), (2, 0)) ∧
  ∃ padded,
    get_padded_slice_data ten_padded_by_2 [range_slice 0 3] = Ok padded ∧
    shape padded = [7%nat] ∧
    (λ j, at_ padded [j]) <$> seq 0 7 = [0; 0; 0; 1; 2; 3; 4]%nat.
Proof. split; [reflexivity|]. eexists. split; [reflexivity|]. by split. Qed.

(** ** Closing the backing file *)

(** C10 (as amended): [save_data] always returns normally. With no backing
    file it changes nothing. Otherwise it first reads the name of the file
    for the debug line, inside the [try]: when that read raises, the
    exception is suppressed, no close is attempted and the field stays set.
    When the read succeeds the file is closed; an exception from the close
    is suppressed and leaves the field as it was, and a successful close
    sets the field to [None], after which a second call changes nothing. *)
Theorem save_data_suppresses_and_is_idempotent {File World : Type}
    (file_filename : File → World → result Datatypes.unit)
    (logging_debug : World → World)
    (file_close : File → World → result Datatypes.unit * World)
    (backing_file backing_file' : option File) (w w' : World) r :
  save_data file_filename logging_debug file_close backing_file w
    = (r, backing_file', w') →
  r = Ok () ∧
  (backing_file = None → backing_file' = None ∧ w' = w) ∧
  (∀ f e, backing_file = Some f → file_filename f w = Err e →
     backing_file' = Some f ∧ w' = w) ∧
  (∀ f e w1, backing_file = Some f → file_filename f w = Ok () →
     file_close f (logging_debug w) = (Err e, w1) →
     backing_file' = Some f ∧ w' = w1) ∧
  (∀ f w1, backing_file = Some f → file_filename f w = Ok () →
     file_close f (logging_debug w) = (Ok (), w1) →
     backing_file' = None ∧ w' = w1 ∧
     save_data file_filename logging_debug file_close backing_file' w'
       = (Ok (), None, w')).
Proof.
  intros Hsave. unfold save_data, save_data_try in Hsave.
  destruct backing_file as [f|].
  - destruct (file_filename f w) as [[]|e] eqn:Hname.
    + destruct (file_close f (logging_debug w)) as [[[]|e] w1] eqn:Hclose;
        injection Hsave as <- <- <-;
        (split_and!;
           [done|done|intros f' e' [= <-] Hn
           |intros f' e' w2 [= <-] _ Hc|intros f' w2 [= <-] _ Hc]);
        try (rewrite Hname in Hn; by simplify_eq);
        rewrite Hclose in Hc; by simplify_eq.
    + injection Hsave as <- <- <-.
      split_and!;
        [done|done|by intros f' e' [= <-] _
        |intros f' e' w2 [= <-] Hn|intros f' w2 [= <-] Hn];
        rewrite Hname in Hn; by simplify_eq.
  - injection Hsave as <- <- <-. split_and!; done.
Qed.

Lemma save_data_suppresses_and_is_idempotent_witness :
  Ok () = Ok () ∧
  (Some 7%nat = None → @None nat = None ∧ 1%nat = 0%nat) ∧
  (∀ (f : nat) (e : pyerr), Some 7%nat = Some f →
     Ok () = Err e → None = Some f ∧ 1%nat = 0%nat) ∧
  (∀ (f : nat) (e : pyerr) (w1 : nat), Some 7%nat = Some f →
     Ok () = Ok () →
     (Ok (), 1%nat) = (Err e, w1) → None = Some f ∧ 1%nat = w1) ∧
  (∀ (f w1 : nat), Some 7%nat = Some f → Ok () = Ok () →
     (Ok (), 1%nat) = (Ok (), w1) →
     @None nat = None ∧ 1%nat = w1 ∧
     save_data (λ (_ : nat) (_ : nat), Ok ()) (λ w, w)
       (λ (_ : nat) (w : nat), (Ok (), S w)) None 1%nat = (Ok (), None, 1%nat)).
Proof.
  apply (save_data_suppresses_and_is_idempotent
           (λ (_ : nat) (_ : nat), Ok ()) (λ w, w)
           (λ (_ : nat) (w : nat), (Ok (), S w))
           (Some 7%nat) None 0%nat 1%nat (Ok ())).
  reflexivity.
Defined.

(** C10 (as stated, refuted): a backing file that is set is not always
    closed. When reading the name of the file raises, [save_data] returns
    normally with the field still set and the outside as it was, although
    the close would have succeeded and cleared the field. *)
Lemma save_data_filename_raises_no_close :
  save_data (λ (_ : nat) (_ : nat), Err ValueError) (λ w, w)
    (λ (_ : nat) (w : nat), (Ok (), S w)) (Some 7%nat) 0%nat
  = (Ok (), Some 7%nat, 0%nat) ∧
  ¬ (∀ (file_filename : nat → nat → result Datatypes.unit)
       (logging_debug : nat → nat)
       (file_close : nat → nat → result Datatypes.unit * nat) (f w : nat),
       ∃ r w1,
         file_close f (logging_debug w) = (r, w1) ∧
         save_data file_filename logging_debug file_close (Some f) w
         = (Ok (), match r with Ok _ => None | Err _ => Some f end, w1)).
Proof.
  split; [reflexivity|]. intros H.
  destruct (H (λ _ _, Err ValueError) (λ w, w) (λ _ w, (Ok (), S w))
              7%nat 0%nat) as (r & w1 & Hclose & Hsave).
  injection Hclose as <- <-. discriminate Hsave.
Qed.

(** ** Slice enumeration: the descriptors and the failures *)

(** *** The entries of a descriptor outside the slice directions *)

Lemma set_slice_dirs_frame index slice_dirs i n getitem getitem' :
  for_each (set_slice_dirs index slice_dirs i) getitem (seq 0 n) = Ok getitem' →
  length getitem' = length getitem ∧
  ∀ d, d ∉ slice_dirs → getitem' !! d = getitem !! d.
Proof.
  revert getitem'. induction n as [|n IH]; intros g' Hloop.
  - by injection Hloop as <-.
  - rewrite seq_S, for_each_app in Hloop. simpl in Hloop.
    apply bind_Ok in Hloop as (g1 & Hg1 & Hstep).
    apply bind_Ok in Hstep as (g2 & Hstep & [= <-]).
    unfold set_slice_dirs in Hstep.
    apply bind_Ok in Hstep as (row & _ & Hstep).
    apply bind_Ok in Hstep as (v & _ & Hstep).
    apply bind_Ok in Hstep as (dn & Hdn & Hset).
    apply py_getitem_Ok in Hdn. apply py_setitem_Ok in Hset as [_ ->].
    destruct (IH g1 Hg1) as [Hlen Hframe]. split.
    + by rewrite length_insert.
    + intros d Hd. rewrite list_lookup_insert_ne; [by apply Hframe|].
      intros ->. apply Hd. by eapply list_elem_of_lookup_2.
Qed.

Lemma set_fix_dirs_frame fix_dirs value n getitem getitem' :
  for_each (set_fix_dirs fix_dirs value) getitem (seq 0 n) = Ok getitem' →
  length getitem' = length getitem ∧
  ∀ d, d ∉ fix_dirs → getitem' !! d = getitem !! d.
Proof.
  revert getitem'. induction n as [|n IH]; intros g' Hloop.
  - by injection Hloop as <-.
  - rewrite seq_S, for_each_app in Hloop. simpl in Hloop.
    apply bind_Ok in Hloop as (g1 & Hg1 & Hstep).
    apply bind_Ok in Hstep as (g2 & Hstep & [= <-]).
    unfold set_fix_dirs in Hstep.
    apply bind_Ok in Hstep as (v & _ & Hstep).
    apply bind_Ok in Hstep as (dn & Hdn & Hset).
    apply py_getitem_Ok in Hdn. apply py_setitem_Ok in Hset as [_ ->].
    destruct (IH g1 Hg1) as [Hlen Hframe]. split.
    + by rewrite length_insert.
    + intros d Hd. rewrite list_lookup_insert_ne; [by apply Hframe|].
      intros ->. apply Hd. by eapply list_elem_of_lookup_2.
Qed.

Lemma set_fix_dirs_lookup fix_dirs value n getitem getitem' :
  NoDup fix_dirs →
  for_each (set_fix_dirs fix_dirs value) getitem (seq 0 n) = Ok getitem' →
  ∀ f d, (f < n)%nat → fix_dirs !! f = Some d →
    ∃ v, value !! f = Some v ∧ getitem' !! d = Some (range_slice v (v + 1)).
Proof.
  intros Hnd. revert getitem'.
  induction n as [|n IH]; intros g' Hloop f d Hf Hd; [lia|].
  rewrite seq_S, for_each_app in Hloop. simpl in Hloop.
  apply bind_Ok in Hloop as (g1 & Hg1 & Hstep).
  apply bind_Ok in Hstep as (g2 & Hstep & [= <-]).
  unfold set_fix_dirs in Hstep.
  apply bind_Ok in Hstep as (v & Hv & Hstep).
  apply bind_Ok in Hstep as (dn & Hdn & Hset).
  apply py_getitem_Ok in Hv, Hdn. apply py_setitem_Ok in Hset as [Hlt ->].
  destruct (decide (f = n)) as [->|Hne].
  - assert (dn = d) as -> by congruence. exists v.
    split; [done|]. by apply list_lookup_insert_eq.
  - destruct (IH g1 Hg1 f d) as (v' & ? & Hg); [lia|done|].
    exists v'. split; [done|]. rewrite list_lookup_insert_ne; [done|].
    intros ->. apply Hne. symmetry. by eapply NoDup_lookup.
Qed.

(** How one descriptor comes about: the fixed directions are written into
    a tuple of whole slices, which gives the same tuple [fixed] for every
    descriptor, and then the slice directions are written from column [i]
    of the index. *)
Lemma single_slice_list_inv {A} (self : Hdf5TransportData A) sl :
  single_slice_list self = Ok sl →
  ∃ index,
    get_slice_dirs_index (get_slice_directions self) (get_shape self)
      = Ok index ∧
    np_shape1 index = Ok (length sl) ∧
    (sl = [] ∨
     ∃ fixed,
       for_each (set_fix_dirs (get_fixed_directions self).1
                   (get_fixed_directions self).2)
         (replicate (length (get_shape self)) whole)
         (seq 0 (length (get_fixed_directions self).1)) = Ok fixed ∧
       ∀ i desc, sl !! i = Some desc →
         for_each (set_slice_dirs index (get_slice_directions self) i) fixed
           (seq 0 (length (get_slice_directions self))) = Ok desc).
Proof.
  unfold single_slice_list. destruct (get_fixed_directions self) as [fix_dirs value].
  intros Hsl. apply bind_Ok in Hsl as (index & Hidx & Hsl).
  apply bind_Ok in Hsl as (n & Hn & Hsl). apply collect_Ok in Hsl.
  pose proof (Forall2_length _ _ _ Hsl) as Hlen. rewrite length_seq in Hlen.
  exists index. split; [done|]. split; [by rewrite <- Hlen|].
  destruct sl as [|desc0 sl']; [by left|right].
  pose proof (Forall2_lookup_lr _ _ _ 0%nat 0%nat desc0 Hsl) as H0.
  rewrite lookup_seq_lt in H0 by (simpl in Hlen; lia).
  specialize (H0 eq_refl eq_refl). simpl in H0.
  apply bind_Ok in H0 as (fixed & Hfixed & _).
  exists fixed. split; [done|]. intros i desc Hi.
  eapply Forall2_lookup_lr in Hsl;
    [|apply lookup_seq_lt; rewrite Hlen; by eapply lookup_lt_Some|exact Hi].
  simpl in Hsl. rewrite Hfixed in Hsl. done.
Qed.

Lemma single_slice_list_entries {A} (self : Hdf5TransportData A) sl i desc :
  single_slice_list self = Ok sl → sl !! i = Some desc →
  length desc = length (get_shape self).
Proof.
  intros Hsl Hi.
  destruct (single_slice_list_inv self sl Hsl) as (index & _ & _ & [->|H]);
    [done|].
  destruct H as (fixed & Hfixed & Hdesc). specialize (Hdesc i desc Hi).
  destruct (set_slice_dirs_frame _ _ _ _ _ _ Hdesc) as [Hlen _].
  destruct (set_fix_dirs_frame _ _ _ _ _ Hfixed) as [Hlen' _].
  rewrite length_replicate in Hlen'. congruence.
Qed.

(** X1: The shape of every descriptor: one entry per dimension; a whole slice
    along every direction that is neither sliced nor fixed; along a fixed
    direction that is not sliced, the unit range at its fixed value. None of
    these entries depends on the position of the descriptor in the list. *)
Theorem single_slice_list_descriptor {A} (self : Hdf5TransportData A)
    sl i desc :
  single_slice_list self = Ok sl →
  sl !! i = Some desc →
  length desc = length (get_shape self) ∧
  (∀ d, (d < length (get_shape self))%nat →
     d ∉ get_slice_directions self → d ∉ (get_fixed_directions self).1 →
     desc !! d = Some whole) ∧
  (NoDup (get_fixed_directions self).1 →
   ∀ f d, (get_fixed_directions self).1 !! f = Some d →
     d ∉ get_slice_directions self →
     ∃ v, (get_fixed_directions self).2 !! f = Some v ∧
       desc !! d = Some (range_slice v (v + 1))).
Proof.
  intros Hsl Hi.
  destruct (single_slice_list_inv self sl Hsl) as (index & _ & _ & [->|H]);
    [done|].
  destruct H as (fixed & Hfixed & Hdesc). specialize (Hdesc i desc Hi).
  destruct (set_slice_dirs_frame _ _ _ _ _ _ Hdesc) as [Hlen Hframe].
  destruct (set_fix_dirs_frame _ _ _ _ _ Hfixed) as [Hlen' Hframe'].
  rewrite length_replicate in Hlen'. split_and!.
  - congruence.
  - intros d Hd Hns Hnf. rewrite Hframe, Hframe' by done.
    by apply lookup_replicate_2.
  - intros Hnd f d Hf Hns. rewrite Hframe by done.
    eapply set_fix_dirs_lookup; [done..| |done]. by eapply lookup_lt_Some.
Qed.

Lemma single_slice_list_descriptor_witness :
  length [unit_slice 1; range_slice 2 3; whole]
  = length (get_shape volume_fixed) ∧
  (∀ d, (d < length (get_shape volume_fixed))%nat →
     d ∉ get_slice_directions volume_fixed →
     d ∉ (get_fixed_directions volume_fixed).1 →
     [unit_slice 1; range_slice 2 3; whole] !! d = Some whole) ∧
  (NoDup (get_fixed_directions volume_fixed).1 →
   ∀ f d,
     (get_fixed_directions volume_fixed).1 !! f
     = Some d →
     d ∉ get_slice_directions volume_fixed →
     ∃ v, (get_fixed_directions volume_fixed).2 !! f
          = Some v ∧
       [unit_slice 1; range_slice 2 3; whole] !! d = Some (range_slice v (v + 1))).
Proof.
  apply (single_slice_list_descriptor
           volume_fixed
           [[unit_slice 0; range_slice 2 3; whole];
            [unit_slice 1; range_slice 2 3; whole]] 1%nat).
  - reflexivity.
  - reflexivity.
Defined.

(** X2: Whenever [single_slice_list] returns for distinct slice directions, it
    returns [product(length)] descriptors, and every coordinate tuple of
    the slice subspace is that of exactly one of them: nothing is left out
    and nothing is enumerated twice. *)
Theorem single_slice_list_covers_once {A} (self : Hdf5TransportData A)
    sl chunk lengths repeat :
  NoDup (get_slice_directions self) →
  single_slice_list self = Ok sl →
  chunk_length_repeat (get_slice_directions self) (get_shape self)
    = Ok (chunk, lengths, repeat) →
  length sl = np_prod lengths ∧
  ∀ c, Forall2 lt c lengths →
    ∃ i desc, sl !! i = Some desc ∧ at_coordinates self desc c ∧
      ∀ i' desc', sl !! i' = Some desc' → at_coordinates self desc' c → i' = i.
Proof. apply single_slice_list_partition. Qed.

(** *** When the enumeration returns, and when it raises *)

Lemma collect_total {A B} (f : A → result B) l :
  Forall (λ x, ∃ y, f x = Ok y) l → ∃ ys, collect f l = Ok ys.
Proof.
  induction 1 as [|x l [y Hy] _ [ys Hys]]; [by exists []|].
  exists (y :: ys). simpl. by rewrite Hy, Hys.
Qed.

Lemma single_slice_list_covers_once_witness :
  length grid_2_3_slices = np_prod [2; 3]%nat ∧
  ∀ c, Forall2 lt c [2; 3]%nat →
    ∃ i desc, grid_2_3_slices !! i = Some desc ∧
      at_coordinates grid_2_3 desc c ∧
      ∀ i' desc', grid_2_3_slices !! i' = Some desc' →
        at_coordinates grid_2_3 desc' c → i' = i.
Proof.
  apply (single_slice_list_covers_once grid_2_3 grid_2_3_slices
           [1; 2]%nat [2; 3]%nat [3; 1]%nat).
  - by apply (bool_decide_unpack _).
  - reflexivity.
  - reflexivity.
Defined.

Lemma collect_Err {A B} (f : A → result B) l e :
  (∀ x e', f x = Err e' → e' = e) →
  Exists (λ x, f x = Err e) l → collect f l = Err e.
Proof.
  intros Hall. induction 1 as [x l Hx|x l _ IH]; simpl.
  - by rewrite Hx.
  - destruct (f x) as [y|e'] eqn:Hfx; simpl.
    + by rewrite IH.
    + by rewrite (Hall _ _ Hfx).
Qed.

Lemma collect_getitem_Ok {A} (l : list A) ks :
  Forall (λ k, (k < length l)%nat) ks →
  ∃ xs, collect (py_getitem l) ks = Ok xs ∧
        Forall2 (λ k x, l !! k = Some x) ks xs.
Proof.
  intros Hks. destruct (collect_total (py_getitem l) ks) as [xs Hxs].
  - eapply Forall_impl; [exact Hks|]. intros k Hk.
    destruct (lookup_lt_is_Some_2 l k Hk) as [x Hx]. exists x.
    by apply py_getitem_Ok.
  - exists xs. split; [done|]. apply collect_Ok in Hxs.
    eapply Forall2_impl; [exact Hxs|]. intros k x. by rewrite py_getitem_Ok.
Qed.

Lemma chunk_length_repeat_returns slice_dirs shape :
  Forall (λ d, (d < length shape)%nat) slice_dirs →
  ∃ chunk lengths repeat,
    chunk_length_repeat slice_dirs shape = Ok (chunk, lengths, repeat) ∧
    length chunk = length slice_dirs ∧
    length lengths = length slice_dirs ∧
    length repeat = length slice_dirs ∧
    (∀ k d, slice_dirs !! k = Some d → lengths !! k = shape !! d) ∧
    (∀ k, (k < length slice_dirs)%nat →
       repeat !! k = Some (np_prod (drop (S k) lengths))).
Proof.
  intros Hdirs.
  destruct (collect_getitem_Ok shape slice_dirs Hdirs) as (sshape & Hs & Hl).
  pose proof (Forall2_length _ _ _ Hl) as Hlen.
  exists ((λ dim, np_prod (take dim shape)) <$> seq 0 (length slice_dirs)),
    sshape,
    ((λ dim, np_prod (drop (S dim) sshape)) <$> seq 0 (length slice_dirs)).
  unfold chunk_length_repeat. rewrite Hs. cbn [mbind result_bind].
  rewrite Hlen, collect_getitem_seq. cbn [mbind result_bind].
  rewrite !length_fmap, length_seq. split_and!; try done.
  - intros k d Hk. destruct (Forall2_lookup_l _ _ _ _ _ Hl Hk) as (x & -> & Hx).
    done.
  - intros k Hk. by rewrite list_lookup_fmap, lookup_seq_lt.
Qed.

Lemma chunk_length_repeat_out_of_range slice_dirs shape :
  ¬ Forall (λ d, (d < length shape)%nat) slice_dirs →
  chunk_length_repeat slice_dirs shape = Err IndexError.
Proof.
  intros Hdirs. unfold chunk_length_repeat.
  rewrite (collect_Err _ _ IndexError); [done| |].
  - intros d e'. unfold py_getitem. by destruct (shape !! d); intros [=].
  - apply not_Forall_Exists in Hdirs; [|apply _].
    eapply Exists_impl; [exact Hdirs|]. intros d Hd. simpl in Hd.
    unfold py_getitem. by rewrite lookup_ge_None_2 by lia.
Qed.

(** X3: [chunk_length_repeat] returns exactly when every slice direction is a
    dimension of the shape; it then gives one entry per slice direction in
    each list, with [length[i] = shape[slice_dirs[i]]] and
    [repeat[i] = product(length[i+1:])]; otherwise it raises
    [IndexError]. *)
Theorem chunk_length_repeat_criterion slice_dirs shape :
  (Forall (λ d, (d < length shape)%nat) slice_dirs →
   ∃ chunk lengths repeat,
     chunk_length_repeat slice_dirs shape = Ok (chunk, lengths, repeat) ∧
     length chunk = length slice_dirs ∧
     length lengths = length slice_dirs ∧
     length repeat = length slice_dirs ∧
     (∀ k d, slice_dirs !! k = Some d → lengths !! k = shape !! d) ∧
     (∀ k, (k < length slice_dirs)%nat →
        repeat !! k = Some (np_prod (drop (S k) lengths)))) ∧
  (¬ Forall (λ d, (d < length shape)%nat) slice_dirs →
   chunk_length_repeat slice_dirs shape = Err IndexError).
Proof.
  split;
    [apply chunk_length_repeat_returns|apply chunk_length_repeat_out_of_range].
Qed.

Lemma chunk_length_repeat_criterion_witness :
  ∃ chunk lengths repeat,
    chunk_length_repeat [0; 2]%nat [2; 3; 4]%nat = Ok (chunk, lengths, repeat) ∧
    length chunk = length [0; 2]%nat ∧
    length lengths = length [0; 2]%nat ∧
    length repeat = length [0; 2]%nat ∧
    (∀ k d, [0; 2]%nat !! k = Some d → lengths !! k = [2; 3; 4]%nat !! d) ∧
    (∀ k, (k < length [0; 2]%nat)%nat →
       repeat !! k = Some (np_prod (drop (S k) lengths))).
Proof.
  apply (proj1 (chunk_length_repeat_criterion [0; 2]%nat [2; 3; 4]%nat)).
  repeat constructor.
Defined.

Lemma get_slice_dirs_index_total slice_dirs shape chunk lengths repeat :
  chunk_length_repeat slice_dirs shape = Ok (chunk, lengths, repeat) →
  ∃ index, get_slice_dirs_index slice_dirs shape = Ok index.
Proof.
  intros Hclr. unfold get_slice_dirs_index. rewrite Hclr.
  cbn [mbind result_bind].
  destruct (chunk_length_repeat_Ok _ _ _ _ _ Hclr) as (Hl & -> & ->).
  pose proof (Forall2_length _ _ _ Hl) as Hlen.
  apply collect_total, Forall_forall. intros dim Hdim.
  apply elem_of_seq in Hdim as [_ Hdim]. simpl in Hdim.
  unfold py_getitem. rewrite !list_lookup_fmap, !lookup_seq_lt by done.
  destruct (lookup_lt_is_Some_2 lengths dim) as [l ->]; [lia|].
  by eexists.
Qed.

Lemma np_shape1_total rows n :
  rows ≠ [] → Forall (λ row, length row = n) rows → np_shape1 rows = Ok n.
Proof.
  intros Hne Hall. destruct rows as [|row rows]; [done|].
  apply Forall_cons in Hall as [Hrow Hall]. simpl.
  rewrite (proj2 (forallb_forall _ _)); [by rewrite Hrow|].
  intros row' Hin. apply Nat.eqb_eq. rewrite Hrow.
  by eapply (proj1 (Forall_forall _ _) Hall), list_elem_of_In.
Qed.

(** Whenever the enumeration returns, it returns [product(length)]
    descriptors. *)
Lemma single_slice_list_length {A} (self : Hdf5TransportData A)
    sl chunk lengths repeat :
  single_slice_list self = Ok sl →
  chunk_length_repeat (get_slice_directions self) (get_shape self)
    = Ok (chunk, lengths, repeat) →
  length sl = np_prod lengths.
Proof.
  intros Hsl Hclr. unfold single_slice_list in Hsl.
  destruct (get_fixed_directions self) as [fix_dirs value].
  apply bind_Ok in Hsl as (index & Hidx & Hsl).
  apply bind_Ok in Hsl as (n & Hn & Hsl). apply collect_Ok in Hsl.
  pose proof (Forall2_length _ _ _ Hsl) as Hlen. rewrite length_seq in Hlen.
  destruct (get_slice_dirs_index_Ok _ _ _ Hidx)
    as (c' & l' & r' & Hclr' & Hli & Hrows).
  rewrite Hclr in Hclr'. injection Hclr' as <- <- <-.
  destruct (chunk_length_repeat_Ok _ _ _ _ _ Hclr) as (Hl & _ & _).
  pose proof (Forall2_length _ _ _ Hl) as Hll.
  apply np_shape1_Ok in Hn as [Hne Hall].
  destruct lengths as [|l0 lengths].
  { destruct index; [done|]. simpl in *. lia. }
  rewrite <- Hlen, <- (Hall 0%nat _ (Hrows 0%nat l0 eq_refl)).
  rewrite length_kron_ravel. cbn [take drop]. rewrite ?drop_0, ?take_0, np_prod_cons.
  change (np_prod []) with 1%nat. nia.
Qed.

Lemma set_fix_dirs_total fix_dirs value n getitem :
  (n ≤ length fix_dirs)%nat → (length fix_dirs ≤ length value)%nat →
  Forall (λ d, (d < length getitem)%nat) fix_dirs →
  ∃ getitem', for_each (set_fix_dirs fix_dirs value) getitem (seq 0 n)
              = Ok getitem'.
Proof.
  intros Hn Hv Hd. induction n as [|n IH]; [by eexists|].
  destruct IH as [g1 Hg1]; [lia|].
  destruct (set_fix_dirs_frame _ _ _ _ _ Hg1) as [Hlen _].
  rewrite seq_S, for_each_app, Hg1. simpl.
  destruct (lookup_lt_is_Some_2 value n) as [v Hvn]; [lia|].
  destruct (lookup_lt_is_Some_2 fix_dirs n) as [d Hdn]; [lia|].
  unfold set_fix_dirs, py_getitem, py_setitem. rewrite Hvn, Hdn. simpl.
  rewrite decide_True; [by eexists|].
  rewrite Hlen. by eapply (proj1 (Forall_lookup _ _) Hd).
Qed.

Lemma set_slice_dirs_total index slice_dirs i n getitem :
  (n ≤ length slice_dirs)%nat → (length slice_dirs ≤ length index)%nat →
  Forall (λ row, (i < length row)%nat) index →
  Forall (λ d, (d < length getitem)%nat) slice_dirs →
  ∃ getitem', for_each (set_slice_dirs index slice_dirs i) getitem (seq 0 n)
              = Ok getitem'.
Proof.
  intros Hn Hidx Hrows Hd. induction n as [|n IH]; [by eexists|].
  destruct IH as [g1 Hg1]; [lia|].
  destruct (set_slice_dirs_frame _ _ _ _ _ _ Hg1) as [Hlen _].
  rewrite seq_S, for_each_app, Hg1. simpl.
  destruct (lookup_lt_is_Some_2 index n) as [row Hrow]; [lia|].
  destruct (lookup_lt_is_Some_2 row i) as [v Hv];
    [by eapply (proj1 (Forall_lookup _ _) Hrows)|].
  destruct (lookup_lt_is_Some_2 slice_dirs n) as [d Hdn]; [lia|].
  unfold set_slice_dirs, py_getitem, py_setitem. rewrite Hrow. simpl.
  rewrite Hv, Hdn. simpl.
  rewrite decide_True; [by eexists|].
  rewrite Hlen. by eapply (proj1 (Forall_lookup _ _) Hd).
Qed.

(** The enumeration returns when there is a slice direction, the chunk
    factors taken from the whole shape agree with the products of the
    earlier slice lengths, and the fixed directions are dimensions of the
    shape with a value each. It then returns [product(length)]
    descriptors. *)
Lemma single_slice_list_returns {A} (self : Hdf5TransportData A)
    chunk lengths repeat :
  chunk_length_repeat (get_slice_directions self) (get_shape self)
    = Ok (chunk, lengths, repeat) →
  get_slice_directions self ≠ [] →
  (∀ k, (k < length lengths)%nat →
     np_prod (take k (get_shape self)) = np_prod (take k lengths)) →
  Forall (λ d, (d < length (get_shape self))%nat)
    (get_fixed_directions self).1 →
  (length (get_fixed_directions self).1
   ≤ length (get_fixed_directions self).2)%nat →
  ∃ sl, single_slice_list self = Ok sl ∧ length sl = np_prod lengths.
Proof.
  intros Hclr Hne Hchunk Hfix Hval.
  destruct (get_slice_dirs_index_total _ _ _ _ _ Hclr) as [index Hidx].
  destruct (get_slice_dirs_index_Ok _ _ _ Hidx)
    as (c' & l' & r' & Hclr' & Hlen & Hrows).
  rewrite Hclr in Hclr'. injection Hclr' as <- <- <-.
  destruct (chunk_length_repeat_Ok _ _ _ _ _ Hclr) as (Hl & _ & _).
  pose proof (Forall2_length _ _ _ Hl) as Hll.
  assert (Forall (λ row, length row = np_prod lengths) index) as Hall.
  { apply Forall_lookup. intros k row Hrow.
    destruct (lookup_lt_is_Some_2 lengths k) as [l Hlk].
    { rewrite <- Hll, <- Hlen. by eapply lookup_lt_Some. }
    rewrite (Hrows _ _ Hlk) in Hrow. injection Hrow as <-.
    rewrite length_kron_ravel, Hchunk by (by eapply lookup_lt_Some).
    rewrite (np_prod_take_drop k lengths), (np_prod_drop_S _ _ _ Hlk). lia. }
  assert (np_shape1 index = Ok (np_prod lengths)) as Hn.
  { apply np_shape1_total; [|done]. intros ->. simpl in Hlen.
    by destruct (get_slice_directions self). }
  unfold single_slice_list.
  destruct (get_fixed_directions self) as [fix_dirs value]. simpl in *.
  rewrite Hidx. cbn [mbind result_bind]. rewrite Hn. cbn [mbind result_bind].
  match goal with |- ∃ sl, collect ?f ?l = Ok sl ∧ _ =>
    destruct (collect_total f l) as [sl Hsl] end.
  - apply Forall_forall. intros i Hi. apply elem_of_seq in Hi as [_ Hi].
    simpl in Hi.
    destruct (set_fix_dirs_total fix_dirs value (length fix_dirs)
                (replicate (length (get_shape self)) whole))
      as [fixed Hfixed]; [done|done|by rewrite length_replicate|].
    rewrite Hfixed. cbn [mbind result_bind].
    destruct (set_fix_dirs_frame _ _ _ _ _ Hfixed) as [Hlf _].
    rewrite length_replicate in Hlf.
    apply set_slice_dirs_total; [done|lia| |].
    + eapply Forall_impl; [exact Hall|]. intros row ->. done.
    + rewrite Hlf. apply Forall_lookup. intros k d Hk.
      destruct (Forall2_lookup_l _ _ _ _ _ Hl Hk) as (l & _ & Hd).
      by eapply lookup_lt_Some.
  - exists sl. split; [done|]. apply collect_Ok, Forall2_length in Hsl.
    by rewrite length_seq in Hsl.
Qed.

(** X4: [single_slice_list] returns whenever the slice directions are the
    leading dimensions of the shape, in order, and the fixed directions are
    dimensions of the shape with a value each; it then returns as many
    descriptors as the product of the extents of the slice directions. *)
Theorem single_slice_list_leading {A} (self : Hdf5TransportData A) m :
  get_slice_directions self = seq 0 m →
  (0 < m)%nat → (m ≤ length (get_shape self))%nat →
  Forall (λ d, (d < length (get_shape self))%nat)
    (get_fixed_directions self).1 →
  (length (get_fixed_directions self).1
   ≤ length (get_fixed_directions self).2)%nat →
  ∃ sl, single_slice_list self = Ok sl ∧
        length sl = np_prod (take m (get_shape self)).
Proof.
  intros Hdirs Hm Hle Hfix Hval.
  destruct (chunk_length_repeat_returns (seq 0 m) (get_shape self))
    as (chunk & lengths & repeat & Hclr & _ & Hll & _ & Hlook & _).
  { apply Forall_forall. intros d Hd. apply elem_of_seq in Hd. lia. }
  rewrite length_seq in Hll.
  assert (lengths = take m (get_shape self)) as ->.
  { apply list_eq. intros k. destruct (decide (k < m)%nat).
    - rewrite (Hlook k k) by (by apply lookup_seq_lt).
      by rewrite lookup_take_lt.
    - rewrite lookup_ge_None_2 by lia. by rewrite lookup_take_ge by lia. }
  apply (single_slice_list_returns self chunk _ repeat); try done.
  - by rewrite Hdirs.
  - rewrite Hdirs. destruct m; [lia|done].
  - intros k Hk. rewrite length_take in Hk. rewrite take_take. do 2 f_equal. lia.
Qed.

Lemma single_slice_list_leading_witness :
  ∃ sl, single_slice_list volume_leading
        = Ok sl ∧
        length sl
        = np_prod (take 2 (get_shape
                             volume_leading)).
Proof.
  apply (single_slice_list_leading
           volume_leading 2).
  - reflexivity.
  - lia.
  - simpl. lia.
  - repeat constructor.
  - simpl. lia.
Defined.

(** X5: [single_slice_list] raises [IndexError] when there is no slice
    direction at all, and when some slice direction is not a dimension of
    the shape. *)
Theorem single_slice_list_raises {A} (self : Hdf5TransportData A) :
  get_slice_directions self = [] ∨
  ¬ Forall (λ d, (d < length (get_shape self))%nat) (get_slice_directions self) →
  single_slice_list self = Err IndexError.
Proof.
  intros [Hnil|Hout]; unfold single_slice_list, get_slice_dirs_index;
    destruct (get_fixed_directions self) as [fix_dirs value].
  - by rewrite Hnil.
  - by rewrite (chunk_length_repeat_out_of_range _ _ Hout).
Qed.

Lemma single_slice_list_raises_witness :
  single_slice_list (dataset [2; 3]%nat [] [] [] None) = Err IndexError.
Proof.
  apply (single_slice_list_raises (dataset [2; 3]%nat [] [] [] None)).
  left. reflexivity.
Defined.

(** ** Banks and batches *)

(** *** Banks *)

Lemma concat_slices {A} (l : list A) L R :
  concat ((λ rep, py_slice l (rep * L) (rep * L + L)) <$> seq 0 R)
  = take (R * L) l.
Proof.
  induction R as [|R IH]; [done|].
  rewrite seq_S, fmap_app, concat_app, IH. simpl. rewrite app_nil_r.
  unfold py_slice. rewrite take_take_drop. f_equal. lia.
Qed.

Lemma banked_list_Ok {A} (self : Hdf5TransportData A)
    (slice_list : list (list item)) chunk lengths repeat L :
  chunk_length_repeat (get_slice_directions self) (get_shape self)
    = Ok (chunk, lengths, repeat) →
  lengths !! 0%nat = Some L →
  length slice_list = np_prod lengths →
  ∃ banked,
    banked_list self slice_list = Ok (banked, L, get_slice_directions self) ∧
    concat banked = slice_list ∧
    length banked = np_prod (drop 1 lengths) ∧
    ∀ rep group, banked !! rep = Some group →
      length group = L ∧
      ∀ j, (j < L)%nat → group !! j = slice_list !! (rep * L + j)%nat.
Proof.
  intros Hclr HL Hlen.
  destruct (chunk_length_repeat_Ok _ _ _ _ _ Hclr) as (Hl & _ & Hrep).
  pose proof (Forall2_length _ _ _ Hl) as Hll.
  assert (0 < length (get_slice_directions self))%nat as Hpos
    by (rewrite Hll; by eapply lookup_lt_Some).
  set (R := np_prod (drop 1 lengths)).
  assert (repeat !! 0%nat = Some R) as HR.
  { rewrite Hrep, list_lookup_fmap, lookup_seq_lt by done. done. }
  assert (np_prod lengths = (R * L)%nat) as Hprod.
  { rewrite (np_prod_take_drop 0 lengths), drop_0. simpl.
    rewrite <- (drop_0 lengths) at 1. rewrite (np_prod_drop_S _ _ _ HL).
    unfold R. lia. }
  exists ((λ rep, py_slice slice_list (rep * L) (rep * L + L)) <$> seq 0 R).
  split_and!.
  - unfold banked_list. rewrite Hclr. cbn [mbind result_bind].
    rewrite (proj2 (py_getitem_Ok _ _ _) HR). cbn [mbind result_bind].
    match goal with |- collect ?f ?l ≫= _ = _ =>
      assert (collect f l
              = Ok ((λ rep, py_slice slice_list (rep * L) (rep * L + L))
                      <$> seq 0 R)) as -> end.
    { apply collect_Ok, Forall2_fmap_r, Forall_Forall2_diag, Forall_forall.
      intros rep _. by rewrite (proj2 (py_getitem_Ok _ _ _) HL). }
    cbn [mbind result_bind]. by rewrite (proj2 (py_getitem_Ok _ _ _) HL).
  - rewrite concat_slices, <- Hprod, <- Hlen. apply firstn_all.
  - by rewrite length_fmap, length_seq.
  - intros rep group Hgroup. rewrite list_lookup_fmap in Hgroup.
    destruct (seq 0 R !! rep) as [rep'|] eqn:Hrep'; [|done].
    apply lookup_seq in Hrep' as [-> Hlt]. injection Hgroup as <-.
    unfold py_slice. simpl. split.
    + rewrite length_take, length_drop. nia.
    + intros j Hj. rewrite lookup_take_lt by lia. by rewrite lookup_drop.
Qed.

(** X6: [banked_list] cuts a slice list of [product(length)] descriptors into
    [product(length[1:])] banks of [length[0]] consecutive descriptors each;
    the banks, one after the other, are the slice list again. *)
Theorem banked_list_concat {A} (self : Hdf5TransportData A)
    (slice_list : list (list item)) chunk lengths repeat L :
  chunk_length_repeat (get_slice_directions self) (get_shape self)
    = Ok (chunk, lengths, repeat) →
  lengths !! 0%nat = Some L →
  length slice_list = np_prod lengths →
  ∃ banked,
    banked_list self slice_list = Ok (banked, L, get_slice_directions self) ∧
    concat banked = slice_list ∧
    length banked = np_prod (drop 1 lengths) ∧
    ∀ rep group, banked !! rep = Some group →
      length group = L ∧
      ∀ j, (j < L)%nat → group !! j = slice_list !! (rep * L + j)%nat.
Proof. apply banked_list_Ok. Qed.

Lemma single_slice_list_bank_place {A} (self : Hdf5TransportData A)
    sl chunk lengths repeat L d0 rep j desc0 :
  NoDup (get_slice_directions self) →
  single_slice_list self = Ok sl →
  chunk_length_repeat (get_slice_directions self) (get_shape self)
    = Ok (chunk, lengths, repeat) →
  lengths !! 0%nat = Some L →
  get_slice_directions self !! 0%nat = Some d0 →
  (j < L)%nat →
  sl !! (rep * L)%nat = Some desc0 →
  (rep * L + j < length sl)%nat →
  sl !! (rep * L + j)%nat = Some (<[d0:=unit_slice (Z.of_nat j)]> desc0).
Proof.
  intros Hnd Hsl Hclr HL Hd0 Hj Hdesc0 Hlt.
  destruct (lookup_lt_is_Some_2 sl (rep * L + j)) as [desc Hdesc]; [done|].
  rewrite Hdesc. f_equal.
  destruct (single_slice_list_digits self sl Hnd Hsl)
    as (c' & l' & r' & Hclr' & _ & Hdigits).
  rewrite Hclr in Hclr'. injection Hclr' as <- <- <-.
  destruct (single_slice_list_inv self sl Hsl) as (index & _ & _ & [->|H]);
    [done|].
  destruct H as (fixed & _ & Hloop).
  destruct (set_slice_dirs_frame _ _ _ _ _ _ (Hloop _ _ Hdesc))
    as [Hlen Hframe].
  destruct (set_slice_dirs_frame _ _ _ _ _ _ (Hloop _ _ Hdesc0))
    as [Hlen0 Hframe0].
  destruct (Hdigits _ 0%nat d0 desc0 Hdesc0 Hd0) as (l0 & Hl0 & Hd00).
  assert (d0 < length desc0)%nat as Hd0lt by (by eapply lookup_lt_Some).
  apply list_eq. intros d.
  destruct (decide (d = d0)) as [->|Hne].
  - rewrite list_lookup_insert_eq by done.
    destruct (Hdigits _ 0%nat d0 desc Hdesc Hd0) as (l & Hl & ->).
    simplify_eq. do 3 f_equal. change (np_prod (take 0 lengths)) with 1%nat.
    rewrite Nat.div_1_r, Nat.add_comm, Nat.Div0.mod_add.
    by apply Nat.mod_small.
  - rewrite list_lookup_insert_ne by done.
    destruct (decide (d ∈ get_slice_directions self)) as [Hin|Hnin].
    + apply list_elem_of_lookup in Hin as [k Hk].
      destruct (Hdigits _ k d desc Hdesc Hk) as (l & Hl & ->).
      destruct (Hdigits _ k d desc0 Hdesc0 Hk) as (l' & Hl' & ->).
      simplify_eq. do 3 f_equal.
      destruct k as [|k]; [congruence|].
      destruct lengths as [|L' lengths]; [done|]. simpl in HL. simplify_eq.
      cbn [take]. rewrite np_prod_cons, <- !Nat.Div0.div_div. f_equal.
      rewrite Nat.div_add_l by lia. rewrite (Nat.div_small j) by done.
      rewrite Nat.div_mul by lia. by rewrite Nat.add_0_r.
    + rewrite Hframe, Hframe0 by done. done.
Qed.

Lemma banked_list_concat_witness :
  ∃ banked,
    banked_list grid_2_3
      grid_2_3_slices
    = Ok (banked, 2%nat,
          get_slice_directions grid_2_3) ∧
    concat banked
    = grid_2_3_slices ∧
    length banked = np_prod (drop 1 [2; 3]%nat) ∧
    ∀ rep group, banked !! rep = Some group →
      length group = 2%nat ∧
      ∀ j, (j < 2)%nat →
        group !! j
        = grid_2_3_slices
          !! (rep * 2 + j)%nat.
Proof.
  apply (banked_list_concat grid_2_3
           _ [1; 2]%nat [2; 3]%nat [3; 1]%nat 2%nat); reflexivity.
Defined.

(** X7: Within a bank only the first slice direction moves: the descriptor at
    place [j] of a bank is the first descriptor of the bank with the unit
    range at [j] along the first slice direction. *)
Theorem single_slice_list_bank {A} (self : Hdf5TransportData A)
    sl chunk lengths repeat L d0 rep j desc0 :
  NoDup (get_slice_directions self) →
  single_slice_list self = Ok sl →
  chunk_length_repeat (get_slice_directions self) (get_shape self)
    = Ok (chunk, lengths, repeat) →
  lengths !! 0%nat = Some L →
  get_slice_directions self !! 0%nat = Some d0 →
  (j < L)%nat →
  sl !! (rep * L)%nat = Some desc0 →
  (rep * L + j < length sl)%nat →
  sl !! (rep * L + j)%nat = Some (<[d0:=unit_slice (Z.of_nat j)]> desc0).
Proof. apply single_slice_list_bank_place. Qed.

Lemma spec_batches_1 L :
  spec_batches (Z.of_nat L) 1
  = (λ k : nat, (Z.of_nat k, Z.of_nat k + 1)) <$> seq 0 L.
Proof.
  unfold spec_batches. rewrite Z.div_1_r, Nat2Z.id, Z.mod_1_r.
  rewrite decide_True by done. rewrite app_nil_r.
  apply list_fmap_ext. intros _ k _. f_equal; lia.
Qed.

Lemma single_slice_list_bank_witness :
  grid_2_3_slices
    !! (2 * 2 + 1)%nat
  = Some (<[0%nat:=unit_slice (Z.of_nat 1)]> [unit_slice 0; unit_slice 2]).
Proof.
  apply (single_slice_list_bank grid_2_3
           _ [1; 2]%nat [2; 3]%nat [3; 1]%nat 2%nat 0%nat 2%nat 1%nat).
  - by apply (bool_decide_unpack _).
  - reflexivity.
  - reflexivity.
  - reflexivity.
  - reflexivity.
  - lia.
  - reflexivity.
  - simpl. lia.
Defined.

(** The banks of an enumerated slice list satisfy what
    [grouped_slice_list_batches] asks of them. *)
Lemma single_slice_list_banks {A} (self : Hdf5TransportData A) sl chunk lengths repeat L d0 :
  single_slice_list self = Ok sl →
  chunk_length_repeat (get_slice_directions self) (get_shape self)
    = Ok (chunk, lengths, repeat) →
  lengths !! 0%nat = Some L →
  get_slice_directions self !! 0%nat = Some d0 →
  (0 < L)%nat →
  ∃ banked,
    banked_list self sl = Ok (banked, L, get_slice_directions self) ∧
    concat banked = sl ∧
    length banked = np_prod (drop 1 lengths) ∧
    (∀ rep group, banked !! rep = Some group →
       length group = L ∧
       ∀ j, (j < L)%nat → group !! j = sl !! (rep * L + j)%nat) ∧
    Forall (λ group, length group = L ∧
              ∃ working_slice, group !! 0%nat = Some working_slice ∧
                               (d0 < length working_slice)%nat) banked.
Proof.
  intros Hsl Hclr HL Hd0 Hpos.
  pose proof (single_slice_list_length self _ _ _ _ Hsl Hclr) as Hlen.
  destruct (banked_list_Ok self sl _ _ _ _ Hclr HL Hlen)
    as (banked & Hbanked & Hconcat & Hnb & Hgroups).
  exists banked. split_and!; try done.
  apply Forall_lookup. intros rep group Hgroup.
  destruct (Hgroups _ _ Hgroup) as [Hlg Hlook]. split; [done|].
  destruct (lookup_lt_is_Some_2 group 0) as [ws Hws]; [lia|].
  exists ws. split; [done|].
  rewrite (Hlook 0%nat Hpos) in Hws.
  rewrite (single_slice_list_entries self sl _ ws Hsl Hws).
  destruct (chunk_length_repeat_Ok _ _ _ _ _ Hclr) as (Hl & _ & _).
  destruct (Forall2_lookup_l _ _ _ _ _ Hl Hd0) as (l & _ & Hd).
  by eapply lookup_lt_Some.
Qed.



(** X9: With the default of one frame per batch, batching changes nothing: the
    batches are the enumerated descriptors themselves. *)
Theorem get_grouped_slice_list_default {A} (self : Hdf5TransportData A) sl :
  NoDup (get_slice_directions self) →
  get_nFrames self = None ∨ get_nFrames self = Some 1 →
  single_slice_list self = Ok sl →
  sl ≠ [] →
  get_grouped_slice_list self = Ok sl.
Proof.
  intros Hnd Hn Hsl Hne.
  destruct (single_slice_list_digits self sl Hnd Hsl)
    as (chunk & lengths & repeat & Hclr & Hlen & _).
  destruct (single_slice_list_inv self sl Hsl) as (index & Hidx & Hshape & _).
  destruct (get_slice_dirs_index_Ok _ _ _ Hidx)
    as (c' & l' & r' & Hclr' & Hli & _).
  rewrite Hclr in Hclr'. injection Hclr' as <- <- <-.
  destruct (chunk_length_repeat_Ok _ _ _ _ _ Hclr) as (Hl & _ & _).
  pose proof (Forall2_length _ _ _ Hl) as Hll.
  apply np_shape1_Ok in Hshape as [Hine _].
  destruct (get_slice_directions self) as [|d0 dirs] eqn:Hdirs.
  { destruct index; [done|]. simpl in Hli. lia. }
  destruct lengths as [|L lengths]; [done|].
  assert (0 < L)%nat as Hpos.
  { destruct L; [|lia]. rewrite np_prod_cons in Hlen.
    destruct sl; [done|]. simpl in Hlen. lia. }
  rewrite <- Hdirs in *.
  assert (get_slice_directions self !! 0%nat = Some d0) as Hd0
    by (by rewrite Hdirs).
  destruct (single_slice_list_banks self sl _ _ _ L d0 Hsl Hclr eq_refl Hd0)
    as (banked & Hbanked & Hconcat & _ & Hlook & Hgroups); [done|].
  unfold get_grouped_slice_list. rewrite Hsl. cbn [mbind result_bind].
  assert (match get_nFrames self with None => 1 | Some m => m end = 1) as ->
    by (by destruct Hn as [-> | ->]).
  rewrite (grouped_slice_list_batches self sl 1 banked L _ d0)
    by (done || lia).
  f_equal.
  assert (∀ rep group, banked !! rep = Some group →
            bank_batches d0 (Z.of_nat L) 1 group = group) as Hid.
  { intros rep group Hgroup. destruct (Hlook _ _ Hgroup) as [Hlg Hgl].
    destruct group as [|ws group]; [done|].
    unfold bank_batches. rewrite spec_batches_1, <- list_fmap_compose.
    apply list_eq. intros j. rewrite list_lookup_fmap.
    destruct (decide (j < L)%nat) as [Hj|Hj].
    - rewrite lookup_seq_lt by done. simpl.
      rewrite (Hgl j Hj). symmetry.
      eapply (single_slice_list_bank_place self sl); try done.
      + pose proof (Hgl 0%nat Hpos) as H0. rewrite Nat.add_0_r in H0.
        by rewrite <- H0.
      + apply lookup_lt_is_Some. rewrite <- (Hgl j Hj).
        apply lookup_lt_is_Some. lia.
    - rewrite (lookup_ge_None_2 (seq 0 L)) by (rewrite length_seq; lia).
      simpl. symmetry. apply lookup_ge_None_2. lia. }
  rewrite <- Hconcat. clear -Hid. revert Hid. induction banked as [|group banked IH]; intros Hid;
    [done|].
  simpl. rewrite (Hid 0%nat group eq_refl). f_equal.
  apply IH. intros rep g Hg. by apply (Hid (S rep)).
Qed.

Lemma get_grouped_slice_list_default_witness :
  get_grouped_slice_list grid_2_3
  = Ok grid_2_3_slices.
Proof.
  apply (get_grouped_slice_list_default
           grid_2_3).
  - by apply (bool_decide_unpack _).
  - left. reflexivity.
  - reflexivity.
  - discriminate.
Defined.

(** ** Process distribution: every rank *)

(** *** The share of every rank *)

Lemma share_nonempty n P r :
  (r < P)%nat →
  (share_start n P r < share_start n P (S r))%nat ↔ (r < n)%nat.
Proof.
  intros Hr. rewrite share_size.
  pose proof (Nat.mod_upper_bound n P). pose proof (Nat.div_mod_eq n P).
  destruct (decide (n `div` P = 0)%nat) as [Hq|Hq].
  - rewrite Hq in *. case_decide; lia.
  - assert (P ≤ n)%nat by nia. case_decide; lia.
Qed.

(** X10: What [get_slice_list_per_process] gives the process of rank [r] out of
    [P]: when there are more batches than [r], its share is the contiguous
    run that starts where the shares of the lower ranks end, of
    [n / P] batches and one more for the first [n mod P] ranks; when there
    are at most [r] batches, the call raises [IndexError]. *)
Theorem get_slice_list_per_process_rank {A} (self : Hdf5TransportData A) slice_list P r frameList :
  get_grouped_slice_list self = Ok slice_list →
  (r < P)%nat →
  ((r < length slice_list)%nat →
   ∃ share,
     get_slice_list_per_process self P r frameList
     = Ok (share, if frameList then Some (seq 0 (length slice_list)) else None) ∧
     share = py_slice slice_list (share_start (length slice_list) P r)
               (share_start (length slice_list) P (S r)) ∧
     length share
     = (length slice_list `div` P
        + (if decide (r < length slice_list `mod` P) then 1 else 0))%nat) ∧
  ((length slice_list ≤ r)%nat →
   get_slice_list_per_process self P r frameList = Err IndexError).
Proof.
  intros Hsl Hr. set (n := length slice_list). split.
  - intros Hn. eexists. split; [|split; [reflexivity|]].
    + apply get_slice_list_per_process_share; [done..|].
      by apply share_nonempty.
    + pose proof (share_start_le n P (S r)) as Hle.
      pose proof (share_size n P r) as Hsize.
      unfold py_slice. rewrite length_take, length_drop. fold n. lia.
  - intros Hn. unfold get_slice_list_per_process.
    rewrite Hsl. cbn [mbind result_bind].
    destruct (np_array_split_lookup (seq 0 (length slice_list)) P r)
      as (parts & -> & _ & Hpart); [lia|done|].
    cbn [mbind result_bind]. rewrite (proj2 (py_getitem_Ok _ _ _) Hpart).
    cbn [mbind result_bind]. rewrite length_seq. fold n.
    assert (py_slice (seq 0 n) (share_start n P r) (share_start n P (S r)) = [])
      as ->; [|done].
    unfold py_slice. apply length_zero_iff_nil.
    rewrite length_take, length_drop, length_seq.
    pose proof (proj1 (share_nonempty n P r Hr)). lia.
Qed.

Lemma get_slice_list_per_process_rank_witness :
  ((3 < length grid_2_3_slices)%nat →
   ∃ share,
     get_slice_list_per_process grid_2_3 4 3 false
     = Ok (share, if false then Some (seq 0 (length grid_2_3_slices)) else None) ∧
     share = py_slice grid_2_3_slices
               (share_start (length grid_2_3_slices) 4 3)
               (share_start (length grid_2_3_slices) 4 (S 3)) ∧
     length share
     = (length grid_2_3_slices `div` 4
        + (if decide (3 < length grid_2_3_slices `mod` 4) then 1 else 0))%nat) ∧
  ((length grid_2_3_slices ≤ 3)%nat →
   get_slice_list_per_process grid_2_3 4 3 false = Err IndexError).
Proof.
  apply (get_slice_list_per_process_rank grid_2_3 grid_2_3_slices 4 3 false).
  - reflexivity.
  - lia.
Defined.

(** X11: With at least as many batches as processes, every rank gets a share,
    and the shares of ranks 0, 1, ... in this order are the whole batch
    list: no batch is dropped and none is handed out twice. *)
Theorem get_slice_list_per_process_partition {A} (self : Hdf5TransportData A) slice_list P :
  get_grouped_slice_list self = Ok slice_list →
  (0 < P)%nat → (P ≤ length slice_list)%nat →
  ∃ shares,
    collect (λ r, share ← get_slice_list_per_process self P r false;
                  Ok share.1) (seq 0 P) = Ok shares ∧
    concat shares = slice_list ∧
    Forall (λ share, share ≠ []) shares.
Proof.
  intros Hsl HP Hn. set (n := length slice_list).
  exists ((λ r, py_slice slice_list (share_start n P r)
                  (share_start n P (S r))) <$> seq 0 P).
  split_and!.
  - apply collect_Ok, Forall2_fmap_r, Forall_Forall2_diag, Forall_forall.
    intros r Hin. apply elem_of_seq in Hin as [_ Hin]. simpl in Hin.
    rewrite (get_slice_list_per_process_share self slice_list); [done..|].
    apply share_nonempty; lia.
  - by apply shares_concat.
  - apply Forall_fmap, Forall_forall. intros r Hin.
    apply elem_of_seq in Hin as [_ Hin]. simpl in *.
    intros Hnil. apply (f_equal length) in Hnil. unfold py_slice in Hnil.
    rewrite length_take, length_drop in Hnil. simpl in Hnil.
    pose proof (proj2 (share_nonempty n P r Hin)) as Hne.
    pose proof (share_start_le n P (S r)). fold n in Hnil. lia.
Qed.

Lemma get_slice_list_per_process_partition_witness :
  ∃ shares,
    collect (λ r, share ← get_slice_list_per_process grid_2_3 4 r false;
                  Ok share.1) (seq 0 4) = Ok shares ∧
    concat shares = grid_2_3_slices ∧
    Forall (λ share, share ≠ []) shares.
Proof.
  apply (get_slice_list_per_process_partition grid_2_3 grid_2_3_slices 4).
  - reflexivity.
  - lia.
  - simpl. lia.
Defined.

(** X12: A rank that is not below the number of processes is an [IndexError],
    whatever the batches. *)
Theorem get_slice_list_per_process_bad_rank {A} (self : Hdf5TransportData A) slice_list P r frameList :
  get_grouped_slice_list self = Ok slice_list →
  (0 < P)%nat → (P ≤ r)%nat →
  get_slice_list_per_process self P r frameList = Err IndexError.
Proof.
  intros Hsl HP Hr. unfold get_slice_list_per_process.
  rewrite Hsl. cbn [mbind result_bind].
  destruct (np_array_split_lookup (seq 0 (length slice_list)) P 0)
    as (parts & -> & Hlen & _); [done..|].
  cbn [mbind result_bind].
  assert (py_getitem parts r = Err IndexError) as ->; [|done].
  unfold py_getitem. by rewrite lookup_ge_None_2 by lia.
Qed.

Lemma get_slice_list_per_process_bad_rank_witness :
  get_slice_list_per_process grid_2_3 4 4 true = Err IndexError.
Proof.
  apply (get_slice_list_per_process_bad_rank grid_2_3 grid_2_3_slices 4 4 true).
  - reflexivity.
  - lia.
  - lia.
Defined.

(** ** The padded read and the stripping, element by element *)

(** *** The padded read *)

(** X13: The read window and its pads together always have the length of the
    requested window plus the pad width on both sides. *)
Theorem calculate_slice_padding_length n it p b len :
  in_bounds n it → 0 ≤ p →
  resolve_item (Sl (calculate_slice_padding it p (Z.of_nat n)).1) n
    = Ok (SelRange b 1 len) →
  0 ≤ (calculate_slice_padding it p (Z.of_nat n)).2.1 ∧
  0 ≤ (calculate_slice_padding it p (Z.of_nat n)).2.2 ∧
  b = Z.max (lo_of it - p) 0 ∧
  Z.of_nat len + (calculate_slice_padding it p (Z.of_nat n)).2.1
    + (calculate_slice_padding it p (Z.of_nat n)).2.2
  = hi_of n it - lo_of it + 2 * p.
Proof.
  intros Hin Hp Hres.
  assert (0 ≤ lo_of it ∧ lo_of it ≤ hi_of n it ∧ hi_of n it ≤ Z.of_nat n)
    as (H0 & H1 & H2).
  { destruct it as [|[sa so st]]; [done|]. by destruct Hin as (_ & ? & ? & ?). }
  destruct (calculate_slice_padding_in_bounds n it p Hin Hp) as [Hr ->].
  rewrite Hr in Hres. injection Hres as <- <-. cbn [fst snd]. lia.
Qed.

Lemma calculate_slice_padding_length_witness :
  0 ≤ (calculate_slice_padding (range_slice 7 10) 2 (Z.of_nat 10)).2.1 ∧
  0 ≤ (calculate_slice_padding (range_slice 7 10) 2 (Z.of_nat 10)).2.2 ∧
  5 = Z.max (lo_of (range_slice 7 10) - 2) 0 ∧
  Z.of_nat 5 + (calculate_slice_padding (range_slice 7 10) 2 (Z.of_nat 10)).2.1
    + (calculate_slice_padding (range_slice 7 10) 2 (Z.of_nat 10)).2.2
  = hi_of 10 (range_slice 7 10) - lo_of (range_slice 7 10) + 2 * 2.
Proof.
  apply (calculate_slice_padding_length 10 (range_slice 7 10) 2 5 5).
  - simpl. split; [by right|lia].
  - lia.
  - reflexivity.
Defined.

Lemma dim_padded_read p n it :
  in_bounds n it → (0 < n)%nat → (∀ q, p = Some q → 0 ≤ q) →
  ∃ b_r len_r,
    resolve_item (read_item p n it) n = Ok (SelRange b_r 1 len_r) ∧
    0 ≤ (read_pads p n it).1 ∧ 0 ≤ (read_pads p n it).2 ∧
    (len_r = 0%nat → read_pads p n it = (0, 0)) ∧
    Z.to_nat (Z.of_nat len_r + (read_pads p n it).1 + (read_pads p n it).2)
    = Z.to_nat (hi_of n it - lo_of it + 2 * default 0 p) ∧
    ∀ j, (j < Z.to_nat (hi_of n it - lo_of it + 2 * default 0 p)%Z)%nat →
      Z.to_nat (b_r + Z.of_nat (edge_index len_r (read_pads p n it).1 j) * 1)
      = Z.to_nat (Z.min (Z.of_nat n - 1)
                    (Z.max 0 (lo_of it - default 0 p + Z.of_nat j))).
Proof.
  intros Hin Hn Hp.
  assert (0 ≤ lo_of it ∧ lo_of it ≤ hi_of n it ∧ hi_of n it ≤ Z.of_nat n)
    as (H0 & H1 & H2).
  { destruct it as [|[sa so st]]; [done|]. by destruct Hin as (_ & ? & ? & ?). }
  unfold read_item, read_pads. destruct p as [p|]; cbn [default from_option id].
  - specialize (Hp p eq_refl).
    destruct (calculate_slice_padding_in_bounds n it p Hin Hp) as [-> ->].
    cbn [fst snd].
    generalize dependent (lo_of it). generalize dependent (hi_of n it).
    intros hi ? lo ? ?.
    exists (Z.max (lo - p) 0),
      (Z.to_nat (Z.min (hi + p) (Z.of_nat n) - Z.max (lo - p) 0)).
    split; [done|]. split; [lia|]. split; [lia|].
    split. { intros ?. f_equal; lia. }
    split; [lia|]. intros j Hj. unfold edge_index. lia.
  - rewrite resolve_item_in_bounds by done.
    exists (lo_of it), (Z.to_nat (hi_of n it - lo_of it)).
    split; [done|]. split; [done|]. split; [done|]. split; [done|].
    cbn [fst snd]. split; [lia|]. intros j Hj. unfold edge_index. lia.
Qed.

Lemma padded_read_dims pf l :
  Forall (λ x, in_bounds x.1 x.2 ∧ (0 < x.1)%nat) l →
  (∀ d q, pf d = Some q → 0 ≤ q) →
  ∃ ss_r,
    resolve (read_slices pf l) l.*1 = Ok ss_r ∧
    length (read_pad_list pf l) = length (sel_shape ss_r) ∧
    forallb (λ p, (0 <=? p.1) && (0 <=? p.2)) (read_pad_list pf l) = true ∧
    forallb (λ np, negb (Nat.eqb np.1 0 && ((0 <? np.2.1) || (0 <? np.2.2))))
      (zip (sel_shape ss_r) (read_pad_list pf l)) = true ∧
    padded_shape (sel_shape ss_r) (read_pad_list pf l) = extended_shape pf l ∧
    ∀ i, Forall2 lt i (extended_shape pf l) →
      sel_index ss_r (pad_index (sel_shape ss_r) (read_pad_list pf l) i)
      = extended_index pf l i.
Proof.
  intros Hl. revert pf.
  induction Hl as [|[n it] l [Hin Hn] _ IH]; intros pf Hpf.
  - exists []. split_and!; done.
  - destruct (IH (pf ∘ S)) as (ss_r & Hr & Hlen & Hnn & Hne & Hshape & Hidx);
      [intros d q; apply Hpf|].
    destruct (dim_padded_read (pf 0%nat) n it Hin Hn (Hpf 0%nat))
      as (b_r & len_r & Hr0 & Hlo & Hhi & Hempty & Hlen0 & Hidx0).
    exists (SelRange b_r 1 len_r :: ss_r).
    unfold read_slices, read_pad_list, padded_shape, extended_shape in *.
    cbn [imap fmap list_fmap resolve fst snd sel_shape zip_with zip forallb
         length].
    simpl in Hr0. rewrite Hr0. cbn [mbind result_bind].
    fold (@fmap list _ _ _ (@fst nat item) l).
    unfold compose in *. cbv beta in *.
    rewrite Hr. cbn [mbind result_bind sel_shape zip_with].
    split_and!; try done.
    + by rewrite Hlen.
    + rewrite Hnn, andb_true_r. apply andb_true_intro.
      split; by apply Z.leb_le.
    + rewrite Hne, andb_true_r. apply negb_true_iff, andb_false_iff.
      destruct (decide (len_r = 0%nat)) as [->|Hpos].
      * right. rewrite Hempty by done. done.
      * left. by apply Nat.eqb_neq.
    + by rewrite Hshape, Hlen0.
    + intros i Hi. apply Forall2_cons_inv_r in Hi as (j & i' & Hj & Hi' & ->).
      cbn [sel_index pad_index hd tl extended_index fst snd].
      destruct (read_pads (pf 0%nat) n it) as [lo hi] eqn:Hpads.
      cbn [fst snd hd tl sel_index pad_index] in *.
      rewrite Hidx0 by done. f_equal. by apply Hidx.
Qed.

(** X14: What [get_padded_slice_data] returns when padding is set: along each
    direction it has the length of the window plus the pad width on both
    sides, and its element at any position is the element of the data at
    the position the window would reach there, moved to the nearest end of
    the array when that lies outside (the edge values are repeated). *)
Theorem get_padded_slice_data_edge_extended {A} (self : Hdf5TransportData A)
    (window : list item) pd :
  padding_directions self = Some pd →
  shape (data self) = get_shape self →
  get_shape self ≠ [] →
  Forall (λ n, 0 < n)%nat (get_shape self) →
  Forall2 in_bounds (get_shape self) window →
  (∀ d p, pd !! d = Some p → 0 ≤ p ∧ (d < length (get_shape self))%nat) →
  ∃ padded,
    get_padded_slice_data self window = Ok padded ∧
    shape padded = extended_shape (pd !!.) (zip (get_shape self) window) ∧
    ∀ i, Forall2 lt i (shape padded) →
      at_ padded i
      = at_ (data self)
          (extended_index (pd !!.) (zip (get_shape self) window) i).
Proof.
  intros Hpd Hdata Hne Hpos Hwin Hpad.
  pose proof (Forall2_length _ _ _ Hwin) as Hlen.
  set (l := zip (get_shape self) window).
  assert (l.*1 = get_shape self) as Hl1 by (apply fst_zip; lia).
  assert (length l = length window) as Hll
    by (unfold l; rewrite length_zip; lia).
  assert (Forall (λ x, in_bounds x.1 x.2 ∧ (0 < x.1)%nat) l) as Hl.
  { apply Forall_lookup. intros d [n it] Hx.
    apply lookup_zip_Some in Hx as [Hn Hit]. split.
    - by eapply Forall2_lookup_lr.
    - by eapply (proj1 (Forall_lookup _ _) Hpos). }
  unfold get_padded_slice_data. rewrite Hpd.
  destruct (padded_read_dims (pd !!.) l Hl)
    as (ss_r & Hr & Hlpl & Hnn & Hnz & Hshape & Hidx).
  { intros d q Hq. by eapply Hpad. }
  rewrite Hl1 in Hr.
  rewrite pad_directions_Ok;
    [|done|intros d p Hp; rewrite <- Hlen; by eapply Hpad].
  fold l. cbn [mbind result_bind].
  rewrite get_pad_data_slices; last first.
  { unfold read_slices, read_pad_list. by rewrite !length_imap. }
  { apply read_slices_Sl. eapply Forall_impl; [exact Hl|]. by intros ? [? _]. }
  unfold np_getitem. rewrite Hdata, Hr. cbn [mbind result_bind].
  unfold np_pad_edge. cbn [shape at_].
  rewrite decide_True; last first.
  { split; [done|]. intros Hnil. rewrite Hnil in Hlpl. simpl in Hlpl.
    unfold read_pad_list in Hlpl. rewrite length_imap in Hlpl.
    destruct (get_shape self); [done|]. simpl in Hlen. lia. }
  rewrite Hnn, Hnz. eexists. split; [reflexivity|]. cbn [shape at_].
  split; [done|]. intros i Hi. f_equal. apply Hidx. by rewrite <- Hshape.
Qed.

Lemma get_padded_slice_data_edge_extended_witness :
  ∃ padded,
    get_padded_slice_data ten_padded_by_2 [range_slice 7 10] = Ok padded ∧
    shape padded
    = extended_shape (({[0%nat := 2]} : gmap nat Z) !!.)
        (zip (get_shape ten_padded_by_2) [range_slice 7 10]) ∧
    ∀ i, Forall2 lt i (shape padded) →
      at_ padded i
      = at_ (data ten_padded_by_2)
          (extended_index (({[0%nat := 2]} : gmap nat Z) !!.)
             (zip (get_shape ten_padded_by_2) [range_slice 7 10]) i).
Proof.
  apply (get_padded_slice_data_edge_extended ten_padded_by_2
           [range_slice 7 10] {[0%nat := 2]}).
  - reflexivity.
  - reflexivity.
  - discriminate.
  - repeat constructor.
  - repeat constructor; simpl; lia.
  - intros d p Hp. apply lookup_singleton_Some in Hp as [<- <-].
    simpl. lia.
Defined.

(** *** Stripping *)

Lemma strip_dims pf shape :
  (∀ d q, pf d = Some q → 0 ≤ q) →
  ∃ ss_s,
    resolve (imap (λ d _, strip_item (pf d)) shape) shape = Ok ss_s ∧
    sel_shape ss_s = stripped_shape pf shape ∧
    ∀ i, Forall2 lt i (stripped_shape pf shape) →
      sel_index ss_s i = stripped_index pf shape i.
Proof.
  revert pf. induction shape as [|m shape IH]; intros pf Hpf.
  - exists []. split_and!; done.
  - destruct (IH (pf ∘ S)) as (ss_s & Hs & Hshape & Hidx);
      [intros d q; apply Hpf|].
    set (p := default 0 (pf 0%nat)).
    assert (0 ≤ p) as Hp.
    { unfold p. destruct (pf 0%nat) eqn:Hq; simpl; [by eapply Hpf|done]. }
    assert (∃ b,
      resolve_item (strip_item (pf 0%nat)) m
      = Ok (SelRange b 1 (Z.to_nat (Z.of_nat m - 2 * p))) ∧
      ∀ j, (j < Z.to_nat (Z.of_nat m - 2 * p)%Z)%nat →
        Z.to_nat (b + Z.of_nat j * 1) = Z.to_nat (p + Z.of_nat j))
      as (b & Hres & Hb).
    { unfold strip_item. fold p. case_decide.
      - exists (Z.min p (Z.of_nat m)). rewrite resolve_item_strip by done.
        split; [do 2 f_equal; lia|]. intros j Hj. lia.
      - exists 0. rewrite resolve_item_step_1 by (by left). simpl.
        split; [do 2 f_equal; lia|]. intros j Hj. lia. }
    exists (SelRange b 1 (Z.to_nat (Z.of_nat m - 2 * p)) :: ss_s).
    unfold stripped_shape in *.
    cbn [imap resolve sel_shape]. rewrite Hres. cbn [mbind result_bind].
    unfold compose in *. cbv beta in *. rewrite Hs. cbn [mbind result_bind].
    split_and!; [done|by rewrite Hshape|].
    intros i Hi. apply Forall2_cons_inv_r in Hi as (j & i' & Hj & Hi' & ->).
    cbn [sel_index stripped_index hd tl]. fold p.
    rewrite Hb by done. f_equal. by apply Hidx.
Qed.

(** X15: What [get_unpadded_slice_data] returns when padding is set, for any
    array of as many dimensions as the window: the pad width is taken off
    both ends of every padded direction, whatever the window and whatever
    the array holds (an extent below twice the pad width leaves nothing). *)
Theorem get_unpadded_slice_data_strips {A} (self : Hdf5TransportData A)
    (window : list item) (padded_dataset : ndarray A) pd :
  padding_directions self = Some pd →
  length (shape padded_dataset) = length window →
  (∀ d p, pd !! d = Some p → 0 ≤ p ∧ (d < length window)%nat) →
  ∃ out,
    get_unpadded_slice_data self window padded_dataset = Ok out ∧
    shape out = stripped_shape (pd !!.) (shape padded_dataset) ∧
    ∀ i, Forall2 lt i (shape out) →
      at_ out i
      = at_ padded_dataset
          (stripped_index (pd !!.) (shape padded_dataset) i).
Proof.
  intros Hpd Hlen Hpad.
  unfold get_unpadded_slice_data. rewrite Hpd.
  rewrite pad_directions_Ok; [|done|intros d p Hp; by eapply Hpad].
  cbn [mbind result_bind]. rewrite <- Hlen.
  destruct (strip_slices_Ok pd (shape padded_dataset)) as (el & Hel & Hcol).
  { intros d p Hp. rewrite Hlen. by eapply Hpad. }
  rewrite Hel. cbn [mbind result_bind]. rewrite Hcol.
  cbn [mbind result_bind]. unfold np_getitem.
  destruct (strip_dims (pd !!.) (shape padded_dataset))
    as (ss_s & Hs & Hshape & Hidx).
  { intros d q Hq. by eapply Hpad. }
  rewrite Hs. cbn [mbind result_bind]. eexists. split; [reflexivity|].
  cbn [shape at_]. split; [done|]. intros i Hi. f_equal. apply Hidx.
  by rewrite <- Hshape.
Qed.

Lemma get_unpadded_slice_data_strips_witness :
  ∃ out,
    get_unpadded_slice_data ten_padded_by_2 [range_slice 7 10]
      (NdArray [7%nat] (hd 0%nat)) = Ok out ∧
    shape out
    = stripped_shape (({[0%nat := 2]} : gmap nat Z) !!.) (shape (NdArray [7%nat] (hd 0%nat))) ∧
    ∀ i, Forall2 lt i (shape out) →
      at_ out i
      = at_ (NdArray [7%nat] (hd 0%nat))
          (stripped_index (({[0%nat := 2]} : gmap nat Z) !!.)
             (shape (NdArray [7%nat] (hd 0%nat))) i).
Proof.
  apply (get_unpadded_slice_data_strips ten_padded_by_2 [range_slice 7 10]
           (NdArray [7%nat] (hd 0%nat)) {[0%nat := 2]}).
  - reflexivity.
  - reflexivity.
  - intros d p Hp. apply lookup_singleton_Some in Hp as [<- <-].
    simpl. lia.
Defined.

(** *** Padding on a direction the window does not have *)

Lemma pad_direction_length exts lists entry lists' :
  pad_direction (py_getitem exts) lists entry = Ok lists' →
  length lists'.1 = length lists.1 ∧ length lists'.2 = length lists.2.
Proof.
  destruct lists as [sl pl], entry as [d p]. unfold pad_direction.
  destruct (py_getitem sl d) as [it|]; [|done]. cbn [mbind result_bind].
  destruct (py_getitem exts d) as [n|]; [|done]. cbn [mbind result_bind].
  destruct (calculate_slice_padding it p (Z.of_nat n)) as [out pads].
  unfold py_setitem. repeat case_decide; try done. cbn [mbind result_bind].
  intros [= <-]. cbn [fst snd]. by rewrite !length_insert.
Qed.

Lemma pad_direction_IndexError exts lists entry e :
  pad_direction (py_getitem exts) lists entry = Err e → e = IndexError.
Proof.
  destruct lists as [sl pl], entry as [d p]. unfold pad_direction, py_getitem.
  destruct (sl !! d) as [it|]; [|by intros [= <-]]. cbn [mbind result_bind].
  destruct (exts !! d) as [n|]; [|by intros [= <-]]. cbn [mbind result_bind].
  destruct (calculate_slice_padding it p (Z.of_nat n)) as [out pads].
  unfold py_setitem. repeat case_decide; cbn [mbind result_bind];
    by intros [= <-].
Qed.

Lemma pad_direction_missing exts sl pl d p :
  (length sl ≤ d)%nat →
  pad_direction (py_getitem exts) (sl, pl) (d, p) = Err IndexError.
Proof.
  intros Hd. unfold pad_direction, py_getitem.
  by rewrite (lookup_ge_None_2 sl d).
Qed.

Lemma pad_direction_loop_missing exts kvs : ∀ sl pl d p,
  (d, p) ∈ kvs → (length sl ≤ d)%nat →
  for_each (pad_direction (py_getitem exts)) (sl, pl) kvs = Err IndexError.
Proof.
  induction kvs as [|[d0 p0] kvs IH]; intros sl pl d p Hin Hd.
  - by apply elem_of_nil in Hin.
  - cbn [for_each].
    destruct (pad_direction (py_getitem exts) (sl, pl) (d0, p0))
      as [[sl' pl']|e] eqn:Hstep.
    + cbn [mbind result_bind].
      pose proof (pad_direction_length _ _ _ _ Hstep) as [Hls _].
      cbn [fst] in Hls.
      apply elem_of_cons in Hin as [[= <- <-]|Hin].
      * rewrite pad_direction_missing in Hstep by done. done.
      * eapply IH; [done|]. by rewrite Hls.
    + cbn [mbind result_bind]. by apply pad_direction_IndexError in Hstep as ->.
Qed.

(** X16: Both padding methods raise [IndexError] as soon as the padding
    dictionary names a direction the window has no entry for, whatever the
    other directions, the data and the array handed in are. *)
Theorem padding_direction_outside_window {A} (self : Hdf5TransportData A)
    (window : list item) (padded_dataset : ndarray A) pd d p :
  padding_directions self = Some pd →
  pd !! d = Some p →
  (length window ≤ d)%nat →
  get_padded_slice_data self window = Err IndexError ∧
  get_unpadded_slice_data self window padded_dataset = Err IndexError.
Proof.
  intros Hpd Hp Hd.
  apply elem_of_map_to_list in Hp.
  unfold get_padded_slice_data, get_unpadded_slice_data, pad_directions.
  rewrite Hpd.
  by rewrite !(pad_direction_loop_missing _ _ _ _ d p) by done.
Qed.

Lemma padding_direction_outside_window_witness :
  get_padded_slice_data ten_padded_by_2 [] = Err IndexError ∧
  get_unpadded_slice_data ten_padded_by_2 [] (NdArray [7%nat] (hd 0%nat))
  = Err IndexError.
Proof.
  apply (padding_direction_outside_window ten_padded_by_2 []
           (NdArray [7%nat] (hd 0%nat)) {[0%nat := 2]} 0%nat 2).
  - reflexivity.
  - reflexivity.
  - simpl. lia.
Defined.

(** *** Without padding *)

Lemma plain_read_dims pf l :
  (∀ d, pf d = None) →
  Forall (λ x, in_bounds x.1 x.2) l →
  ∃ ss,
    resolve l.*2 l.*1 = Ok ss ∧
    sel_shape ss = extended_shape pf l ∧
    ∀ i, Forall2 lt i (extended_shape pf l) →
      sel_index ss i = extended_index pf l i.
Proof.
  intros Hpf Hl. revert pf Hpf.
  induction Hl as [|[n it] l Hin _ IH]; intros pf Hpf.
  - exists []. split_and!; done.
  - destruct (IH (pf ∘ S)) as (ss & Hr & Hshape & Hidx);
      [intros d; apply Hpf|].
    assert (0 ≤ lo_of it ∧ lo_of it ≤ hi_of n it ∧ hi_of n it ≤ Z.of_nat n)
      as (H0 & H1 & H2).
    { destruct it as [|[sa so st]]; [done|].
      by destruct Hin as (_ & ? & ? & ?). }
    exists (SelRange (lo_of it) 1 (Z.to_nat (hi_of n it - lo_of it)) :: ss).
    unfold extended_shape in *.
    cbn [imap fmap list_fmap resolve fst snd sel_shape].
    simpl in Hin. rewrite (resolve_item_in_bounds n it Hin).
    cbn [mbind result_bind].
    fold (@fmap list _ _ _ (@fst nat item) l).
    fold (@fmap list _ _ _ (@snd nat item) l).
    unfold compose in *. cbv beta in *.
    rewrite Hr. cbn [mbind result_bind sel_shape].
    rewrite Hpf. cbn [default from_option id].
    split_and!; [done|f_equal; [f_equal; lia|done]|].
    intros i Hi. apply Forall2_cons_inv_r in Hi as (j & i' & Hj & Hi' & ->).
    cbn [sel_index extended_index hd tl fst snd]. rewrite Hpf.
    cbn [default from_option id]. f_equal; [lia|]. by apply Hidx.
Qed.

(** X17: When no padding is set, both methods read the window from the data:
    [get_unpadded_slice_data] does not look at the array it is handed and
    returns what [get_padded_slice_data] returns, the elements of the data
    within the window. *)
Theorem slice_data_without_padding {A} (self : Hdf5TransportData A)
    (window : list item) :
  padding_directions self = None →
  shape (data self) = get_shape self →
  Forall2 in_bounds (get_shape self) window →
  ∃ out,
    get_padded_slice_data self window = Ok out ∧
    (∀ padded_dataset,
       get_unpadded_slice_data self window padded_dataset = Ok out) ∧
    shape out = extended_shape (λ _, None) (zip (get_shape self) window) ∧
    ∀ i, Forall2 lt i (shape out) →
      at_ out i
      = at_ (data self)
          (extended_index (λ _, None) (zip (get_shape self) window) i).
Proof.
  intros Hpd Hdata Hwin.
  pose proof (Forall2_length _ _ _ Hwin) as Hlen.
  set (l := zip (get_shape self) window).
  assert (l.*1 = get_shape self) as Hl1 by (apply fst_zip; lia).
  assert (l.*2 = window) as Hl2 by (apply snd_zip; lia).
  assert (Forall (λ x, in_bounds x.1 x.2) l) as Hl.
  { apply Forall_lookup. intros d [n it] Hx.
    apply lookup_zip_Some in Hx as [Hn Hit]. by eapply Forall2_lookup_lr. }
  destruct (plain_read_dims (λ _, None) l) as (ss & Hr & Hshape & Hidx);
    [done..|].
  rewrite Hl1, Hl2 in Hr.
  unfold get_padded_slice_data, get_unpadded_slice_data. rewrite Hpd.
  unfold np_getitem. rewrite Hdata, Hr. cbn [mbind result_bind].
  eexists. split; [reflexivity|]. split; [done|]. cbn [shape at_].
  split; [done|]. intros i Hi. f_equal. apply Hidx. by rewrite <- Hshape.
Qed.

Lemma slice_data_without_padding_witness :
  ∃ out,
    get_padded_slice_data ten_unpadded [range_slice 7 10] = Ok out ∧
    (∀ padded_dataset,
       get_unpadded_slice_data ten_unpadded [range_slice 7 10] padded_dataset
       = Ok out) ∧
    shape out
    = extended_shape (λ _, None)
        (zip (get_shape ten_unpadded) [range_slice 7 10]) ∧
    ∀ i, Forall2 lt i (shape out) →
      at_ out i
      = at_ (data ten_unpadded)
          (extended_index (λ _, None)
             (zip (get_shape ten_unpadded) [range_slice 7 10]) i).
Proof.
  apply (slice_data_without_padding ten_unpadded [range_slice 7 10]).
  - reflexivity.
  - reflexivity.
  - repeat constructor; simpl; lia.
Defined.

(** ** Orthogonal projection *)

Lemma py_range_seq n : py_range 0 (Z.of_nat n) 1 = Z.of_nat <$> seq 0 n.
Proof.
  unfold py_range. simpl. destruct (0 <? Z.of_nat n) eqn:Hn.
  - rewrite Z.div_1_r. replace (Z.to_nat (Z.of_nat n - 0 - 1 + 1)) with n by lia.
    apply list_fmap_ext. intros _ k _. lia.
  - apply Z.ltb_ge in Hn. by replace n with 0%nat by lia.
Qed.

Lemma filter_all {A} (P : A → Prop) `{∀ x, Decision (P x)} (l : list A) :
  Forall P l → filter P l = l.
Proof.
  induction 1 as [|x l Hx _ IH]; [done|].
  by rewrite filter_cons, decide_True, IH.
Qed.

Lemma py_remove_length x l l' :
  py_remove x l = Ok l' → length l = S (length l').
Proof.
  revert l'. induction l as [|y l IH]; intros l' Hr; [done|]. simpl in Hr.
  case_decide; [by simplify_eq|].
  destruct (py_remove x l) as [l''|]; [|done]. simpl in Hr. simplify_eq.
  simpl. f_equal. by apply IH.
Qed.

Lemma remove_loop_length core : ∀ dirs dirs',
  for_each (λ dirs direction, py_remove direction dirs) dirs core = Ok dirs' →
  (length dirs' + length core)%nat = length dirs.
Proof.
  induction core as [|c core IH]; intros dirs dirs' Hr; simpl in Hr.
  - simplify_eq. simpl. lia.
  - destruct (py_remove c dirs) as [d1|] eqn:Hc; [|done]. simpl in Hr.
    apply py_remove_length in Hc. apply IH in Hr. simpl. lia.
Qed.

Lemma py_remove_Ok x l :
  NoDup l → x ∈ l → py_remove x l = Ok (filter (λ y, y ≠ x) l).
Proof.
  induction l as [|y l IH]; intros Hnd Hin; [by apply elem_of_nil in Hin|].
  apply NoDup_cons in Hnd as [Hy Hnd]. simpl. rewrite filter_cons.
  destruct (decide (y = x)) as [->|Hne].
  - rewrite decide_False by (by intros ?). f_equal.
    symmetry. apply filter_all.
    apply Forall_forall. intros z Hz ->. done.
  - rewrite decide_True by done. apply elem_of_cons in Hin as [->|Hin]; [done|].
    by rewrite IH.
Qed.

Lemma py_remove_Err x l : x ∉ l → py_remove x l = Err ValueError.
Proof.
  induction l as [|y l IH]; intros Hin; [done|].
  apply not_elem_of_cons in Hin as [Hne Hin]. simpl.
  rewrite decide_False by done. by rewrite IH.
Qed.

Lemma remove_loop core : ∀ dirs,
  NoDup dirs →
  for_each (λ dirs direction, py_remove direction dirs) dirs core
  = if decide (NoDup core ∧ Forall (λ d, d ∈ dirs) core)
    then Ok (filter (λ d, d ∉ core) dirs)
    else Err ValueError.
Proof.
  induction core as [|c core IH]; intros dirs Hnd.
  - cbn [for_each]. rewrite decide_True.
    + f_equal. symmetry. apply filter_all, Forall_forall.
      intros ? _. apply not_elem_of_nil.
    + split; constructor.
  - cbn [for_each]. destruct (decide (c ∈ dirs)) as [Hc|Hc].
    + rewrite py_remove_Ok by done. cbn [mbind result_bind].
      rewrite IH by (by apply NoDup_filter).
      destruct (decide (NoDup core ∧ _)) as [[Hndc Hsub]|Hno].
      * rewrite Forall_forall in Hsub. rewrite decide_True.
        -- f_equal. rewrite list_filter_filter. apply list_filter_iff.
           intros d. rewrite not_elem_of_cons. tauto.
        -- split.
           ++ apply NoDup_cons. split; [|done]. intros Hcc.
              apply Hsub, list_elem_of_filter in Hcc as [? _]. done.
           ++ apply Forall_cons. split; [done|]. apply Forall_forall.
              intros d Hd.
              by apply Hsub, list_elem_of_filter in Hd as [_ ?].
      * rewrite decide_False; [done|]. intros [Hndc Hsub]. apply Hno.
        apply NoDup_cons in Hndc as [Hcc Hndc]. split; [done|].
        apply Forall_cons in Hsub as [_ Hsub]. rewrite Forall_forall in Hsub.
        apply Forall_forall.
        intros d Hd. apply list_elem_of_filter. split.
        -- intros ->. done.
        -- by apply Hsub.
    + rewrite py_remove_Err by done. cbn [mbind result_bind].
      rewrite decide_False; [done|]. intros [_ Hsub].
      by apply Forall_cons in Hsub as [? _].
Qed.

Lemma py_getitem_int_nat {A} (l : list A) (d : nat) :
  py_getitem_int l (Z.of_nat d) = py_getitem l d.
Proof.
  unfold py_getitem_int. rewrite decide_True by lia. by rewrite Nat2Z.id.
Qed.

Lemma gather_loop {A} (full_slice : list A) dirs : ∀ acc,
  for_each (λ result direction,
              x ← py_getitem_int full_slice (Z.of_nat direction);
              Ok (result ++ [x])) acc dirs
  = if decide (Forall (λ d, d < length full_slice)%nat dirs)
    then Ok (acc ++ omap (λ d, full_slice !! d) dirs)
    else Err IndexError.
Proof.
  induction dirs as [|d dirs IH]; intros acc.
  - cbn [for_each omap list_omap]. rewrite decide_True by done.
    by rewrite app_nil_r.
  - cbn [for_each]. rewrite py_getitem_int_nat. unfold py_getitem.
    destruct (full_slice !! d) as [x|] eqn:Hx.
    + cbn [mbind result_bind]. rewrite IH.
      apply lookup_lt_Some in Hx as Hlt.
      destruct (decide (Forall _ dirs)) as [Hall|Hno].
      * rewrite decide_True by (by constructor). simpl. rewrite Hx.
        by rewrite <- app_assoc.
      * rewrite decide_False; [done|]. intros Hall. apply Hno.
        by apply Forall_cons in Hall as [_ ?].
    + cbn [mbind result_bind]. rewrite decide_False; [done|].
      intros [Hlt _]%Forall_cons. apply lookup_ge_None in Hx. lia.
Qed.

Lemma for_each_fmap {A B C} (f : A → B) (body : C → B → result C) l : ∀ acc,
  for_each body acc (f <$> l) = for_each (λ acc x, body acc (f x)) acc l.
Proof.
  induction l as [|x l IH]; intros acc; [done|]. simpl.
  destruct (body acc (f x)); simpl; [apply IH|done].
Qed.

Lemma filter_fmap_of_nat (core : list Z) (l : list nat) :
  filter (λ d, d ∉ core) (Z.of_nat <$> l)
  = Z.of_nat <$> filter (λ d, Z.of_nat d ∉ core) l.
Proof.
  induction l as [|x l IH]; [done|]. rewrite fmap_cons, !filter_cons.
  case_decide; by rewrite ?fmap_cons, IH.
Qed.

Lemma gather_length {A} (full_slice : list A) dirs : ∀ acc result,
  for_each (λ result direction,
              x ← py_getitem_int full_slice direction; Ok (result ++ [x]))
    acc dirs = Ok result →
  length result = (length acc + length dirs)%nat.
Proof.
  induction dirs as [|d dirs IH]; intros acc result Hr; simpl in Hr.
  - simplify_eq. simpl. lia.
  - destruct (py_getitem_int full_slice d) as [x|]; [|done]. simpl in Hr.
    apply IH in Hr. rewrite length_app in Hr. simpl in *. lia.
Qed.

(** X18: [get_orthogonal_slice] returns exactly when the core directions are
    distinct directions of the descriptor, each given as a number from 0 up
    to its length; it then returns the entries on all the other directions,
    in increasing order of direction. In every other case (a direction
    named twice, a direction the descriptor does not have, a direction
    counted from the end) it raises [ValueError]. *)
Theorem get_orthogonal_slice_complement {A} (full_slice : list A)
    (core_direction : list Z) :
  get_orthogonal_slice full_slice core_direction
  = if decide (NoDup core_direction ∧
               Forall (λ d, 0 ≤ d < Z.of_nat (length full_slice))
                 core_direction)
    then Ok (omap (λ d, full_slice !! d)
               (orthogonal_dirs (length full_slice) core_direction))
    else Err ValueError.
Proof.
  assert (∀ d : Z, d ∈ Z.of_nat <$> seq 0 (length full_slice)
                   ↔ 0 ≤ d < Z.of_nat (length full_slice)) as Hmem.
  { intros d. rewrite list_elem_of_fmap. split.
    - intros (k & -> & Hk). apply elem_of_seq in Hk. lia.
    - intros Hd. exists (Z.to_nat d). split; [lia|]. apply elem_of_seq. lia. }
  assert (NoDup (Z.of_nat <$> seq 0 (length full_slice))) as Hnd.
  { apply NoDup_fmap; [apply _|apply NoDup_seq]. }
  unfold get_orthogonal_slice. rewrite py_range_seq, remove_loop by done.
  destruct (decide (NoDup core_direction ∧ _)) as [[Hndc Hin]|Hno].
  - rewrite decide_True; last first.
    { split; [done|]. eapply Forall_impl; [exact Hin|]. intros d Hd.
      by apply Hmem. }
    cbn [mbind result_bind]. rewrite filter_fmap_of_nat, for_each_fmap.
    rewrite gather_loop.
    fold (orthogonal_dirs (length full_slice) core_direction).
    rewrite decide_True; [done|].
    apply Forall_forall. intros d [_ Hd%elem_of_seq]%list_elem_of_filter. lia.
  - rewrite decide_False; [done|]. intros [Hndc Hin]. apply Hno.
    split; [done|]. eapply Forall_impl; [exact Hin|]. intros d Hd.
    by apply Hmem.
Qed.

(** X19: Whenever [get_orthogonal_slice] returns, it has dropped one entry for
    each core direction: the result and the core directions together are as
    many as the entries of the descriptor. *)
Theorem get_orthogonal_slice_length {A} (full_slice : list A)
    (core_direction : list Z) result :
  get_orthogonal_slice full_slice core_direction = Ok result →
  (length result + length core_direction)%nat = length full_slice.
Proof.
  unfold get_orthogonal_slice. intros Hr.
  destruct (for_each _ (py_range _ _ _) core_direction) as [dirs|] eqn:Hd;
    [|done].
  cbn [mbind result_bind] in Hr.
  apply remove_loop_length in Hd. apply gather_length in Hr.
  rewrite py_range_seq, length_fmap, length_seq in Hd. simpl in Hr. lia.
Qed.

Lemma get_orthogonal_slice_length_witness :
  (length [unit_slice 1; whole] + length [1])%nat
  = length [unit_slice 1; range_slice 2 3; whole].
Proof.
  apply (get_orthogonal_slice_length
           [unit_slice 1; range_slice 2 3; whole] [1]
           [unit_slice 1; whole]).
  reflexivity.
Defined.

(** ** The plugin runner: loaders and savers *)

Lemma py_getitem_int_last {A} (l : list A) :
  py_getitem_int l (-1)
  = match last l with Some x => Ok x | None => Err IndexError end.
Proof.
  unfold py_getitem_int. rewrite decide_False by lia.
  destruct l as [|x l]; [done|]. rewrite decide_True by (simpl; lia).
  unfold py_getitem.
  replace (Z.to_nat (Z.of_nat (length (x :: l)) + -1)) with (length l)
    by (simpl; lia).
  rewrite last_lookup. simpl. by destruct (_ !! _).
Qed.

(** X20: The check lets a plugin list through exactly when the list has a first
    and a last entry, both carry an id, the plugin of the first id is a
    loader and the plugin of the last id is a saver; nothing is asked of
    the entries in between. *)
Theorem check_loaders_and_savers_accepts {Id Plugin}
    (load_plugin : Id → Plugin) (is_loader is_saver : Plugin → bool)
    (plugin_list : list (gmap string Id)) :
  check_loaders_and_savers load_plugin is_loader is_saver plugin_list = inr tt
  ↔ ∃ first_plugin end_plugin first_id end_id,
      head plugin_list = Some first_plugin ∧
      last plugin_list = Some end_plugin ∧
      first_plugin !! "id" = Some first_id ∧
      end_plugin !! "id" = Some end_id ∧
      is_loader (load_plugin first_id) = true ∧
      is_saver (load_plugin end_id) = true.
Proof.
  unfold check_loaders_and_savers.
  change (py_getitem_int plugin_list 0)
    with (py_getitem_int plugin_list (Z.of_nat 0)).
  rewrite py_getitem_int_last, py_getitem_int_nat.
  unfold py_getitem, dict_getitem. rewrite <- head_lookup. split.
  - destruct (head plugin_list) as [fp|]; [|done].
    destruct (last plugin_list) as [ep|]; [|done].
    destruct (fp !! "id") as [i|] eqn:Hi; [|done].
    destruct (is_loader (load_plugin i)) eqn:Hl; [|done]. simpl.
    destruct (ep !! "id") as [j|] eqn:Hj; [|done].
    destruct (is_saver (load_plugin j)) eqn:Hs; [|done].
    intros _. by exists fp, ep, i, j.
  - intros (fp & ep & i & j & -> & -> & -> & Hj & -> & Hs). simpl.
    by rewrite Hj, Hs.
Qed.

Lemma check_loaders_and_savers_accepts_witness :
  check_loaders_and_savers (λ id : nat, id) (Nat.eqb 1) (Nat.eqb 3)
    [{["id" := 1%nat]}; {["id" := 2%nat]}; {["id" := 3%nat]}] = inr tt.
Proof.
  apply (proj2 (check_loaders_and_savers_accepts (λ id : nat, id)
                  (Nat.eqb 1) (Nat.eqb 3)
                  [{["id" := 1%nat]}; {["id" := 2%nat]}; {["id" := 3%nat]}])).
  exists {["id" := 1%nat]}, {["id" := 3%nat]}, 1%nat, 3%nat.
  repeat split.
Defined.

(** X21: When the plugin of the first entry is not a loader the run is ended by
    [sys.exit] with the message about the loader, whatever the last entry
    is: a saver, not a saver, or an entry without an id. *)
Theorem check_loaders_and_savers_loader_first {Id Plugin}
    (load_plugin : Id → Plugin) (is_loader is_saver : Plugin → bool)
    (plugin_list : list (gmap string Id)) first_plugin first_id :
  head plugin_list = Some first_plugin →
  first_plugin !! "id" = Some first_id →
  is_loader (load_plugin first_id) = false →
  check_loaders_and_savers load_plugin is_loader is_saver plugin_list
  = inl (SystemExit
           "The first plugin in the process must inherit from BaseLoader").
Proof.
  intros Hh Hi Hl. unfold check_loaders_and_savers.
  change (py_getitem_int plugin_list 0)
    with (py_getitem_int plugin_list (Z.of_nat 0)).
  rewrite py_getitem_int_last, py_getitem_int_nat.
  unfold py_getitem, dict_getitem. rewrite <- head_lookup, Hh.
  destruct plugin_list as [|p l]; [done|].
  destruct (last (p :: l)) as [ep|] eqn:He; [|by apply last_None in He].
  by rewrite Hi, Hl.
Qed.

Lemma check_loaders_and_savers_loader_first_witness :
  check_loaders_and_savers (λ id : nat, id) (Nat.eqb 1) (Nat.eqb 3)
    [{["id" := 2%nat]}; {["id" := 3%nat]}]
  = inl (SystemExit
           "The first plugin in the process must inherit from BaseLoader").
Proof.
  apply (check_loaders_and_savers_loader_first (λ id : nat, id)
           (Nat.eqb 1) (Nat.eqb 3) _ {["id" := 2%nat]} 2%nat).
  - reflexivity.
  - reflexivity.
  - reflexivity.
Defined.
